(** * EnForHoldet: session tracking engine

    A shallow embedding of the tracking hook, the background location task
    and the storage service, with the properties of the tracking core.

    Modelling conventions.
    - A JavaScript [number] that carries a measurement (coordinates,
      distances, weights in kg) is a real number: the arithmetic is the one
      the code writes down, without rounding, NaN or infinities. This is
      the reading used for the sessions and their totals.
    - [calculateDistance] is given a second time over IEEE 754 doubles
      ([Binary64]), the numbers the program computes with, because its
      result depends on the rounding: there the haversine term can exceed
      1 and the result be NaN.
    - [Date.now()] and the ids and durations derived from it are integers.
    - An optional field ([accuracy?: number]) and a nullable value
      ([number | null]) are both [option]; [None] stands for [undefined] and
      for [null].
    - [JSON.stringify] followed by [JSON.parse] is the identity on the records
      kept in storage, so the store holds typed values.  *)

From Stdlib Require Import Reals Lra Lia ZArith List String Bool.
From Stdlib Require Import DecimalString Ascii Permutation Sorted.
From Stdlib Require PrimFloat.
Import ListNotations.

Set Implicit Arguments.

(* ================================================================== *)
(** ** Data model ([src/types/tracking.ts], the types with the summary
       fields) *)

Inductive Category : Type :=
  | mixed | plastic | metal | glass | paper | other.

Record LocationPoint : Type := mkLocationPoint {
  latitude  : R;
  longitude : R;
  timestamp : R;
  accuracy  : option R;
  altitude  : option R;
  speed     : option R
}.

Record TrackingSession : Type := mkTrackingSession {
  id              : string;
  name            : option string;
  startTime       : Z;
  endTime         : option Z;
  locations       : list LocationPoint;
  distance        : option R;
  duration        : option Z;
  totalWeightG    : option Z;
  foundCategories : option (list Category)
}.

(** The readings of [expo-location]: [Location.LocationObject]. *)
Module Location.

Record LocationObjectCoords : Type := mkCoords {
  latitude  : R;
  longitude : R;
  altitude  : option R;
  accuracy  : option R;
  speed     : option R
}.

Record LocationObject : Type := mkLocationObject {
  coords    : LocationObjectCoords;
  timestamp : R
}.

End Location.

(* ================================================================== *)
(** ** GeoMath: [calculateDistance]

    The formula over the real numbers. It is exact: the haversine term
    stays within [[0, 1]] and the value is always a number. The program
    evaluates the same text in doubles, where this can fail; that
    evaluation is [Binary64.calculateDistance] below. *)

Module GeoMath.

Local Open Scope R_scope.

(** [Math.atan2(y, x)], the angle of the point [(x, y)] in [(-PI, PI]]. *)
Definition Math_atan2 (y x : R) : R :=
  match total_order_T 0 x with
  | inleft (left _) => atan (y / x)                       (* 0 < x *)
  | inleft (right _) =>                                    (* x = 0 *)
      match total_order_T 0 y with
      | inleft (left _) => PI / 2
      | inleft (right _) => 0
      | inright _ => - (PI / 2)
      end
  | inright _ =>                                           (* x < 0 *)
      if Rle_lt_dec 0 y then atan (y / x) + PI else atan (y / x) - PI
  end.

(** The haversine term [a] of [calculateDistance]. *)
Definition haversine_a (point1 point2 : LocationPoint) : R :=
  let lat1Rad := (latitude point1 * PI) / 180 in
  let lat2Rad := (latitude point2 * PI) / 180 in
  let deltaLatRad := ((latitude point2 - latitude point1) * PI) / 180 in
  let deltaLonRad := ((longitude point2 - longitude point1) * PI) / 180 in
  sin (deltaLatRad / 2) * sin (deltaLatRad / 2) +
  cos lat1Rad * cos lat2Rad * sin (deltaLonRad / 2) * sin (deltaLonRad / 2).

(** [calculateDistance], the same text in the hook and in the task, in
    exact arithmetic. *)
Definition calculateDistance (point1 point2 : LocationPoint) : R :=
  let R_ := 6371000 in
  let a := haversine_a point1 point2 in
  let c := 2 * Math_atan2 (sqrt a) (sqrt (1 - a)) in
  R_ * c.

End GeoMath.

(* ================================================================== *)
(** ** [calculateDistance] in double precision

    The same text over IEEE 754 binary64. The operators [*], [/], [+], [-]
    and [Math.sqrt] are the IEEE operations, rounded to nearest; NaN is a
    single value. [Math.sin], [Math.cos] and [Math.atan2] are left by the
    language to the engine, which may return any approximation, so they
    are taken from a record. *)

Module Binary64.

Import PrimFloat.
Local Open Scope float_scope.

(** A [LocationPoint] whose numbers are doubles. *)
Record LocationPoint : Type := mkLocationPoint {
  latitude  : float;
  longitude : float;
  timestamp : float;
  accuracy  : option float;
  altitude  : option float;
  speed     : option float
}.

(** The functions of the [Math] object that the engine approximates. *)
Record Math : Type := mkMath {
  Math_sin   : float -> float;
  Math_cos   : float -> float;
  Math_atan2 : float -> float -> float
}.

(** [Math.PI], the double nearest to pi: 3.141592653589793. *)
Definition Math_PI : float := 0x1.921fb54442d18p+1.

(** [Math.sqrt], the IEEE square root: NaN below zero. *)
Definition Math_sqrt (x : float) : float := sqrt x.

(** The haversine term [a] of [calculateDistance]. *)
Definition haversine_a (M : Math) (point1 point2 : LocationPoint) : float :=
  let lat1Rad := (latitude point1 * Math_PI) / 180 in
  let lat2Rad := (latitude point2 * Math_PI) / 180 in
  let deltaLatRad := ((latitude point2 - latitude point1) * Math_PI) / 180 in
  let deltaLonRad :=
    ((longitude point2 - longitude point1) * Math_PI) / 180 in
  Math_sin M (deltaLatRad / 2) * Math_sin M (deltaLatRad / 2) +
  Math_cos M lat1Rad * Math_cos M lat2Rad
  * Math_sin M (deltaLonRad / 2) * Math_sin M (deltaLonRad / 2).

(** [calculateDistance] as the engine [M] evaluates it. *)
Definition calculateDistance (M : Math) (point1 point2 : LocationPoint)
  : float :=
  let R_ := 6371000 in
  let a := haversine_a M point1 point2 in
  let c := 2 * Math_atan2 M (Math_sqrt a) (Math_sqrt (1 - a)) in
  R_ * c.

End Binary64.

(* ================================================================== *)
(** ** Effects: a state monad with rejection

    An [async] function is a computation over a state that either resolves
    with a value or rejects with the thrown value; the state reached when
    the rejection happens is kept, as [catch] blocks see it. *)

(** What a [catch (err)] clause may receive: an [Error] with its message,
    or some other value. *)
Inductive Thrown : Type :=
  | ErrorObject (message : string)
  | OtherValue.

(** [err instanceof Error ? err.message : fallback] *)
Definition messageOr (err : Thrown) (fallback : string) : string :=
  match err with
  | ErrorObject m => m
  | OtherValue => fallback
  end.

Inductive Outcome (A : Type) : Type :=
  | Resolved (a : A)
  | Rejected (err : Thrown).
Arguments Rejected {A} err.

(** The answer of a platform call that the program awaits. *)
Inductive Reply (A : Type) : Type :=
  | Replies (a : A)
  | Throws (err : Thrown).
Arguments Throws {A} err.

Section Eff.

Variable S : Type.

Definition Eff (A : Type) : Type := S -> Outcome A * S.

Definition ret {A} (a : A) : Eff A := fun s => (Resolved a, s).

Definition throw {A} (err : Thrown) : Eff A := fun s => (Rejected err, s).

Definition bind {A B} (m : Eff A) (k : A -> Eff B) : Eff B :=
  fun s =>
    match m s with
    | (Resolved a, s') => k a s'
    | (Rejected err, s') => (Rejected err, s')
    end.

(** [try { m } catch (err) { handler err }] *)
Definition tryCatch {A} (m : Eff A) (handler : Thrown -> Eff A) : Eff A :=
  fun s =>
    match m s with
    | (Resolved a, s') => (Resolved a, s')
    | (Rejected err, s') => handler err s'
    end.

Definition gets {A} (f : S -> A) : Eff A := fun s => (Resolved (f s), s).

Definition modify (f : S -> S) : Eff unit := fun s => (Resolved tt, f s).

(** [await reply] *)
Definition await {A} (reply : Reply A) : Eff A :=
  match reply with
  | Replies a => ret a
  | Throws err => throw err
  end.

(** The state a computation ends in, and its outcome. *)
Definition exec {A} (m : Eff A) (s : S) : S := snd (m s).
Definition outcome {A} (m : Eff A) (s : S) : Outcome A := fst (m s).

End Eff.

Arguments ret {S A} a _.
Arguments throw {S A} err _.
Arguments gets {S A} f _.
Arguments modify {S} f _.
Arguments await {S A} reply _.

Declare Scope eff_scope.
Delimit Scope eff_scope with eff.
Notation "x <- m ;; k" := (bind m (fun x => k))
  (at level 61, m at next level, right associativity) : eff_scope.
Notation "m ;;; k" := (bind m (fun _ => k))
  (at level 61, right associativity) : eff_scope.
Open Scope eff_scope.

(* ================================================================== *)
(** ** The runtime: AsyncStorage and the clock *)

Inductive Key : Type := SESSIONS_KEY | CURRENT_SESSION_KEY.

(** The value kept under a key, before [JSON.stringify]. *)
Definition Stored (k : Key) : Type :=
  match k with
  | SESSIONS_KEY => list TrackingSession
  | CURRENT_SESSION_KEY => TrackingSession
  end.

(** A write the storage acknowledged. *)
Inductive WriteOp : Type :=
  | SetItem (k : Key) (v : Stored k)
  | RemoveItem (k : Key).

(** [ioFault n] tells whether the [n]-th AsyncStorage call of the run
    rejects, and with what; [clock n] is what the [n]-th [Date.now()]
    returns. Both are given by the environment. *)
Record World : Type := mkWorld {
  sessionsItem : option (list TrackingSession);
  currentItem  : option TrackingSession;
  writes       : list WriteOp;
  ioFault      : nat -> option Thrown;
  ioCount      : nat;
  clock        : nat -> Z;
  clockCount   : nat
}.

Module AsyncStorage.

Definition item (w : World) (k : Key) : option (Stored k) :=
  match k with
  | SESSIONS_KEY => sessionsItem w
  | CURRENT_SESSION_KEY => currentItem w
  end.

Definition store (k : Key) (v : option (Stored k)) (op : WriteOp) (w : World)
  : World :=
  match k return option (Stored k) -> World with
  | SESSIONS_KEY => fun v =>
      mkWorld v (currentItem w) (writes w ++ [op])
              (ioFault w) (ioCount w) (clock w) (clockCount w)
  | CURRENT_SESSION_KEY => fun v =>
      mkWorld (sessionsItem w) v (writes w ++ [op])
              (ioFault w) (ioCount w) (clock w) (clockCount w)
  end v.

Definition called (w : World) : World :=
  mkWorld (sessionsItem w) (currentItem w) (writes w)
          (ioFault w) (S (ioCount w)) (clock w) (clockCount w).

(** One call of the storage: it rejects when the environment says so and
    otherwise performs its effect. *)
Definition call {A} (effect : World -> A * World) : Eff World A :=
  fun w =>
    match ioFault w (ioCount w) with
    | Some err => (Rejected err, called w)
    | None => let (a, w') := effect (called w) in (Resolved a, w')
    end.

Definition getItem (k : Key) : Eff World (option (Stored k)) :=
  call (fun w => (item w k, w)).

Definition setItem (k : Key) (v : Stored k) : Eff World unit :=
  call (fun w => (tt, store k (Some v) (SetItem k v) w)).

Definition removeItem (k : Key) : Eff World unit :=
  call (fun w => (tt, store k None (RemoveItem k) w)).

End AsyncStorage.

(** The world after [n] calls that rejected or only read, after the
    acknowledged [setItem(SESSIONS_KEY, ..)], and after the acknowledged
    write of the current-session key ([removeItem] for [None]). *)
Fixpoint afterCalls (n : nat) (w : World) : World :=
  match n with
  | O => w
  | S n => AsyncStorage.called (afterCalls n w)
  end.

Definition withSessions (v : list TrackingSession) (w : World) : World :=
  AsyncStorage.store SESSIONS_KEY (Some v) (SetItem SESSIONS_KEY v) w.

Definition withCurrent (v : option TrackingSession) (w : World) : World :=
  match v with
  | Some s =>
      AsyncStorage.store CURRENT_SESSION_KEY (Some s)
                         (SetItem CURRENT_SESSION_KEY s) w
  | None =>
      AsyncStorage.store CURRENT_SESSION_KEY None
                         (RemoveItem CURRENT_SESSION_KEY) w
  end.

(** [Date.now()] *)
Definition Date_now : Eff World Z :=
  fun w =>
    (Resolved (clock w (clockCount w)),
     mkWorld (sessionsItem w) (currentItem w) (writes w)
             (ioFault w) (ioCount w) (clock w) (S (clockCount w))).

(** [`session_${n}`] *)
Definition sessionIdOf (n : Z) : string :=
  ("session_" ++ NilZero.string_of_int (Z.to_int n))%string.

(* ================================================================== *)
(** ** storageService ([src/unnamed/part_004]) *)

Module storageService.

Definition getSessions : Eff World (list TrackingSession) :=
  tryCatch
    (data <- AsyncStorage.getItem SESSIONS_KEY ;;
     ret (match data with Some sessions => sessions | None => [] end))
    (fun _ => ret []).

Definition saveSession (session : TrackingSession) : Eff World unit :=
  tryCatch
    (sessions <- getSessions ;;
     let updatedSessions := sessions ++ [session] in
     AsyncStorage.setItem SESSIONS_KEY updatedSessions)
    (fun error => throw error).

Definition getSession (id_ : string) : Eff World (option TrackingSession) :=
  tryCatch
    (sessions <- getSessions ;;
     ret (find (fun s => String.eqb (id s) id_) sessions))
    (fun _ => ret None).

Definition deleteSession (id_ : string) : Eff World unit :=
  tryCatch
    (sessions <- getSessions ;;
     let updatedSessions :=
       filter (fun s => negb (String.eqb (id s) id_)) sessions in
     AsyncStorage.setItem SESSIONS_KEY updatedSessions)
    (fun error => throw error).

Definition saveCurrentSession (session : option TrackingSession)
  : Eff World unit :=
  tryCatch
    (match session with
     | Some s => AsyncStorage.setItem CURRENT_SESSION_KEY s
     | None => AsyncStorage.removeItem CURRENT_SESSION_KEY
     end)
    (fun _ => ret tt).

Definition getCurrentSession : Eff World (option TrackingSession) :=
  tryCatch
    (data <- AsyncStorage.getItem CURRENT_SESSION_KEY ;;
     ret data)
    (fun _ => ret None).

End storageService.

(* ================================================================== *)
(** ** Ingesting a reading

    The text shared by the watcher callback of the hook
    ([src/hooks/useLocationTracking.ts]), [handleLocationUpdate]
    ([src/unnamed/part_000]) and the background task
    ([src/unnamed/part_001]). *)

Module Ingest.

Import GeoMath.

(** [x || undefined] on a number that may be [null]: every falsy value
    becomes [undefined]. *)
Definition orUndefined (x : option R) : option R :=
  match x with
  | Some v => if Req_dec_T v 0%R then None else Some v
  | None => None
  end.

(** The [locationPoint] literal. *)
Definition toLocationPoint (location : Location.LocationObject)
  : LocationPoint :=
  let c := Location.coords location in
  {| latitude  := Location.latitude c;
     longitude := Location.longitude c;
     timestamp := Location.timestamp location;
     accuracy  := orUndefined (Location.accuracy c);
     altitude  := orUndefined (Location.altitude c);
     speed     := orUndefined (Location.speed c) |}.

(** Reading an index of the array; the loop below stays within bounds,
    where the default is never returned. *)
Definition at_ (l : list LocationPoint) (i : nat) : LocationPoint :=
  nth i l (mkLocationPoint 0 0 0 None None None).

(** The body of the loop: [totalDistance += calculateDistance(l[i - 1],
    l[i])]. *)
Definition loopBody (updatedLocations : list LocationPoint)
           (totalDistance : R) (i : nat) : R :=
  (totalDistance
   + calculateDistance (at_ updatedLocations (i - 1))
                       (at_ updatedLocations i))%R.

(** [let totalDistance = 0; if (length > 1) for (let i = 1; i < length;
    i++) { .. }] *)
Definition totalDistanceOf (updatedLocations : list LocationPoint) : R :=
  if (1 <? List.length updatedLocations)%nat
  then fold_left (loopBody updatedLocations)
                 (seq 1 (List.length updatedLocations - 1))
                 0%R
  else 0%R.

(** [{...prev, locations: updatedLocations, distance: totalDistance,
      duration: now - prev.startTime}] *)
Definition updatedSession (prev : TrackingSession)
           (locationPoint : LocationPoint) (now : Z) : TrackingSession :=
  let updatedLocations := locations prev ++ [locationPoint] in
  let totalDistance := totalDistanceOf updatedLocations in
  {| id := id prev;
     name := name prev;
     startTime := startTime prev;
     endTime := endTime prev;
     locations := updatedLocations;
     distance := Some totalDistance;
     duration := Some (now - startTime prev)%Z;
     totalWeightG := totalWeightG prev;
     foundCategories := foundCategories prev |}.

(** The session made from a reading that finds no session
    ([part_000], [part_001]). *)
Definition sessionFromFirst (sessionId : string) (start : Z)
           (locationPoint : LocationPoint) : TrackingSession :=
  {| id := sessionId;
     name := None;
     startTime := start;
     endTime := None;
     locations := [locationPoint];
     distance := Some 0%R;
     duration := Some 0%Z;
     totalWeightG := None;
     foundCategories := None |}.

(** The session that [startTracking] makes. *)
Definition emptySession (sessionId : string) (start : Z) : TrackingSession :=
  {| id := sessionId;
     name := None;
     startTime := start;
     endTime := None;
     locations := [];
     distance := None;
     duration := None;
     totalWeightG := None;
     foundCategories := None |}.

(** [{...currentSession, endTime: t1, duration: t2 - startTime}] *)
Definition finalSession (currentSession : TrackingSession) (t1 t2 : Z)
  : TrackingSession :=
  {| id := id currentSession;
     name := name currentSession;
     startTime := startTime currentSession;
     endTime := Some t1;
     locations := locations currentSession;
     distance := distance currentSession;
     duration := Some (t2 - startTime currentSession)%Z;
     totalWeightG := totalWeightG currentSession;
     foundCategories := foundCategories currentSession |}.

End Ingest.

(* ================================================================== *)
(** ** The state of the hook *)

Inductive PermissionStatus : Type := granted | denied | undetermined.

Definition isGranted (status : PermissionStatus) : bool :=
  match status with granted => true | _ => false end.

(** The four cells of [useLocationTracking]: three [useState] and the
    [useRef] holding the watcher subscription. *)
Record HookState : Type := mkHookState {
  isTracking              : bool;
  currentSession          : option TrackingSession;
  error                   : option string;
  locationSubscriptionRef : option nat
}.

(** The hook runs over its own cells and the runtime. *)
Record App : Type := mkApp {
  hook  : HookState;
  world : World
}.

Definition onWorld {A} (m : Eff World A) : Eff App A :=
  fun s =>
    let (r, w') := m (world s) in
    (r, mkApp (hook s) w').

Definition onHook (f : HookState -> HookState) : Eff App unit :=
  modify (fun s => mkApp (f (hook s)) (world s)).

Definition setIsTracking (b : bool) : Eff App unit :=
  onHook (fun h => mkHookState b (currentSession h) (error h)
                               (locationSubscriptionRef h)).

Definition setCurrentSession (v : option TrackingSession) : Eff App unit :=
  onHook (fun h => mkHookState (isTracking h) v (error h)
                               (locationSubscriptionRef h)).

Definition setError (v : option string) : Eff App unit :=
  onHook (fun h => mkHookState (isTracking h) (currentSession h) v
                               (locationSubscriptionRef h)).

Definition setLocationSubscriptionRef (v : option nat) : Eff App unit :=
  onHook (fun h => mkHookState (isTracking h) (currentSession h) (error h) v).

(** [if (ref.current) { ref.current.remove(); ref.current = null; }] *)
Definition removeSubscription : Eff App unit :=
  ref <- gets (fun s => locationSubscriptionRef (hook s)) ;;
  match ref with
  | Some _ => setLocationSubscriptionRef None
  | None => ret tt
  end.

(* ================================================================== *)
(** ** The hook, foreground only ([src/hooks/useLocationTracking.ts]) *)

Module ForegroundHook.

Import Ingest.

Definition requestPermissions (permission : Reply PermissionStatus)
  : Eff App bool :=
  tryCatch
    (status <- await permission ;;
     if negb (isGranted status)
     then setError (Some "Location permission not granted"%string) ;;;
          ret false
     else ret true)
    (fun _ =>
       setError (Some "Failed to request location permission"%string) ;;;
       ret false).

(** The callback given to [Location.watchPositionAsync], the same text in
    [startTracking] and in [loadActiveSession]. *)
Definition onLocation (location : Location.LocationObject) : Eff App unit :=
  let locationPoint := toLocationPoint location in
  prev <- gets (fun s => currentSession (hook s)) ;;
  match prev with
  | None => ret tt
  | Some prev =>
      now <- onWorld Date_now ;;
      let updated := updatedSession prev locationPoint now in
      onWorld (storageService.saveCurrentSession (Some updated)) ;;;
      setCurrentSession (Some updated)
  end.

Definition startTracking (permission : Reply PermissionStatus)
           (watch : Reply nat) : Eff App unit :=
  tryCatch
    (hasPermission <- requestPermissions permission ;;
     if negb hasPermission then ret tt
     else
       setError None ;;;
       t1 <- onWorld Date_now ;;
       let sessionId := sessionIdOf t1 in
       t2 <- onWorld Date_now ;;
       let newSession := emptySession sessionId t2 in
       setCurrentSession (Some newSession) ;;;
       setIsTracking true ;;;
       subscription <- await watch ;;
       setLocationSubscriptionRef (Some subscription))
    (fun err =>
       setError (Some (messageOr err "Failed to start tracking")) ;;;
       setIsTracking false).

Definition stopTracking : Eff App unit :=
  tryCatch
    (removeSubscription ;;;
     currentSession <- gets (fun s => currentSession (hook s)) ;;
     match currentSession with
     | Some currentSession =>
         t1 <- onWorld Date_now ;;
         t2 <- onWorld Date_now ;;
         let final := finalSession currentSession t1 t2 in
         onWorld (storageService.saveSession final) ;;;
         onWorld (storageService.saveCurrentSession None) ;;;
         setCurrentSession None
     | None => ret tt
     end ;;;
     setIsTracking false)
    (fun err =>
       setError (Some (messageOr err "Failed to stop tracking"))).

Definition loadActiveSession (permission : Reply PermissionStatus)
           (watch : Reply nat) : Eff App unit :=
  activeSession <- onWorld storageService.getCurrentSession ;;
  match activeSession with
  | Some activeSession =>
      setCurrentSession (Some activeSession) ;;;
      setIsTracking true ;;;
      tryCatch
        (hasPermission <- requestPermissions permission ;;
         if hasPermission
         then subscription <- await watch ;;
              setLocationSubscriptionRef (Some subscription)
         else ret tt)
        (fun _ => setError (Some "Failed to resume tracking"%string))
  | None => ret tt
  end.

End ForegroundHook.

(* ================================================================== *)
(** ** The hook with background updates ([src/unnamed/part_000]) *)

Record Permissions : Type := mkPermissions {
  getForegroundPermissionsAsync     : Reply PermissionStatus;
  requestForegroundPermissionsAsync : Reply PermissionStatus;
  requestBackgroundPermissionsAsync : Reply PermissionStatus
}.

Module BackgroundHook.

Import Ingest.

Definition requestPermissions (p : Permissions) : Eff App bool :=
  tryCatch
    (currentStatus <- await (getForegroundPermissionsAsync p) ;;
     foregroundStatus <-
       (if negb (isGranted currentStatus)
        then await (requestForegroundPermissionsAsync p)
        else ret currentStatus) ;;
     if negb (isGranted foregroundStatus)
     then setError (Some "Location permission is required to track your workout. Please enable it in Settings."%string) ;;;
          ret false
     else
       tryCatch
         (backgroundStatus <- await (requestBackgroundPermissionsAsync p) ;;
          ret tt)
         (fun _ => ret tt) ;;;
       ret true)
    (fun err =>
       let errorMessage := messageOr err "Unknown error" in
       setError (Some ("Failed to request location permission: "
                       ++ errorMessage)%string) ;;;
       ret false).

Definition handleLocationUpdate (location : Location.LocationObject)
  : Eff App unit :=
  let locationPoint := toLocationPoint location in
  prev <- gets (fun s => currentSession (hook s)) ;;
  match prev with
  | None =>
      t1 <- onWorld Date_now ;;
      let sessionId := sessionIdOf t1 in
      t2 <- onWorld Date_now ;;
      let newSession := sessionFromFirst sessionId t2 locationPoint in
      onWorld (storageService.saveCurrentSession (Some newSession)) ;;;
      setCurrentSession (Some newSession)
  | Some prev =>
      now <- onWorld Date_now ;;
      let updated := updatedSession prev locationPoint now in
      onWorld (storageService.saveCurrentSession (Some updated)) ;;;
      setCurrentSession (Some updated)
  end.

(** [try { await Location.startLocationUpdatesAsync(..) } catch { warn }],
    and the same shape around [stopLocationUpdatesAsync]. *)
Definition attempt (platform : Reply unit) : Eff App unit :=
  tryCatch (await platform) (fun _ => ret tt).

Definition startTracking (p : Permissions) (startBackground : Reply unit)
           (watch : Reply nat) : Eff App unit :=
  tryCatch
    (hasPermission <- requestPermissions p ;;
     if negb hasPermission then ret tt
     else
       setError None ;;;
       t1 <- onWorld Date_now ;;
       let sessionId := sessionIdOf t1 in
       t2 <- onWorld Date_now ;;
       let newSession := emptySession sessionId t2 in
       setCurrentSession (Some newSession) ;;;
       setIsTracking true ;;;
       attempt startBackground ;;;
       subscription <- await watch ;;
       setLocationSubscriptionRef (Some subscription))
    (fun err =>
       setError (Some (messageOr err "Failed to start tracking")) ;;;
       setIsTracking false).

Definition stopTracking (stopBackground : Reply unit) : Eff App unit :=
  tryCatch
    (removeSubscription ;;;
     attempt stopBackground ;;;
     currentSession <- gets (fun s => currentSession (hook s)) ;;
     match currentSession with
     | Some currentSession =>
         t1 <- onWorld Date_now ;;
         t2 <- onWorld Date_now ;;
         let final := finalSession currentSession t1 t2 in
         onWorld (storageService.saveSession final) ;;;
         onWorld (storageService.saveCurrentSession None) ;;;
         setCurrentSession None
     | None => ret tt
     end ;;;
     setIsTracking false)
    (fun err =>
       setError (Some (messageOr err "Failed to stop tracking"))).

Definition loadActiveSession (p : Permissions) (startBackground : Reply unit)
           (watch : Reply nat) : Eff App unit :=
  activeSession <- onWorld storageService.getCurrentSession ;;
  match activeSession with
  | Some activeSession =>
      setCurrentSession (Some activeSession) ;;;
      setIsTracking true ;;;
      tryCatch
        (hasPermission <- requestPermissions p ;;
         if hasPermission
         then attempt startBackground ;;;
              subscription <- await watch ;;
              setLocationSubscriptionRef (Some subscription)
         else ret tt)
        (fun _ => setError (Some "Failed to resume tracking"%string))
  | None => ret tt
  end.

End BackgroundHook.

(* ================================================================== *)
(** ** The background task ([src/unnamed/part_001]) *)

Module LocationTask.

Import Ingest.

(** The body of [for (const location of locations)]. *)
Definition onLocation (location : Location.LocationObject)
  : Eff World unit :=
  let locationPoint := toLocationPoint location in
  currentSession <- storageService.getCurrentSession ;;
  match currentSession with
  | Some currentSession =>
      now <- Date_now ;;
      let updated := updatedSession currentSession locationPoint now in
      storageService.saveCurrentSession (Some updated)
  | None =>
      t1 <- Date_now ;;
      let sessionId := sessionIdOf t1 in
      t2 <- Date_now ;;
      let newSession := sessionFromFirst sessionId t2 locationPoint in
      storageService.saveCurrentSession (Some newSession)
  end.

Fixpoint forEach (locations : list Location.LocationObject)
  : Eff World unit :=
  match locations with
  | [] => ret tt
  | location :: rest => onLocation location ;;; forEach rest
  end.

(** The function given to [TaskManager.defineTask]. *)
Definition task (data : option (list Location.LocationObject))
           (error : option Thrown) : Eff World unit :=
  match error with
  | Some _ => ret tt
  | None =>
      match data with
      | Some locations => forEach locations
      | None => ret tt
      end
  end.

End LocationTask.

(* ================================================================== *)
(** ** The summary screen ([src/types/tracking.ts], from line 227:
       [SessionSummary], [onSubmit]) *)

Module SessionSummary.

(** [SessionSummaryFormData], the value the form hands to [onSubmit]. *)
Module Form.
Record SessionSummaryFormData : Type := mkFormData {
  totalWeightKg   : R;
  foundCategories : list Category
}.
End Form.

(** [Math.round]: the nearest integer, halves upwards. *)
Definition Math_round (x : R) : Z := Int_part (x + / 2)%R.

(** Where the screen goes when [onSubmit] is over. *)
Inductive Navigation : Type :=
  | NoSession          (* [if (!session) return] *)
  | RouterBack
  | RouterReplaceHome
  | AlertFailed.       (* the [catch] branch *)

(** The session the screen loads for [params.sessionId], if any. *)
Definition loadSession (sessionId : option string)
  : Eff World (option TrackingSession) :=
  match sessionId with
  | None => ret None
  | Some sessionId =>
      if String.eqb sessionId "" then ret None
      else
        loadedSession <- storageService.getSession sessionId ;;
        match loadedSession with
        | Some loadedSession => ret (Some loadedSession)
        | None =>
            currentSession <- storageService.getCurrentSession ;;
            match currentSession with
            | Some currentSession =>
                if String.eqb (id currentSession) sessionId
                then ret (Some currentSession)
                else ret None
            | None => ret None
            end
        end
  end.

(** [session.endTime || Date.now()] *)
Definition endTimeOrNow (session : TrackingSession) : Eff World Z :=
  match endTime session with
  | Some e => if (e =? 0)%Z then Date_now else ret e
  | None => Date_now
  end.

(** [{...session, endTime: .., totalWeightG, foundCategories:
    data.foundCategories}] *)
Definition withSummary (session : TrackingSession) (endTime_ : Z)
           (totalWeightG_ : Z) (data : Form.SessionSummaryFormData)
  : TrackingSession :=
  {| id := id session;
     name := name session;
     startTime := startTime session;
     endTime := Some endTime_;
     locations := locations session;
     distance := distance session;
     duration := duration session;
     totalWeightG := Some totalWeightG_;
     foundCategories := Some (Form.foundCategories data) |}.

Definition onSubmit (session : option TrackingSession)
           (data : Form.SessionSummaryFormData) : Eff World Navigation :=
  match session with
  | None => ret NoSession
  | Some session =>
      tryCatch
        (let totalWeightG_ := Math_round (Form.totalWeightKg data * 1000)%R in
         endTime_ <- endTimeOrNow session ;;
         let updatedSession :=
           withSummary session endTime_ totalWeightG_ data in
         storageService.saveSession updatedSession ;;;
         currentSession <- storageService.getCurrentSession ;;
         match currentSession with
         | Some currentSession =>
             if String.eqb (id currentSession) (id session)
             then storageService.saveCurrentSession None
             else ret tt
         | None => ret tt
         end ;;;
         ret (match totalWeightG session, foundCategories session with
              | None, None => RouterReplaceHome
              | _, _ => RouterBack
              end))
        (fun _ => ret AlertFailed)
  end.

End SessionSummary.

(* ================================================================== *)
(** ** Vocabulary of the statements *)

(** The reading of the clock that the next [Date.now()] returns. *)
Definition nextNow (w : World) : Z := clock w (clockCount w).

(** What [getCurrentSession] answers in the world [w]. *)
Definition readCurrent (w : World) : option TrackingSession :=
  match ioFault w (ioCount w) with
  | None => currentItem w
  | Some _ => None
  end.

(** The hook cells after [setCurrentSession v]. *)
Definition adopt (v : option TrackingSession) (h : HookState) : HookState :=
  mkHookState (isTracking h) v (error h) (locationSubscriptionRef h).

(* ================================================================== *)
(** ** What the specification says, in its own words *)

Module Spec.




(** [Removed i l l']: [l'] is [l] without the entries whose id is [i],
    the others kept as they are and in their order. *)
Inductive Removed (i : string) :
  list TrackingSession -> list TrackingSession -> Prop :=
  | Removed_nil : Removed i [] []
  | Removed_drop s l l' :
      id s = i -> Removed i l l' -> Removed i (s :: l) l'
  | Removed_keep s l l' :
      id s <> i -> Removed i l l' -> Removed i (s :: l) (s :: l').

(** The storage answers every call. *)
Definition reliable (w : World) : Prop :=
  forall n, ioFault w n = None.

(** The completed sessions kept in the store. *)
Definition completed (w : World) : list TrackingSession :=
  match sessionsItem w with
  | Some sessions => sessions
  | None => []
  end.

(** What the store durably holds: the two items and the acknowledged
    writes. *)
Definition stored (w : World)
  : option (list TrackingSession) * option TrackingSession * list WriteOp :=
  (sessionsItem w, currentItem w, writes w).



End Spec.

(* ================================================================== *)
(** ** A concrete run *)

Module Scenario.

(** An empty store that answers every call; the clock starts at 1000 and
    advances by one at each reading. *)
Definition world0 : World :=
  mkWorld None None [] (fun _ => None) 0 (fun n => (1000 + Z.of_nat n)%Z) 0.

(** The hook as it is mounted: not tracking, no session. *)
Definition idle0 : App :=
  mkApp (mkHookState false None None None) world0.

(** Fix A (lat 0, lon 0, t 1000) and fix B (lat 0, lon 0.001, t 2000). *)
Definition fixA : Location.LocationObject :=
  Location.mkLocationObject (Location.mkCoords 0 0 None None None) 1000.

Definition fixB : Location.LocationObject :=
  Location.mkLocationObject
    (Location.mkCoords 0 (1 / 1000) None None None) 2000.

(** A reading of a receiver at rest, at sea level, with a perfect fix. *)
Definition fixAtRest : Location.LocationObject :=
  Location.mkLocationObject
    (Location.mkCoords 0 0 (Some 0%R) (Some 0%R) (Some 0%R)) 3000.

Definition pointA : LocationPoint := mkLocationPoint 0 0 1000 None None None.

(** A session that is being tracked, with one location. *)
Definition first1 : TrackingSession :=
  {| id := "session_1";
     name := None;
     startTime := 1;
     endTime := None;
     locations := [pointA];
     distance := Some 0%R;
     duration := Some 0%Z;
     totalWeightG := None;
     foundCategories := None |}.

Definition worldActive : World :=
  mkWorld None (Some first1) [] (fun _ => None) 0
          (fun n => (1000 + Z.of_nat n)%Z) 0.

Definition active0 : App :=
  mkApp (mkHookState true (Some first1) None (Some 7%nat)) worldActive.

(** The same session, stopped, with the summary 2500 g, plastic and
    glass, as the only completed session of the store. *)
Definition summarised1 : TrackingSession :=
  {| id := "session_1";
     name := None;
     startTime := 1;
     endTime := Some 2000%Z;
     locations := [pointA];
     distance := Some 0%R;
     duration := Some 1999%Z;
     totalWeightG := Some 2500%Z;
     foundCategories := Some [plastic; glass] |}.

Definition worldCompleted : World :=
  mkWorld (Some [summarised1]) None [] (fun _ => None) 0
          (fun n => (1000 + Z.of_nat n)%Z) 0.

(** The form filled again: 1 kg, metal. *)
Definition secondForm : SessionSummary.Form.SessionSummaryFormData :=
  SessionSummary.Form.mkFormData 1 [metal].

(** What [onSubmit] saves for it. *)
Definition resubmitted1 : TrackingSession :=
  {| id := "session_1";
     name := None;
     startTime := 1;
     endTime := Some 2000%Z;
     locations := [pointA];
     distance := Some 0%R;
     duration := Some 1999%Z;
     totalWeightG := Some 1000%Z;
     foundCategories := Some [metal] |}.

(** A second completed session, and a store holding both. *)
Definition other2 : TrackingSession :=
  {| id := "session_2";
     name := None;
     startTime := 5000;
     endTime := Some 6000%Z;
     locations := [];
     distance := None;
     duration := Some 1000%Z;
     totalWeightG := None;
     foundCategories := None |}.

Definition worldTwo : World :=
  mkWorld (Some [summarised1; other2; resubmitted1]) (Some first1) []
          (fun _ => None) 0 (fun n => (1000 + Z.of_nat n)%Z) 0.

End Scenario.

(* ================================================================== *)
(** ** The summary screen, the rest ([src/types/tracking.ts], from line
       227: [toggleCategory], the values given to [reset], the handler of
       "Save Without Summary") *)

Module SummaryScreen.

Definition Category_eqb (a b : Category) : bool :=
  match a, b with
  | mixed, mixed | plastic, plastic | metal, metal
  | glass, glass | paper, paper | other, other => true
  | _, _ => false
  end.

(** [currentCategories.includes(category)] *)
Definition includes (currentCategories : list Category) (category : Category)
  : bool :=
  existsb (Category_eqb category) currentCategories.

Definition toggleCategory (category : Category)
           (currentCategories : list Category) : list Category :=
  if includes currentCategories category
  then filter (fun c => negb (Category_eqb c category)) currentCategories
  else currentCategories ++ [category].

(** The values [loadSession] gives to [reset]:
    [totalWeightG ? totalWeightG / 1000 : 0] and [foundCategories || []]. *)
Definition formDefaults (loadedSession : TrackingSession)
  : SessionSummary.Form.SessionSummaryFormData :=
  let weightKg :=
    match totalWeightG loadedSession with
    | Some g => if (g =? 0)%Z then 0%R else (IZR g / 1000)%R
    | None => 0%R
    end in
  let categories :=
    match foundCategories loadedSession with
    | Some c => c
    | None => []
    end in
  SessionSummary.Form.mkFormData weightKg categories.

(** [{...session, endTime: session.endTime || Date.now()}] *)
Definition withEndTime (session : TrackingSession) (endTime_ : Z)
  : TrackingSession :=
  {| id := id session;
     name := name session;
     startTime := startTime session;
     endTime := Some endTime_;
     locations := locations session;
     distance := distance session;
     duration := duration session;
     totalWeightG := totalWeightG session;
     foundCategories := foundCategories session |}.

(** The [onPress] of "Save Without Summary", reached from Cancel when the
    screen holds a session. *)
Definition onSaveWithoutSummary (session : TrackingSession)
  : Eff World SessionSummary.Navigation :=
  tryCatch
    (endTime_ <- SessionSummary.endTimeOrNow session ;;
     let sessionWithoutSummary := withEndTime session endTime_ in
     storageService.saveSession sessionWithoutSummary ;;;
     storageService.saveCurrentSession None ;;;
     ret (match totalWeightG session, foundCategories session with
          | None, None => SessionSummary.RouterReplaceHome
          | _, _ => SessionSummary.RouterBack
          end))
    (fun _ => ret SessionSummary.AlertFailed).

End SummaryScreen.

(* ================================================================== *)
(** ** Formatting ([src/utils/format.ts])

    Strings are ASCII. A duration is a whole number of milliseconds, as
    the differences of [Date.now()] are. *)

Module Format.

(** [n.toString()] for an integer. *)
Definition toString (n : Z) : string :=
  NilZero.string_of_int (Z.to_int n).

Fixpoint replicate (n : nat) (c : Ascii.ascii) : string :=
  match n with
  | O => EmptyString
  | S n => String c (replicate n c)
  end.

(** [s.padStart(targetLength, c)] for a pad of one character. *)
Definition padStart (targetLength : nat) (c : Ascii.ascii) (s : string)
  : string :=
  (replicate (targetLength - String.length s) c ++ s)%string.

Definition formatDuration (milliseconds : Z) : string :=
  let totalSeconds := (milliseconds / 1000)%Z in
  let hours := (totalSeconds / 3600)%Z in
  let minutes := (Z.rem totalSeconds 3600 / 60)%Z in
  let seconds := Z.rem totalSeconds 60 in
  if (0 <? hours)%Z
  then (toString hours ++ ":" ++ padStart 2 "0"%char (toString minutes)
        ++ ":" ++ padStart 2 "0"%char (toString seconds))%string
  else (toString minutes ++ ":" ++ padStart 2 "0"%char (toString seconds))%string.

(** [c.toUpperCase()] on one ASCII character. *)
Definition toUpperCase (c : Ascii.ascii) : Ascii.ascii :=
  let n := Ascii.nat_of_ascii c in
  if ((97 <=? n) && (n <=? 122))%nat
  then Ascii.ascii_of_nat (n - 32)
  else c.

(** [c.charAt(0).toUpperCase() + c.slice(1)] *)
Definition capitalize (c : string) : string :=
  match c with
  | EmptyString => EmptyString
  | String first rest => String (toUpperCase first) rest
  end.

(** [parts.join(separator)] *)
Fixpoint join (separator : string) (parts : list string) : string :=
  match parts with
  | [] => EmptyString
  | [part] => part
  | part :: rest => (part ++ separator ++ join separator rest)%string
  end.

Definition formatCategories (categories : option (list string)) : string :=
  match categories with
  | None => "No categories"%string
  | Some [] => "No categories"%string
  | Some categories => join ", " (map capitalize categories)
  end.

(** The string of a [Category], as the type declares it. *)
Definition categoryValue (c : Category) : string :=
  match c with
  | mixed => "mixed"
  | plastic => "plastic"
  | metal => "metal"
  | glass => "glass"
  | paper => "paper"
  | other => "other"
  end.

(** The [label] of the table [CATEGORIES] of the summary screen. *)
Definition categoryLabel (c : Category) : string :=
  match c with
  | mixed => "Mixed"
  | plastic => "Plastic"
  | metal => "Metal"
  | glass => "Glass"
  | paper => "Paper"
  | other => "Other"
  end.

End Format.

(* ================================================================== *)
(** ** The list of sessions ([src/app/sessions.tsx],
       [src/unnamed/part_003]) *)

Module Sessions.

(** [Array.prototype.sort] is stable: with a comparator that orders the
    elements consistently its result is the one of a stable insertion. *)
Fixpoint insert {A} (compareFn : A -> A -> Z) (x : A) (sorted : list A)
  : list A :=
  match sorted with
  | [] => [x]
  | y :: rest =>
      if (compareFn x y <=? 0)%Z then x :: y :: rest
      else y :: insert compareFn x rest
  end.

Fixpoint Array_sort {A} (compareFn : A -> A -> Z) (l : list A) : list A :=
  match l with
  | [] => []
  | x :: rest => insert compareFn x (Array_sort compareFn rest)
  end.

(** [(a, b) => b.startTime - a.startTime] *)
Definition newestFirst (a b : TrackingSession) : Z :=
  (startTime b - startTime a)%Z.

(** [loadSessions]: what [setSessions] receives, if anything. *)
Definition loadSessions : Eff World (option (list TrackingSession)) :=
  tryCatch
    (loadedSessions <- storageService.getSessions ;;
     let sorted := Array_sort newestFirst loadedSessions in
     ret (Some sorted))
    (fun _ => ret None).

(** The [onPress] of "Delete" in [handleDelete]. *)
Definition onDelete (session : TrackingSession)
  : Eff World (option (list TrackingSession)) :=
  storageService.deleteSession (id session) ;;;
  loadSessions.

End Sessions.

(* ================================================================== *)
(** ** Vocabulary of the further properties *)

(** The hook never says it is tracking without holding a session. *)
Definition trackingHasSession (h : HookState) : Prop :=
  isTracking h = true -> currentSession h <> None.

(** The cells of a hook that was just mounted. *)
Definition mounted : HookState := mkHookState false None None None.

(** [a] may be shown before [b]: it did not start earlier. *)
Definition newerOrSame (a b : TrackingSession) : Prop :=
  (startTime b <= startTime a)%Z.

(** The entries of a list that started at [t], in the order of the list. *)
Definition startedAt (t : Z) (l : list TrackingSession)
  : list TrackingSession :=
  filter (fun s => (startTime s =? t)%Z) l.

(* ================================================================== *)
(** ** More concrete runs *)

Module Examples.

Import Scenario.

Definition diskFull : Thrown := ErrorObject "disk full".

(** A storage whose call number [k] rejects, all others answer. *)
Definition failingAt (k : nat) : nat -> option Thrown :=
  fun n => if Nat.eqb n k then Some diskFull else None.

Definition clockFrom1000 : nat -> Z := fun n => (1000 + Z.of_nat n)%Z.

(** The store of [worldTwo] over such a storage. *)
Definition worldTwoFailingAt (k : nat) : World :=
  mkWorld (Some [summarised1; other2; resubmitted1]) (Some first1) []
          (failingAt k) 0 clockFrom1000 0.

(** The hook tracking "session_1" over such a storage. *)
Definition activeFailingAt (k : nat) : App :=
  mkApp (mkHookState true (Some first1) None (Some 7%nat))
        (mkWorld None (Some first1) [] (failingAt k) 0 clockFrom1000 0).

(** "session_1" is being tracked and "session_2" is completed. *)
Definition worldTracking : World :=
  mkWorld (Some [other2]) (Some first1) [] (fun _ => None) 0 clockFrom1000 0.

(** The form filled with 2.5 kg, plastic and glass. *)
Definition firstForm : SessionSummary.Form.SessionSummaryFormData :=
  SessionSummary.Form.mkFormData (5 / 2) [plastic; glass].

End Examples.

(* ================================================================== *)
(** ** Two fixes at antipodes *)

Module Antipodes.

Import PrimFloat Binary64.
Local Open Scope float_scope.

(** Latitude 8, longitude 0, and the point opposite on the globe:
    latitude -8, longitude 180. Both are valid coordinates. *)
Definition north8 : LocationPoint :=
  mkLocationPoint 8 0 1000 None None None.

Definition south8 : LocationPoint :=
  mkLocationPoint (-8) 180 2000 None None None.

(** The angles that [calculateDistance north8 south8] passes to
    [Math.sin] and [Math.cos]: half the difference of the latitudes
    (-0.13962634015954636), the two latitudes in radians and half the
    difference of the longitudes (1.5707963267948966). *)
Definition halfDeltaLat : float := -0x1.1df46a2529d39p-3.
Definition lat1Rad : float := 0x1.1df46a2529d39p-3.
Definition lat2Rad : float := -0x1.1df46a2529d39p-3.
Definition halfDeltaLon : float := 0x1.921fb54442d18p+0.

(** The doubles nearest to the sine of -0.13962634015954636
    (-0.13917310096006544) and to the cosine of 0.13962634015954636
    (0.9902680687415704). *)
Definition sinHalfDeltaLat : float := -0x1.1d06c968d9e19p-3.
Definition cosLat : float := 0x1.fb046a930947ap-1.

(** An engine that answers these calls with the nearest doubles and
    gives NaN for a NaN argument; elsewhere it takes the first terms of
    the series, which is of no concern here. *)
Definition nearest : Math :=
  {| Math_sin := fun x =>
       if x =? halfDeltaLon then 1
       else if x =? halfDeltaLat then sinHalfDeltaLat
       else x - x * x * x / 6;
     Math_cos := fun x =>
       if abs x =? lat1Rad then cosLat
       else 1 - x * x / 2;
     Math_atan2 := fun y x =>
       if is_nan x then nan
       else if is_nan y then nan
       else y / x |}.

End Antipodes.

Unset Implicit Arguments.

(* ================================================================== *)
(** ** Facts on GeoMath *)

Section GeoMathFacts.

Local Open Scope R_scope.
Import GeoMath.

Lemma Math_atan2_nonneg (y x : R) :
  0 <= y -> 0 <= x -> 0 <= Math_atan2 y x.
Proof.
  intros Hy Hx. unfold Math_atan2.
  destruct (total_order_T 0 x) as [[Hlt | Heq] | Hgt].
  - destruct Hy as [Hy | <-].
    + left. rewrite <- atan_0. apply atan_increasing.
      apply Rdiv_lt_0_compat; assumption.
    + unfold Rdiv. rewrite Rmult_0_l, atan_0. lra.
  - destruct (total_order_T 0 y) as [[Hly | Hey] | Hgy].
    + pose proof PI_RGT_0. lra.
    + lra.
    + lra.
  - lra.
Qed.

Lemma Math_atan2_0_1 : Math_atan2 0 1 = 0.
Proof.
  unfold Math_atan2.
  destruct (total_order_T 0 1) as [[Hlt | Heq] | Hgt]; try lra.
  unfold Rdiv. rewrite Rmult_0_l. apply atan_0.
Qed.

(** The haversine term stays in [[0, 1]] for all real coordinates, so
    neither [Math.sqrt] of [calculateDistance] sees a negative number. *)
Lemma haversine_a_range (p q : LocationPoint) :
  0 <= haversine_a p q <= 1.
Proof.
  unfold haversine_a.
  set (u := latitude p * PI / 180).
  set (v := latitude q * PI / 180).
  set (h := sin ((longitude q - longitude p) * PI / 180 / 2)).
  replace ((latitude q - latitude p) * PI / 180 / 2) with (v / 2 - u / 2)
    by (unfold u, v; field).
  assert (Hu : cos u = cos (u / 2) * cos (u / 2) - sin (u / 2) * sin (u / 2)).
  { rewrite <- cos_2a. f_equal. field. }
  assert (Hv : cos v = cos (v / 2) * cos (v / 2) - sin (v / 2) * sin (v / 2)).
  { rewrite <- cos_2a. f_equal. field. }
  rewrite Hu, Hv, sin_minus.
  pose proof (sin2_cos2 (u / 2)) as Pu. unfold Rsqr in Pu.
  pose proof (sin2_cos2 (v / 2)) as Pv. unfold Rsqr in Pv.
  pose proof (SIN_bound ((longitude q - longitude p) * PI / 180 / 2)) as Hh.
  fold h in Hh.
  set (su := sin (u / 2)) in *. set (cu := cos (u / 2)) in *.
  set (sv := sin (v / 2)) in *. set (cv := cos (v / 2)) in *.
  assert (H2 : 0 <= h * h <= 1) by nra.
  set (k := h * h) in *.
  replace ((cu * cu - su * su) * (cv * cv - sv * sv) * h * h)
    with ((cu * cu - su * su) * (cv * cv - sv * sv) * k) by (unfold k; ring).
  clearbody k su cu sv cv. clear Hu Hv Hh h u v.
  split.
  - (* (sv cu - cv su)^2 + k (cu^2-su^2)(cv^2-sv^2) >= 0 *)
    assert (E : (sv * cu - cv * su) * (sv * cu - cv * su)
                + (cu * cu - su * su) * (cv * cv - sv * sv) * k
                = (1 - k) * ((sv * cu - cv * su) * (sv * cu - cv * su))
                  + k * ((cu * cv - su * sv) * (cu * cv - su * sv))) by nra.
    rewrite E.
    pose proof (Rle_0_sqr (sv * cu - cv * su)) as A. unfold Rsqr in A.
    pose proof (Rle_0_sqr (cu * cv - su * sv)) as B. unfold Rsqr in B.
    nra.
  - assert (E : 1 - ((sv * cu - cv * su) * (sv * cu - cv * su)
                + (cu * cu - su * su) * (cv * cv - sv * sv) * k)
                = (1 - k) * ((cu * cv + su * sv) * (cu * cv + su * sv))
                  + k * ((sv * cu + cv * su) * (sv * cu + cv * su))) by nra.
    pose proof (Rle_0_sqr (cu * cv + su * sv)) as A. unfold Rsqr in A.
    pose proof (Rle_0_sqr (sv * cu + cv * su)) as B. unfold Rsqr in B.
    nra.
Qed.

Lemma haversine_a_sym (p q : LocationPoint) :
  haversine_a p q = haversine_a q p.
Proof.
  unfold haversine_a.
  replace ((latitude p - latitude q) * PI / 180 / 2)
    with (- ((latitude q - latitude p) * PI / 180 / 2)) by field.
  replace ((longitude p - longitude q) * PI / 180 / 2)
    with (- ((longitude q - longitude p) * PI / 180 / 2)) by field.
  rewrite !sin_neg. ring.
Qed.

Lemma haversine_a_same_coordinates (p q : LocationPoint) :
  latitude p = latitude q -> longitude p = longitude q ->
  haversine_a p q = 0.
Proof.
  intros Hlat Hlon. unfold haversine_a. rewrite Hlat, Hlon.
  replace ((latitude q - latitude q) * PI / 180 / 2) with 0 by field.
  replace ((longitude q - longitude q) * PI / 180 / 2) with 0 by field.
  rewrite sin_0. ring.
Qed.

(** The formula in exact arithmetic is a distance: for every pair of
    fixes its value is non-negative, symmetric in its arguments, and 0
    whenever the two fixes have the same latitude and longitude, whatever
    their timestamp, accuracy, altitude and speed are. The haversine term
    lies in [[0, 1]], so both square roots are taken of non-negative
    numbers. The evaluation in doubles does not keep the term within
    these bounds: see the next section. *)
Theorem calculateDistance_nonneg_sym_zero (a b : LocationPoint) :
  0 <= calculateDistance a b
  /\ calculateDistance a b = calculateDistance b a
  /\ (latitude a = latitude b -> longitude a = longitude b ->
      calculateDistance a b = 0)
  /\ 0 <= haversine_a a b <= 1.
Proof.
  unfold calculateDistance. cbv zeta.
  split; [| split; [| split; [| apply haversine_a_range]]].
  - pose proof (haversine_a_range a b) as [H0 H1].
    pose proof (Math_atan2_nonneg _ _ (sqrt_pos (haversine_a a b))
                                  (sqrt_pos (1 - haversine_a a b))).
    nra.
  - now rewrite (haversine_a_sym a b).
  - intros Hlat Hlon.
    rewrite (haversine_a_same_coordinates a b Hlat Hlon).
    rewrite Rminus_0_r, sqrt_0, sqrt_1, Math_atan2_0_1. ring.
Qed.

End GeoMathFacts.

(* ================================================================== *)
(** ** GeoMath in double precision *)

Section GeoMathInDoubles.

Import PrimFloat Binary64 Antipodes.
Local Open Scope float_scope.

(** C8, where the code departs from it. In double precision
    [calculateDistance] does not return a non-negative number for every
    pair of fixes. Take the fixes at latitude 8, longitude 0 and at
    latitude -8, longitude 180, and any engine whose [Math.sin] and
    [Math.cos] return, for the four angles of this pair, the doubles
    nearest to the exact sine and cosine, and whose [Math.atan2] returns
    NaN for a NaN argument. The two squares add up to
    1.0000000000000002, so [1 - a] is negative, [Math.sqrt (1 - a)] is
    NaN, and the result is NaN: [0 <= calculateDistance north8 south8]
    is false, and the total of a track that holds these two fixes,
    [0 + calculateDistance north8 south8], is NaN as well. *)
Theorem calculateDistance_antipodes_NaN (M : Math) :
  Math_sin M halfDeltaLat = sinHalfDeltaLat ->
  Math_cos M lat1Rad = cosLat ->
  Math_cos M lat2Rad = cosLat ->
  Math_sin M halfDeltaLon = 1 ->
  (forall y, Math_atan2 M y nan = nan) ->
  (((latitude south8 - latitude north8) * Math_PI) / 180) / 2 = halfDeltaLat
  /\ (latitude north8 * Math_PI) / 180 = lat1Rad
  /\ (latitude south8 * Math_PI) / 180 = lat2Rad
  /\ (((longitude south8 - longitude north8) * Math_PI) / 180) / 2
     = halfDeltaLon
  /\ haversine_a M north8 south8 = 0x1.0000000000001p+0
  /\ (1 <? haversine_a M north8 south8) = true
  /\ Math_sqrt (1 - haversine_a M north8 south8) = nan
  /\ calculateDistance M north8 south8 = nan
  /\ (0 <=? calculateDistance M north8 south8) = false
  /\ 0 + calculateDistance M north8 south8 = nan.
Proof.
  intros Hs Hc1 Hc2 Hs2 Hnan.
  assert (Ea : haversine_a M north8 south8 = 0x1.0000000000001p+0).
  { unfold haversine_a. cbn [latitude longitude north8 south8].
    change (((-8 - 8) * Math_PI) / 180 / 2) with halfDeltaLat.
    change ((8 * Math_PI) / 180) with lat1Rad.
    change ((-8 * Math_PI) / 180) with lat2Rad.
    change (((180 - 0) * Math_PI) / 180 / 2) with halfDeltaLon.
    rewrite Hs, Hc1, Hc2, Hs2. reflexivity. }
  assert (Ec : calculateDistance M north8 south8 = nan).
  { unfold calculateDistance. cbv zeta. rewrite Ea.
    change (Math_sqrt (1 - 0x1.0000000000001p+0)) with nan.
    rewrite Hnan. reflexivity. }
  rewrite Ec, Ea. repeat split.
Qed.

(** The fixes at latitude 8 and at its antipode, on an engine that
    rounds the sines and cosines to nearest. *)
Lemma calculateDistance_antipodes_NaN_witness :
  Math_sin nearest halfDeltaLat = sinHalfDeltaLat
  /\ Math_cos nearest lat1Rad = cosLat
  /\ Math_cos nearest lat2Rad = cosLat
  /\ Math_sin nearest halfDeltaLon = 1
  /\ (forall y, Math_atan2 nearest y nan = nan)
  /\ calculateDistance nearest north8 south8 = nan
  /\ (0 <=? calculateDistance nearest north8 south8) = false.
Proof.
  assert (Hs : Math_sin nearest halfDeltaLat = sinHalfDeltaLat)
    by reflexivity.
  assert (Hc1 : Math_cos nearest lat1Rad = cosLat) by reflexivity.
  assert (Hc2 : Math_cos nearest lat2Rad = cosLat) by reflexivity.
  assert (Hs2 : Math_sin nearest halfDeltaLon = 1) by reflexivity.
  assert (Hnan : forall y, Math_atan2 nearest y nan = nan)
    by (intros y; reflexivity).
  destruct (calculateDistance_antipodes_NaN nearest Hs Hc1 Hc2 Hs2 Hnan)
    as (_ & _ & _ & _ & _ & _ & _ & Hd & Hle & _).
  split; [exact Hs |]. split; [exact Hc1 |]. split; [exact Hc2 |].
  split; [exact Hs2 |]. split; [exact Hnan |].
  split; [exact Hd | exact Hle].
Defined.

End GeoMathInDoubles.

(* ================================================================== *)
(** ** The distance loop *)

Section DistanceLoop.

Import Ingest Spec GeoMath.
Local Open Scope R_scope.









End DistanceLoop.


(* ================================================================== *)
(** ** Running the storage service *)

Section StorageFacts.

Import Spec.

Lemma getSessions_run (w : World) :
  storageService.getSessions w
  = (Resolved (match ioFault w (ioCount w) with
               | None => completed w
               | Some _ => []
               end),
     AsyncStorage.called w).
Proof.
  unfold storageService.getSessions, tryCatch, bind, AsyncStorage.getItem,
    AsyncStorage.call, completed.
  destruct (ioFault w (ioCount w)); reflexivity.
Qed.

Lemma getCurrentSession_run (w : World) :
  storageService.getCurrentSession w
  = (Resolved (match ioFault w (ioCount w) with
               | None => currentItem w
               | Some _ => None
               end),
     AsyncStorage.called w).
Proof.
  unfold storageService.getCurrentSession, tryCatch, bind,
    AsyncStorage.getItem, AsyncStorage.call.
  destruct (ioFault w (ioCount w)); reflexivity.
Qed.

Lemma saveCurrentSession_run (v : option TrackingSession) (w : World) :
  storageService.saveCurrentSession v w
  = (Resolved tt,
     match ioFault w (ioCount w) with
     | None => withCurrent v (AsyncStorage.called w)
     | Some _ => AsyncStorage.called w
     end).
Proof.
  unfold storageService.saveCurrentSession, tryCatch, AsyncStorage.setItem,
    AsyncStorage.removeItem, AsyncStorage.call, withCurrent.
  destruct v; destruct (ioFault w (ioCount w)); reflexivity.
Qed.

Lemma saveSession_run (session : TrackingSession) (w : World) :
  storageService.saveSession session w
  = let sessions := match ioFault w (ioCount w) with
                    | None => completed w
                    | Some _ => []
                    end in
    match ioFault w (S (ioCount w)) with
    | None => (Resolved tt,
               withSessions (sessions ++ [session]) (afterCalls 2 w))
    | Some err => (Rejected err, afterCalls 2 w)
    end.
Proof.
  unfold storageService.saveSession, tryCatch, bind.
  rewrite getSessions_run.
  unfold AsyncStorage.setItem, AsyncStorage.call, withSessions. cbn.
  destruct (ioFault w (S (ioCount w))); reflexivity.
Qed.

Lemma deleteSession_run (i : string) (w : World) :
  storageService.deleteSession i w
  = let sessions := match ioFault w (ioCount w) with
                    | None => completed w
                    | Some _ => []
                    end in
    match ioFault w (S (ioCount w)) with
    | None =>
        (Resolved tt,
         withSessions (filter (fun s => negb (String.eqb (id s) i)) sessions)
                      (afterCalls 2 w))
    | Some err => (Rejected err, afterCalls 2 w)
    end.
Proof.
  unfold storageService.deleteSession, tryCatch, bind.
  rewrite getSessions_run.
  unfold AsyncStorage.setItem, AsyncStorage.call, withSessions. cbn.
  destruct (ioFault w (S (ioCount w))); reflexivity.
Qed.

Lemma getSession_run (i : string) (w : World) :
  storageService.getSession i w
  = (Resolved (find (fun s => String.eqb (id s) i)
                    (match ioFault w (ioCount w) with
                     | None => completed w
                     | Some _ => []
                     end)),
     AsyncStorage.called w).
Proof.
  unfold storageService.getSession, tryCatch, bind.
  rewrite getSessions_run. reflexivity.
Qed.

Lemma exec_saveSession_reliable (session : TrackingSession) (w : World) :
  reliable w ->
  exec (storageService.saveSession session) w
  = withSessions (completed w ++ [session]) (afterCalls 2 w).
Proof.
  intros H. unfold exec. rewrite saveSession_run, !H. reflexivity.
Qed.

Lemma exec_saveCurrentSession_reliable (v : option TrackingSession)
      (w : World) :
  reliable w ->
  exec (storageService.saveCurrentSession v) w
  = withCurrent v (AsyncStorage.called w).
Proof.
  intros H. unfold exec. rewrite saveCurrentSession_run, H. reflexivity.
Qed.

Lemma exec_deleteSession_reliable (i : string) (w : World) :
  reliable w ->
  exec (storageService.deleteSession i) w
  = withSessions (filter (fun s => negb (String.eqb (id s) i)) (completed w))
                 (afterCalls 2 w).
Proof.
  intros H. unfold exec. rewrite deleteSession_run, !H. reflexivity.
Qed.

Lemma exec_saveCurrentSession_items (v : option TrackingSession) (w : World) :
  let w' := exec (storageService.saveCurrentSession v) w in
  sessionsItem w' = sessionsItem w
  /\ (ioFault w (ioCount w) = None -> currentItem w' = v).
Proof.
  unfold exec. rewrite saveCurrentSession_run. cbn [snd].
  destruct (ioFault w (ioCount w)) as [e |]; split;
    try discriminate; destruct v; reflexivity.
Qed.

Lemma reliable_called (w : World) :
  reliable w -> reliable (AsyncStorage.called w).
Proof. intros H n. apply H. Qed.

Lemma reliable_withCurrent (v : option TrackingSession) (w : World) :
  reliable w -> reliable (withCurrent v w).
Proof. intros H n. destruct v; apply H. Qed.

Lemma reliable_withSessions (v : list TrackingSession) (w : World) :
  reliable w -> reliable (withSessions v w).
Proof. intros H n. apply H. Qed.

Lemma reliable_Date_now (w : World) :
  reliable w -> reliable (exec Date_now w).
Proof. intros H n. apply H. Qed.

End StorageFacts.

Create HintDb storage.
#[local] Hint Resolve reliable_called reliable_withCurrent
  reliable_withSessions reliable_Date_now : storage.


(* ================================================================== *)
(** ** Running a computation step by step *)

Section Steps.

Import Spec.

Lemma bind_run {S A B} (m : Eff S A) (k : A -> Eff S B) (s s' : S) (a : A) :
  m s = (Resolved a, s') -> bind m k s = k a s'.
Proof. unfold bind. now intros ->. Qed.

Lemma bind_rejected {S A B} (m : Eff S A) (k : A -> Eff S B) (s s' : S)
      (err : Thrown) :
  m s = (Rejected err, s') -> bind m k s = (Rejected err, s').
Proof. unfold bind. now intros ->. Qed.

Lemma tryCatch_resolved {S A} (m : Eff S A) (h : Thrown -> Eff S A)
      (s s' : S) (a : A) :
  m s = (Resolved a, s') -> tryCatch m h s = (Resolved a, s').
Proof. unfold tryCatch. now intros ->. Qed.

Lemma tryCatch_rejected {S A} (m : Eff S A) (h : Thrown -> Eff S A)
      (s s' : S) (err : Thrown) :
  m s = (Rejected err, s') -> tryCatch m h s = h err s'.
Proof. unfold tryCatch. now intros ->. Qed.

Lemma onWorld_run {A} (m : Eff World A) (s : App) (r : Outcome A)
      (w' : World) :
  m (world s) = (r, w') -> onWorld m s = (r, mkApp (hook s) w').
Proof. unfold onWorld. now intros ->. Qed.

Lemma onWorld_Date_now (s : App) :
  onWorld Date_now s
  = (Resolved (nextNow (world s)), mkApp (hook s) (exec Date_now (world s))).
Proof. reflexivity. Qed.

Lemma exec_saveCurrentSession (v : option TrackingSession) (w : World) :
  storageService.saveCurrentSession v w
  = (Resolved tt, exec (storageService.saveCurrentSession v) w).
Proof. unfold exec. now rewrite saveCurrentSession_run. Qed.

Lemma onWorld_saveCurrentSession (v : option TrackingSession) (s : App) :
  onWorld (storageService.saveCurrentSession v) s
  = (Resolved tt,
     mkApp (hook s) (exec (storageService.saveCurrentSession v) (world s))).
Proof. apply onWorld_run, exec_saveCurrentSession. Qed.

Lemma onWorld_getCurrentSession (s : App) :
  onWorld storageService.getCurrentSession s
  = (Resolved (match ioFault (world s) (ioCount (world s)) with
               | None => currentItem (world s)
               | Some _ => None
               end),
     mkApp (hook s) (AsyncStorage.called (world s))).
Proof. apply onWorld_run, getCurrentSession_run. Qed.

Lemma onWorld_saveSession_ok (session : TrackingSession) (s : App) :
  ioFault (world s) (S (ioCount (world s))) = None ->
  onWorld (storageService.saveSession session) s
  = (Resolved tt,
     mkApp (hook s) (exec (storageService.saveSession session) (world s))).
Proof.
  intros H. apply onWorld_run. unfold exec.
  rewrite saveSession_run, H. reflexivity.
Qed.

Lemma onWorld_saveSession_rejected (session : TrackingSession) (s : App)
      (err : Thrown) :
  ioFault (world s) (S (ioCount (world s))) = Some err ->
  onWorld (storageService.saveSession session) s
  = (Rejected err, mkApp (hook s) (afterCalls 2 (world s))).
Proof.
  intros H. apply onWorld_run.
  rewrite saveSession_run, H. reflexivity.
Qed.

Lemma gets_run {S A} (f : S -> A) (s : S) : gets f s = (Resolved (f s), s).
Proof. reflexivity. Qed.

Lemma ret_run {S A} (a : A) (s : S) : ret a s = (Resolved a, s).
Proof. reflexivity. Qed.

Lemma setCurrentSession_run (v : option TrackingSession) (s : App) :
  setCurrentSession v s = (Resolved tt, mkApp (adopt v (hook s)) (world s)).
Proof. reflexivity. Qed.

Lemma setIsTracking_run (b : bool) (s : App) :
  setIsTracking b s
  = (Resolved tt,
     mkApp (mkHookState b (currentSession (hook s)) (error (hook s))
                        (locationSubscriptionRef (hook s)))
           (world s)).
Proof. reflexivity. Qed.

Lemma setError_run (v : option string) (s : App) :
  setError v s
  = (Resolved tt,
     mkApp (mkHookState (isTracking (hook s)) (currentSession (hook s)) v
                        (locationSubscriptionRef (hook s)))
           (world s)).
Proof. reflexivity. Qed.

Lemma removeSubscription_run (s : App) :
  removeSubscription s
  = (Resolved tt,
     mkApp (mkHookState (isTracking (hook s)) (currentSession (hook s))
                        (error (hook s)) None)
           (world s)).
Proof.
  unfold removeSubscription, bind, gets, setLocationSubscriptionRef, onHook,
    modify, ret.
  destruct s as [[t c e [r |]] w]; reflexivity.
Qed.

Lemma BackgroundHook_attempt_run (platform : Reply unit) (s : App) :
  BackgroundHook.attempt platform s = (Resolved tt, s).
Proof.
  unfold BackgroundHook.attempt, tryCatch, await, ret, throw.
  destruct platform as [[] |]; reflexivity.
Qed.

End Steps.

(** One step of a [bind] whose first computation runs as lemma [L] says. *)
Ltac simpl_cells :=
  cbv beta;
  cbn [hook world isTracking currentSession error locationSubscriptionRef
       adopt fst snd negb isGranted].

Ltac step L := erewrite bind_run by (apply L); simpl_cells.

(* ================================================================== *)
(** ** Ingest: what one reading does *)

Section IngestFacts.

Import Spec Ingest.

Lemma ForegroundHook_onLocation_idle (loc : Location.LocationObject)
      (s : App) :
  currentSession (hook s) = None ->
  ForegroundHook.onLocation loc s = (Resolved tt, s).
Proof.
  intros H. unfold ForegroundHook.onLocation, bind, gets. rewrite H.
  reflexivity.
Qed.

Lemma ForegroundHook_onLocation_active (loc : Location.LocationObject)
      (s : App) (prev : TrackingSession) :
  currentSession (hook s) = Some prev ->
  let updated :=
    updatedSession prev (toLocationPoint loc) (nextNow (world s)) in
  ForegroundHook.onLocation loc s
  = (Resolved tt,
     mkApp (adopt (Some updated) (hook s))
           (exec (storageService.saveCurrentSession (Some updated))
                 (exec Date_now (world s)))).
Proof.
  intros H updated.
  unfold ForegroundHook.onLocation, bind, gets. rewrite H.
  unfold onWorld at 1. cbn [world Date_now hook].
  fold (nextNow (world s)). fold updated.
  unfold onWorld. cbn [world hook].
  rewrite exec_saveCurrentSession.
  reflexivity.
Qed.

Lemma BackgroundHook_handleLocationUpdate_active
      (loc : Location.LocationObject) (s : App) (prev : TrackingSession) :
  currentSession (hook s) = Some prev ->
  BackgroundHook.handleLocationUpdate loc s = ForegroundHook.onLocation loc s.
Proof.
  intros H.
  unfold BackgroundHook.handleLocationUpdate, ForegroundHook.onLocation,
    bind, gets.
  rewrite H. reflexivity.
Qed.

Lemma BackgroundHook_handleLocationUpdate_idle
      (loc : Location.LocationObject) (s : App) :
  currentSession (hook s) = None ->
  let w := world s in
  let newSession :=
    sessionFromFirst (sessionIdOf (nextNow w))
                     (nextNow (exec Date_now w)) (toLocationPoint loc) in
  BackgroundHook.handleLocationUpdate loc s
  = (Resolved tt,
     mkApp (adopt (Some newSession) (hook s))
           (exec (storageService.saveCurrentSession (Some newSession))
                 (exec Date_now (exec Date_now w)))).
Proof.
  intros H w newSession.
  unfold BackgroundHook.handleLocationUpdate, bind, gets. rewrite H.
  unfold onWorld. cbn [world hook Date_now].
  rewrite exec_saveCurrentSession.
  reflexivity.
Qed.

Lemma LocationTask_onLocation_run (loc : Location.LocationObject)
      (w : World) :
  reliable w ->
  let w1 := AsyncStorage.called w in
  let session' :=
    match currentItem w with
    | Some prev => updatedSession prev (toLocationPoint loc) (nextNow w)
    | None => sessionFromFirst (sessionIdOf (nextNow w))
                               (nextNow (exec Date_now w))
                               (toLocationPoint loc)
    end in
  outcome (LocationTask.onLocation loc) w = Resolved tt
  /\ currentItem (exec (LocationTask.onLocation loc) w) = Some session'
  /\ sessionsItem (exec (LocationTask.onLocation loc) w) = sessionsItem w
  /\ reliable (exec (LocationTask.onLocation loc) w).
Proof.
  intros Hrel w1 session'.
  unfold outcome, exec, LocationTask.onLocation, bind.
  rewrite getCurrentSession_run, (Hrel (ioCount w)).
  destruct (currentItem w) as [prev |] eqn:Hcur; cbn [Date_now fst snd].
  - rewrite saveCurrentSession_run. cbn [ioFault ioCount AsyncStorage.called].
    rewrite (Hrel _). cbn. repeat split. intros n. apply Hrel.
  - rewrite saveCurrentSession_run. cbn [ioFault ioCount AsyncStorage.called].
    rewrite (Hrel _). cbn. repeat split. intros n. apply Hrel.
Qed.

End IngestFacts.

(* ================================================================== *)
(** ** Ingest: a sequence of readings *)

Section Sequences.

Import Spec Ingest.

Variable S : Type.
Variable callback : Location.LocationObject -> Eff S unit.
Variable current : S -> option TrackingSession.
Variable Inv : S -> Prop.

Hypothesis callback_active :
  forall s prev loc,
    Inv s -> current s = Some prev ->
    outcome (callback loc) s = Resolved tt
    /\ Inv (exec (callback loc) s)
    /\ exists now,
         current (exec (callback loc) s)
         = Some (updatedSession prev (toLocationPoint loc) now).



End Sequences.

Section IngestSequences.

Import Spec Ingest.

Lemma ForegroundHook_callback_active (s : App) (prev : TrackingSession)
      (loc : Location.LocationObject) :
  currentSession (hook s) = Some prev ->
  outcome (ForegroundHook.onLocation loc) s = Resolved tt
  /\ exists now,
       currentSession (hook (exec (ForegroundHook.onLocation loc) s))
       = Some (updatedSession prev (toLocationPoint loc) now).
Proof.
  intros H. unfold outcome, exec.
  rewrite (ForegroundHook_onLocation_active loc s prev H).
  split; [reflexivity |]. eexists. reflexivity.
Qed.

Lemma BackgroundHook_callback_active (s : App) (prev : TrackingSession)
      (loc : Location.LocationObject) :
  currentSession (hook s) = Some prev ->
  outcome (BackgroundHook.handleLocationUpdate loc) s = Resolved tt
  /\ exists now,
       currentSession (hook (exec (BackgroundHook.handleLocationUpdate loc) s))
       = Some (updatedSession prev (toLocationPoint loc) now).
Proof.
  intros H. unfold outcome, exec.
  rewrite (BackgroundHook_handleLocationUpdate_active loc s prev H).
  now apply ForegroundHook_callback_active.
Qed.

Lemma LocationTask_callback_active (w : World) (prev : TrackingSession)
      (loc : Location.LocationObject) :
  reliable w -> currentItem w = Some prev ->
  outcome (LocationTask.onLocation loc) w = Resolved tt
  /\ reliable (exec (LocationTask.onLocation loc) w)
  /\ exists now,
       currentItem (exec (LocationTask.onLocation loc) w)
       = Some (updatedSession prev (toLocationPoint loc) now).
Proof.
  intros Hrel Hcur.
  destruct (LocationTask_onLocation_run loc w Hrel) as (Hok & Hc & _ & Hrel').
  rewrite Hcur in Hc.
  split; [exact Hok |]. split; [exact Hrel' |].
  eexists. exact Hc.
Qed.



End IngestSequences.

(* ================================================================== *)
(** ** Start, stop and recovery: what one call does *)

Section LifecycleFacts.

Import Spec Ingest.

(** Stopping with no current session. *)
Lemma ForegroundHook_stopTracking_idle (s : App) :
  currentSession (hook s) = None ->
  ForegroundHook.stopTracking s
  = (Resolved tt,
     mkApp (mkHookState false None (error (hook s)) None) (world s)).
Proof.
  intros H. unfold ForegroundHook.stopTracking.
  erewrite tryCatch_resolved; cycle 1.
  { step removeSubscription_run.
    step @gets_run. rewrite H.
    step @ret_run.
    apply setIsTracking_run. }
  reflexivity.
Qed.

Lemma BackgroundHook_stopTracking_idle (stopBackground : Reply unit)
      (s : App) :
  currentSession (hook s) = None ->
  BackgroundHook.stopTracking stopBackground s
  = (Resolved tt,
     mkApp (mkHookState false None (error (hook s)) None) (world s)).
Proof.
  intros H. unfold BackgroundHook.stopTracking.
  erewrite tryCatch_resolved; cycle 1.
  { step removeSubscription_run.
    step BackgroundHook_attempt_run.
    step @gets_run. rewrite H.
    step @ret_run.
    apply setIsTracking_run. }
  reflexivity.
Qed.

(** Stopping a current session when the append is acknowledged. *)
Lemma ForegroundHook_stopTracking_saved (s : App) (cur : TrackingSession) :
  currentSession (hook s) = Some cur ->
  let w := world s in
  let final := finalSession cur (nextNow w) (nextNow (exec Date_now w)) in
  ioFault w (S (ioCount w)) = None ->
  ForegroundHook.stopTracking s
  = (Resolved tt,
     mkApp (mkHookState false None (error (hook s)) None)
           (exec (storageService.saveCurrentSession None)
                 (exec (storageService.saveSession final)
                       (exec Date_now (exec Date_now w))))).
Proof.
  intros H w final Hok. unfold ForegroundHook.stopTracking.
  erewrite tryCatch_resolved; cycle 1.
  { step removeSubscription_run.
    step @gets_run. rewrite H.
    erewrite bind_run; cycle 1.
    { step onWorld_Date_now.
      step onWorld_Date_now.
      erewrite bind_run by (apply onWorld_saveSession_ok; exact Hok).
      simpl_cells.
      step onWorld_saveCurrentSession.
      apply setCurrentSession_run. }
    simpl_cells. apply setIsTracking_run. }
  reflexivity.
Qed.

(** Stopping a current session when the append is rejected. *)
Lemma ForegroundHook_stopTracking_rejected (s : App) (cur : TrackingSession)
      (err : Thrown) :
  currentSession (hook s) = Some cur ->
  let w := world s in
  ioFault w (S (ioCount w)) = Some err ->
  ForegroundHook.stopTracking s
  = (Resolved tt,
     mkApp (mkHookState (isTracking (hook s)) (Some cur)
              (Some (messageOr err "Failed to stop tracking")) None)
           (afterCalls 2 (exec Date_now (exec Date_now w)))).
Proof.
  intros H w Hko. unfold ForegroundHook.stopTracking.
  erewrite tryCatch_rejected; cycle 1.
  { step removeSubscription_run.
    step @gets_run. rewrite H.
    erewrite bind_rejected; [reflexivity |].
    step onWorld_Date_now.
    step onWorld_Date_now.
    erewrite bind_rejected; [reflexivity |].
    apply onWorld_saveSession_rejected. exact Hko. }
  rewrite setError_run. simpl_cells. reflexivity.
Qed.

(** The hook with background updates stops as the foreground hook does:
    [stopLocationUpdatesAsync] touches neither the cells nor the store. *)
Lemma BackgroundHook_stopTracking_as_foreground (stopBackground : Reply unit)
      (s : App) :
  BackgroundHook.stopTracking stopBackground s = ForegroundHook.stopTracking s.
Proof.
  unfold BackgroundHook.stopTracking, ForegroundHook.stopTracking, tryCatch.
  match goal with
  | |- match ?l with _ => _ end = match ?r with _ => _ end =>
      assert (E : l = r); [| now rewrite E]
  end.
  step removeSubscription_run.
  step BackgroundHook_attempt_run.
  symmetry.
  step removeSubscription_run.
  reflexivity.
Qed.

End LifecycleFacts.

(* ================================================================== *)
(** ** Stop *)

Section Stop.

Import Spec Ingest.

(** C4. Stopping an active session, in either hook and over a storage that
    answers, first appends the final session to the completed sessions and
    then removes the current-session record: these are the two writes of
    the call, in that order. The final session is the active one finalized:
    it has the id, name, start time, locations, distance and summary fields
    of the active session, its [endTime] is the first reading of the clock
    and its duration the second reading less the start time. Afterwards
    the current-session record is absent and the completed list ends with
    the final session. The removal waits for the append: when the append
    is rejected, nothing is written and the current-session record stays. *)
Theorem stopTracking_appends_then_clears
        (s : App) (cur : TrackingSession) (stopBackground : Reply unit) :
  currentSession (hook s) = Some cur ->
  let w := world s in
  let final := finalSession cur (nextNow w) (nextNow (exec Date_now w)) in
  forall s',
    s' = exec ForegroundHook.stopTracking s
    \/ s' = exec (BackgroundHook.stopTracking stopBackground) s ->
    endTime final = Some (nextNow w)
    /\ (id final = id cur
        /\ name final = name cur
        /\ startTime final = startTime cur
        /\ locations final = locations cur
        /\ distance final = distance cur
        /\ totalWeightG final = totalWeightG cur
        /\ foundCategories final = foundCategories cur
        /\ duration final
           = Some (nextNow (exec Date_now w) - startTime cur)%Z)
    /\ (reliable w ->
        writes (world s')
        = (writes w ++ [SetItem SESSIONS_KEY (completed w ++ [final]);
                        RemoveItem CURRENT_SESSION_KEY])%list
        /\ currentItem (world s') = None
        /\ completed (world s') = (completed w ++ [final])%list
        /\ In final (completed (world s'))
        /\ currentSession (hook s') = None
        /\ isTracking (hook s') = false)
    /\ (forall err,
        ioFault w (S (ioCount w)) = Some err ->
        writes (world s') = writes w
        /\ currentItem (world s') = currentItem w
        /\ sessionsItem (world s') = sessionsItem w
        /\ currentSession (hook s') = Some cur).
Proof.
  intros Hcur w final s' Hs'.
  assert (E : s' = exec ForegroundHook.stopTracking s).
  { destruct Hs' as [-> | ->]; [reflexivity |].
    unfold exec. now rewrite BackgroundHook_stopTracking_as_foreground. }
  clear Hs'. subst s'.
  split; [reflexivity |].
  split; [repeat split |]. split.
  - intros Hrel.
    assert (E : exec ForegroundHook.stopTracking s
                = mkApp (mkHookState false None (error (hook s)) None)
                    (withCurrent None
                       (AsyncStorage.called
                          (withSessions (completed w ++ [final])
                             (afterCalls 2
                                (exec Date_now (exec Date_now w))))))).
    { unfold exec at 1.
      rewrite (ForegroundHook_stopTracking_saved s cur Hcur (Hrel _)).
      cbn [snd]. fold w. fold final.
      rewrite exec_saveSession_reliable by auto with storage.
      rewrite exec_saveCurrentSession_reliable by auto with storage.
      reflexivity. }
    rewrite E. cbn. rewrite <- app_assoc. cbn.
    repeat split. apply in_or_app. right. now left.
  - intros err Hko. unfold exec.
    rewrite (ForegroundHook_stopTracking_rejected s cur err Hcur Hko).
    cbn. repeat split.
Qed.

End Stop.

(* ================================================================== *)
(** ** Start and recovery *)

Section StartAndRecover.

Import Spec Ingest.

Lemma ForegroundHook_requestPermissions_granted (s : App) :
  ForegroundHook.requestPermissions (Replies granted) s = (Resolved true, s).
Proof. reflexivity. Qed.

Lemma ForegroundHook_startTracking_granted (watch : Reply nat) (s : App) :
  let w := world s in
  let fresh :=
    emptySession (sessionIdOf (nextNow w)) (nextNow (exec Date_now w)) in
  ForegroundHook.startTracking (Replies granted) watch s
  = (Resolved tt,
     mkApp (match watch with
            | Replies subscription =>
                mkHookState true (Some fresh) None (Some subscription)
            | Throws err =>
                mkHookState false (Some fresh)
                  (Some (messageOr err "Failed to start tracking"))
                  (locationSubscriptionRef (hook s))
            end)
           (exec Date_now (exec Date_now w))).
Proof.
  intros w fresh. unfold ForegroundHook.startTracking, tryCatch.
  step ForegroundHook_requestPermissions_granted.
  step setError_run.
  step onWorld_Date_now.
  step onWorld_Date_now.
  step setCurrentSession_run.
  step setIsTracking_run.
  destruct watch as [subscription | err]; reflexivity.
Qed.

Lemma BackgroundHook_requestPermissions_granted (p : Permissions) (s : App) :
  getForegroundPermissionsAsync p = Replies granted ->
  BackgroundHook.requestPermissions p s = (Resolved true, s).
Proof.
  intros H. unfold BackgroundHook.requestPermissions, tryCatch. rewrite H.
  step (@ret_run App PermissionStatus granted).
  step (@ret_run App PermissionStatus granted).
  destruct (requestBackgroundPermissionsAsync p) as [st | err]; reflexivity.
Qed.

Lemma BackgroundHook_startTracking_granted (p : Permissions)
      (startBackground : Reply unit) (watch : Reply nat) (s : App) :
  getForegroundPermissionsAsync p = Replies granted ->
  BackgroundHook.startTracking p startBackground watch s
  = ForegroundHook.startTracking (Replies granted) watch s.
Proof.
  intros H. rewrite ForegroundHook_startTracking_granted.
  unfold BackgroundHook.startTracking, tryCatch.
  erewrite bind_run by (apply BackgroundHook_requestPermissions_granted, H).
  simpl_cells.
  step setError_run.
  step onWorld_Date_now.
  step onWorld_Date_now.
  step setCurrentSession_run.
  step setIsTracking_run.
  step BackgroundHook_attempt_run.
  destruct watch as [subscription | err]; reflexivity.
Qed.

Lemma ForegroundHook_loadActiveSession_run (permission : Reply PermissionStatus)
      (watch : Reply nat) (s : App) :
  let s' := exec (ForegroundHook.loadActiveSession permission watch) s in
  world s' = AsyncStorage.called (world s)
  /\ currentSession (hook s')
     = match readCurrent (world s) with
       | Some a => Some a
       | None => currentSession (hook s)
       end
  /\ isTracking (hook s')
     = match readCurrent (world s) with
       | Some _ => true
       | None => isTracking (hook s)
       end.
Proof.
  unfold exec, ForegroundHook.loadActiveSession, readCurrent.
  step onWorld_getCurrentSession.
  destruct (ioFault (world s) (ioCount (world s))) as [e |];
    [repeat split |].
  destruct (currentItem (world s)) as [a |]; [| repeat split].
  step setCurrentSession_run.
  step setIsTracking_run.
  unfold ForegroundHook.requestPermissions.
  destruct permission as [[| |] | e]; destruct watch as [sub | e'];
    repeat split.
Qed.

Lemma BackgroundHook_loadActiveSession_run (p : Permissions)
      (startBackground : Reply unit) (watch : Reply nat) (s : App) :
  let s' := exec (BackgroundHook.loadActiveSession p startBackground watch) s in
  world s' = AsyncStorage.called (world s)
  /\ currentSession (hook s')
     = match readCurrent (world s) with
       | Some a => Some a
       | None => currentSession (hook s)
       end
  /\ isTracking (hook s')
     = match readCurrent (world s) with
       | Some _ => true
       | None => isTracking (hook s)
       end.
Proof.
  unfold exec, BackgroundHook.loadActiveSession, readCurrent.
  step onWorld_getCurrentSession.
  destruct (ioFault (world s) (ioCount (world s))) as [e |];
    [repeat split |].
  destruct (currentItem (world s)) as [a |]; [| repeat split].
  step setCurrentSession_run.
  step setIsTracking_run.
  unfold BackgroundHook.requestPermissions.
  destruct p as [[[| |] | e1] [[| |] | e2] [b | e3]];
    destruct startBackground as [[] | e4]; destruct watch as [sub | e'];
    repeat split.
Qed.

End StartAndRecover.

(* ================================================================== *)
(** ** Claims on start, stop and recovery *)

Section Lifecycle.

Import Spec Ingest.

(** C3, as the code has it. [startTracking] has no check for a session
    that is already there and never fails with an already-active error:
    whatever the current session is, with the location permission granted it
    puts a new session with no locations in its place, writes nothing to the
    store, and reports an error only when the watcher cannot be started. *)
Theorem startTracking_replaces_current_session
        (s : App) (watch : Reply nat) (p : Permissions)
        (startBackground : Reply unit) :
  getForegroundPermissionsAsync p = Replies granted ->
  let w := world s in
  let fresh :=
    emptySession (sessionIdOf (nextNow w)) (nextNow (exec Date_now w)) in
  forall s',
    s' = exec (ForegroundHook.startTracking (Replies granted) watch) s
    \/ s' = exec (BackgroundHook.startTracking p startBackground watch) s ->
    currentSession (hook s') = Some fresh
    /\ locations fresh = []
    /\ stored (world s') = stored w
    /\ error (hook s')
       = match watch with
         | Replies _ => None
         | Throws err => Some (messageOr err "Failed to start tracking")
         end.
Proof.
  intros Hp w fresh s' Hs'.
  assert (E : s' = exec (ForegroundHook.startTracking (Replies granted) watch) s).
  { destruct Hs' as [-> | ->]; [reflexivity |].
    unfold exec. now rewrite BackgroundHook_startTracking_granted. }
  subst s'. unfold exec.
  rewrite ForegroundHook_startTracking_granted.
  destruct watch as [subscription | err]; repeat split.
Qed.

(** C7, as the code has it. With no current session [stopTracking]
    resolves and reports nothing: the error cell keeps its value, the hook
    is left not tracking and without a subscription, and the runtime is the
    one it started from, so neither the completed sessions nor the
    current-session record is written. *)
Theorem stopTracking_idle_leaves_store (s : App) (stopBackground : Reply unit) :
  currentSession (hook s) = None ->
  let s' := mkApp (mkHookState false None (error (hook s)) None) (world s) in
  ForegroundHook.stopTracking s = (Resolved tt, s')
  /\ BackgroundHook.stopTracking stopBackground s = (Resolved tt, s')
  /\ error (hook s') = error (hook s)
  /\ stored (world s') = stored (world s).
Proof.
  intros H s'. repeat split.
  - now apply ForegroundHook_stopTracking_idle.
  - now apply BackgroundHook_stopTracking_idle.
Qed.

(** C6. With a stored current-session record that the first read
    returns, recovering twice in a row adopts the stored record both times,
    whatever the platform answers: the current session of the hook after
    the first and after the second call is the stored record itself, and
    the store holds after each call what it held before. Both hooks. *)
Theorem loadActiveSession_twice_same_session
        (s : App) (active : TrackingSession)
        (permission1 permission2 : Reply PermissionStatus)
        (p1 p2 : Permissions) (background1 background2 : Reply unit)
        (watch1 watch2 : Reply nat) :
  currentItem (world s) = Some active ->
  ioFault (world s) (ioCount (world s)) = None ->
  forall s1 s2,
    (s1 = exec (ForegroundHook.loadActiveSession permission1 watch1) s
     /\ s2 = exec (ForegroundHook.loadActiveSession permission2 watch2) s1)
    \/ (s1 = exec (BackgroundHook.loadActiveSession p1 background1 watch1) s
        /\ s2 = exec (BackgroundHook.loadActiveSession p2 background2 watch2)
                     s1) ->
    currentSession (hook s1) = Some active
    /\ currentSession (hook s2) = Some active
    /\ isTracking (hook s1) = true
    /\ isTracking (hook s2) = true
    /\ stored (world s1) = stored (world s)
    /\ stored (world s2) = stored (world s).
Proof.
  intros Hcur Hok s1 s2 Hs.
  assert (H1 : world s1 = AsyncStorage.called (world s)
               /\ currentSession (hook s1) = Some active
               /\ isTracking (hook s1) = true).
  { destruct Hs as [[-> _] | [-> _]].
    - destruct (ForegroundHook_loadActiveSession_run permission1 watch1 s)
        as (Hw & Hc & Ht).
      unfold readCurrent in *. rewrite Hok, Hcur in *. auto.
    - destruct (BackgroundHook_loadActiveSession_run p1 background1 watch1 s)
        as (Hw & Hc & Ht).
      unfold readCurrent in *. rewrite Hok, Hcur in *. auto. }
  destruct H1 as (Hw1 & Hc1 & Ht1).
  assert (H2 : world s2 = AsyncStorage.called (world s1)
               /\ currentSession (hook s2) = Some active
               /\ isTracking (hook s2) = true).
  { assert (Hread : match readCurrent (world s1) with
                    | Some a => Some a
                    | None => currentSession (hook s1)
                    end = Some active).
    { unfold readCurrent. rewrite Hw1. cbn [ioFault ioCount currentItem
        AsyncStorage.called].
      destruct (ioFault (world s) (S (ioCount (world s))));
        [exact Hc1 | now rewrite Hcur]. }
    assert (Htrack : match readCurrent (world s1) with
                     | Some _ => true
                     | None => isTracking (hook s1)
                     end = true).
    { destruct (readCurrent (world s1)); [reflexivity | exact Ht1]. }
    destruct Hs as [[_ ->] | [_ ->]].
    - destruct (ForegroundHook_loadActiveSession_run permission2 watch2 s1)
        as (Hw & Hc & Ht).
      rewrite Hread in Hc. rewrite Htrack in Ht. auto.
    - destruct (BackgroundHook_loadActiveSession_run p2 background2 watch2 s1)
        as (Hw & Hc & Ht).
      rewrite Hread in Hc. rewrite Htrack in Ht. auto. }
  destruct H2 as (Hw2 & Hc2 & Ht2).
  repeat split; try assumption.
  - now rewrite Hw1.
  - now rewrite Hw2, Hw1.
Qed.

End Lifecycle.

(* ================================================================== *)
(** ** Claims on ingest and on the store *)

Section IngestAndStore.

Import Spec Ingest.

(** C2, as the code has it. A reading that finds no session is not
    dropped by [handleLocationUpdate] nor by the background task: each makes
    a new session whose only location is this reading, with distance 0 and
    duration 0, no end time, no name and no summary, its id and start time
    taken from the next two readings of the clock, and saves it as the
    current-session record (the hook when that write is accepted, the task
    over a storage that answers); the completed sessions are not touched.
    Only the watcher callback of the foreground hook leaves everything as
    it is. *)
Theorem ingest_without_session_creates_one (loc : Location.LocationObject) :
  (forall s : App,
      currentSession (hook s) = None ->
      let w := world s in
      let s' := exec (BackgroundHook.handleLocationUpdate loc) s in
      exists session : TrackingSession,
        currentSession (hook s') = Some session
        /\ locations session = [toLocationPoint loc]
        /\ distance session = Some 0%R
        /\ duration session = Some 0%Z
        /\ id session = sessionIdOf (nextNow w)
        /\ startTime session = nextNow (exec Date_now w)
        /\ endTime session = None
        /\ name session = None
        /\ totalWeightG session = None
        /\ foundCategories session = None
        /\ sessionsItem (world s') = sessionsItem w
        /\ (ioFault w (ioCount w) = None ->
            currentItem (world s') = Some session))
  /\ (forall w : World,
      reliable w -> currentItem w = None ->
      let w' := exec (LocationTask.task (Some [loc]) None) w in
      exists session : TrackingSession,
        currentItem w' = Some session
        /\ locations session = [toLocationPoint loc]
        /\ distance session = Some 0%R
        /\ duration session = Some 0%Z
        /\ id session = sessionIdOf (nextNow w)
        /\ startTime session = nextNow (exec Date_now w)
        /\ endTime session = None
        /\ name session = None
        /\ totalWeightG session = None
        /\ foundCategories session = None
        /\ sessionsItem w' = sessionsItem w)
  /\ (forall s : App,
      currentSession (hook s) = None ->
      exec (ForegroundHook.onLocation loc) s = s).
Proof.
  split; [| split].
  - intros s H w s'.
    pose (fresh := sessionFromFirst (sessionIdOf (nextNow w))
                     (nextNow (exec Date_now w)) (toLocationPoint loc)).
    assert (E : s' = mkApp (adopt (Some fresh) (hook s))
                       (exec (storageService.saveCurrentSession (Some fresh))
                             (exec Date_now (exec Date_now w)))).
    { unfold s', exec at 1.
      now rewrite (BackgroundHook_handleLocationUpdate_idle loc s H). }
    destruct (exec_saveCurrentSession_items (Some fresh)
                (exec Date_now (exec Date_now w))) as [Hs Hc].
    exists fresh. rewrite E. cbn [hook world adopt currentSession].
    do 10 (split; [reflexivity |]).
    split; [exact Hs | exact Hc].
  - intros w Hrel Hcur w'.
    pose (fresh := sessionFromFirst (sessionIdOf (nextNow w))
                     (nextNow (exec Date_now w)) (toLocationPoint loc)).
    destruct (LocationTask_onLocation_run loc w Hrel) as (Hr & Hc & Hs & _).
    rewrite Hcur in Hc.
    assert (E : w' = exec (LocationTask.onLocation loc) w).
    { unfold w'. cbn [LocationTask.task LocationTask.forEach].
      unfold exec, outcome in *. unfold bind.
      destruct (LocationTask.onLocation loc w) as [r w1]. cbn in Hr.
      now subst r. }
    exists fresh. rewrite E.
    split; [exact Hc |].
    do 9 (split; [reflexivity |]).
    exact Hs.
  - intros s H. unfold exec.
    now rewrite (ForegroundHook_onLocation_idle loc s H).
Qed.

Lemma orUndefined_zero : orUndefined (Some 0%R) = None.
Proof.
  unfold orUndefined. destruct (Req_dec_T 0 0) as [_ | H]; [reflexivity |].
  now contradiction H.
Qed.

Lemma orUndefined_never_zero (x : option R) : orUndefined x <> Some 0%R.
Proof.
  unfold orUndefined. destruct x as [v |]; [| discriminate].
  destruct (Req_dec_T v 0) as [_ | H]; [discriminate |].
  intros E. injection E as E. contradiction.
Qed.

(** C9. A reading whose accuracy, altitude or speed is exactly 0 gives a
    location point where that field is absent; no location point ever holds
    0 in one of these fields; and this point is the one appended to the
    session, by the watcher callback, by [handleLocationUpdate] and by the
    background task. *)
Theorem toLocationPoint_zero_is_undefined (location : Location.LocationObject) :
  let c := Location.coords location in
  let pt := toLocationPoint location in
  (Location.accuracy c = Some 0%R -> accuracy pt = None)
  /\ (Location.altitude c = Some 0%R -> altitude pt = None)
  /\ (Location.speed c = Some 0%R -> speed pt = None)
  /\ accuracy pt <> Some 0%R
  /\ altitude pt <> Some 0%R
  /\ speed pt <> Some 0%R
  /\ (forall (s : App) prev,
         currentSession (hook s) = Some prev ->
         exists session,
           currentSession (hook (exec (ForegroundHook.onLocation location) s))
           = Some session
           /\ locations session = (locations prev ++ [pt])%list)
  /\ (forall (s : App) prev,
         currentSession (hook s) = Some prev ->
         exists session,
           currentSession
             (hook (exec (BackgroundHook.handleLocationUpdate location) s))
           = Some session
           /\ locations session = (locations prev ++ [pt])%list)
  /\ (forall (w : World) prev,
         reliable w -> currentItem w = Some prev ->
         exists session,
           currentItem (exec (LocationTask.onLocation location) w)
           = Some session
           /\ locations session = (locations prev ++ [pt])%list).
Proof.
  intros c pt. unfold pt, toLocationPoint. cbn [accuracy altitude speed].
  fold c.
  repeat split; try (intros ->; apply orUndefined_zero);
    try apply orUndefined_never_zero.
  - intros s prev H.
    destruct (ForegroundHook_callback_active s prev location H)
      as (_ & now & Hc).
    eexists. split; [exact Hc | reflexivity].
  - intros s prev H.
    destruct (BackgroundHook_callback_active s prev location H)
      as (_ & now & Hc).
    eexists. split; [exact Hc | reflexivity].
  - intros w prev Hrel H.
    destruct (LocationTask_callback_active w prev location Hrel H)
      as (_ & _ & now & Hc).
    eexists. split; [exact Hc | reflexivity].
Qed.

Lemma filter_Removed (i : string) (l : list TrackingSession) :
  Removed i l (filter (fun s => negb (String.eqb (id s) i)) l).
Proof.
  induction l as [| s l IH]; cbn [filter]; [constructor |].
  destruct (String.eqb_spec (id s) i) as [E | N]; cbn [negb].
  - now apply Removed_drop.
  - now apply Removed_keep.
Qed.

Lemma filter_no_match (i : string) (l : list TrackingSession) (s : TrackingSession) :
  In s (filter (fun s => negb (String.eqb (id s) i)) l) -> id s <> i.
Proof.
  intros H. apply filter_In in H. destruct H as [_ H].
  destruct (String.eqb_spec (id s) i); [discriminate | assumption].
Qed.

(** C10. [deleteSession] never touches the current-session record; over
    a storage that answers it resolves and leaves, as the completed
    sessions, the list it found without the entries whose id is the given
    one, all of them, the other entries as they were and in their order. *)
Theorem deleteSession_removes_every_match (w : World) (i : string) :
  let w' := exec (storageService.deleteSession i) w in
  currentItem w' = currentItem w
  /\ (reliable w ->
      outcome (storageService.deleteSession i) w = Resolved tt
      /\ completed w'
         = filter (fun s => negb (String.eqb (id s) i)) (completed w)
      /\ Removed i (completed w) (completed w')
      /\ (forall s, In s (completed w') -> id s <> i)
      /\ (forall s, In s (completed w) -> id s <> i -> In s (completed w'))).
Proof.
  intros w'. split.
  - unfold w', exec. rewrite deleteSession_run. cbv zeta.
    destruct (ioFault w (S (ioCount w))); reflexivity.
  - intros Hrel.
    assert (E : completed w'
                = filter (fun s => negb (String.eqb (id s) i)) (completed w)).
    { unfold w'. now rewrite exec_deleteSession_reliable. }
    split.
    { unfold outcome. rewrite deleteSession_run, !Hrel. reflexivity. }
    split; [exact E |]. rewrite E.
    split; [apply filter_Removed |].
    split; [intros s; apply filter_no_match |].
    intros s Hin Hid. apply filter_In. split; [exact Hin |].
    destruct (String.eqb_spec (id s) i); [contradiction | reflexivity].
Qed.

End IngestAndStore.

(* ================================================================== *)
(** ** The summary saved twice *)

Section SummaryTwice.

Import Spec Scenario.

Lemma Math_round_IZR (z : Z) : SessionSummary.Math_round (IZR z) = z.
Proof.
  unfold SessionSummary.Math_round. symmetry. apply Int_part_spec. lra.
Qed.

Lemma Math_round_1000 : SessionSummary.Math_round (1 * 1000)%R = 1000%Z.
Proof.
  replace (1 * 1000)%R with (IZR 1000) by lra. apply Math_round_IZR.
Qed.

(** Whatever the session on the screen and the form, over a storage that
    answers, [onSubmit] adds one record at the end of the completed sessions
    and rewrites none of those that are there. *)
Lemma onSubmit_appends (w : World) (session : TrackingSession)
      (data : SessionSummary.Form.SessionSummaryFormData) :
  reliable w ->
  let w' := exec (SessionSummary.onSubmit (Some session) data) w in
  reliable w'
  /\ exists e,
      completed w'
      = (completed w
         ++ [SessionSummary.withSummary session e
               (SessionSummary.Math_round
                  (SessionSummary.Form.totalWeightKg data * 1000)%R)
               data])%list.
Proof.
  intros Hrel w'.
  assert (Hstep : forall (w1 : World) (e : Z),
             reliable w1 -> completed w1 = completed w ->
             SessionSummary.endTimeOrNow session w = (Resolved e, w1) ->
             reliable w'
             /\ completed w'
                = (completed w
                   ++ [SessionSummary.withSummary session e
                         (SessionSummary.Math_round
                            (SessionSummary.Form.totalWeightKg data * 1000)%R)
                         data])%list).
  { intros w1 e Hrel1 Hc1 He.
    match goal with
    | |- ?G => pattern w' in |- *
    end.
    match goal with
    | |- ?P w' => set (Q := P)
    end.
    unfold w', exec, SessionSummary.onSubmit, tryCatch.
    erewrite bind_run by exact He.
    unfold bind at 1.
    rewrite saveSession_run, !Hrel1. cbv zeta.
    unfold bind at 1. rewrite getCurrentSession_run.
    cbn [ioFault ioCount afterCalls withSessions AsyncStorage.called
         AsyncStorage.store currentItem].
    rewrite Hrel1.
    destruct (currentItem w1) as [c |];
      [destruct (String.eqb (id c) (id session)) |].
    - unfold bind. rewrite saveCurrentSession_run.
      cbn [ioFault ioCount AsyncStorage.called]. rewrite Hrel1.
      subst Q. cbn. split; [exact Hrel1 | now rewrite Hc1].
    - subst Q. cbn. split; [exact Hrel1 | now rewrite Hc1].
    - subst Q. cbn. split; [exact Hrel1 | now rewrite Hc1]. }
  unfold SessionSummary.endTimeOrNow in Hstep.
  destruct (endTime session) as [e |].
  - destruct (e =? 0)%Z.
    + destruct (Hstep (exec Date_now w) (nextNow w)
                      (reliable_Date_now w Hrel) eq_refl eq_refl).
      eauto.
    + destruct (Hstep w e Hrel eq_refl eq_refl). eauto.
  - destruct (Hstep (exec Date_now w) (nextNow w)
                    (reliable_Date_now w Hrel) eq_refl eq_refl).
    eauto.
Qed.

(** So a record that is already stored under the id of the session stays
    the one that [getSession] returns, with the summary it had. *)
Lemma onSubmit_keeps_first_record (w : World) (session old : TrackingSession)
      (data : SessionSummary.Form.SessionSummaryFormData) :
  reliable w ->
  outcome (storageService.getSession (id session)) w = Resolved (Some old) ->
  let w' := exec (SessionSummary.onSubmit (Some session) data) w in
  outcome (storageService.getSession (id session)) w' = Resolved (Some old).
Proof.
  intros Hrel Hold w'.
  destruct (onSubmit_appends w session data Hrel) as (Hrel' & e & Hc).
  fold w' in Hrel', Hc.
  unfold outcome in *. rewrite getSession_run in *. cbn [fst] in *.
  rewrite Hrel' , Hc. rewrite Hrel in Hold.
  injection Hold as Hold. f_equal.
  revert Hold. generalize (completed w).
  induction l as [| x l IH]; cbn; [discriminate |].
  destruct (String.eqb (id x) (id session)); auto.
Qed.

Lemma onSubmit_secondForm :
  SessionSummary.onSubmit (Some summarised1) secondForm worldCompleted
  = (Resolved SessionSummary.RouterBack,
     afterCalls 1
       (withSessions [summarised1; resubmitted1] (afterCalls 2 worldCompleted))).
Proof.
  unfold SessionSummary.onSubmit.
  cbn [SessionSummary.Form.totalWeightKg secondForm].
  rewrite Math_round_1000.
  reflexivity.
Qed.

(** C5, on the code. The completed session "session_1" carries the
    summary 2500 g, plastic and glass. The screen loads it and the form is
    submitted again with 1 kg, metal: the store then holds two records with
    this id, the old one first, and [getSession] still returns the old
    record with 2500 g, plastic and glass. *)
Theorem resubmitted_summary_is_a_second_record :
  let w := worldCompleted in
  let w' := exec (SessionSummary.onSubmit (Some summarised1) secondForm) w in
  outcome (SessionSummary.loadSession (Some "session_1"%string)) w
  = Resolved (Some summarised1)
  /\ outcome (SessionSummary.onSubmit (Some summarised1) secondForm) w
     = Resolved SessionSummary.RouterBack
  /\ completed w' = [summarised1; resubmitted1]
  /\ List.length
       (filter (fun s => String.eqb (id s) "session_1") (completed w')) = 2%nat
  /\ outcome (storageService.getSession "session_1") w'
     = Resolved (Some summarised1)
  /\ totalWeightG summarised1 = Some 2500%Z
  /\ foundCategories summarised1 = Some [plastic; glass]
  /\ totalWeightG resubmitted1 = Some 1000%Z
  /\ foundCategories resubmitted1 = Some [metal].
Proof.
  intros w w'.
  assert (E : w' = afterCalls 1
                     (withSessions [summarised1; resubmitted1]
                                   (afterCalls 2 worldCompleted))).
  { unfold w', w, exec. now rewrite onSubmit_secondForm. }
  split; [reflexivity |].
  split; [unfold outcome, w; now rewrite onSubmit_secondForm |].
  rewrite E. repeat split.
Qed.

End SummaryTwice.

(* ================================================================== *)
(** ** The claims on a concrete run *)

Section OnTheScenario.

Import Spec Ingest Scenario.

Lemma reliable_world0 : reliable world0.
Proof. intros n. reflexivity. Defined.

Lemma reliable_worldActive : reliable worldActive.
Proof. intros n. reflexivity. Defined.

Lemma reliable_worldTwo : reliable worldTwo.
Proof. intros n. reflexivity. Defined.


(** Delivered to the hook with no session, fix A is not dropped: it
    becomes the only location of a new current session, "session_1000"
    started at 1001 with distance 0 and duration 0, in memory and in the
    store. *)
Lemma handleLocationUpdate_idle_creates_session :
  let s' := exec (BackgroundHook.handleLocationUpdate fixA) idle0 in
  let created :=
    {| id := "session_1000";
       name := None;
       startTime := 1001;
       endTime := None;
       locations := [pointA];
       distance := Some 0%R;
       duration := Some 0%Z;
       totalWeightG := None;
       foundCategories := None |} in
  currentSession (hook idle0) = None
  /\ currentSession (hook s') = Some created
  /\ currentItem (world s') = Some created
  /\ ~ (currentSession (hook s') = None
        /\ stored (world s') = stored (world idle0)).
Proof.
  intros s' created.
  assert (E : currentSession (hook s') = Some created).
  { unfold s', exec.
    rewrite (BackgroundHook_handleLocationUpdate_idle fixA idle0 eq_refl).
    reflexivity. }
  split; [reflexivity |]. split; [exact E |]. split.
  - unfold s', exec.
    rewrite (BackgroundHook_handleLocationUpdate_idle fixA idle0 eq_refl).
    reflexivity.
  - intros [H _]. rewrite E in H. discriminate.
Qed.

(** Fix A delivered with no session: the watcher callback of the
    foreground hook leaves the hook as it is, the background task stores
    "session_1000", started at 1001, with point A alone, distance 0 and
    duration 0. *)
Lemma ingest_without_session_creates_one_witness :
  currentSession (hook idle0) = None
  /\ reliable world0
  /\ currentItem world0 = None
  /\ exec (ForegroundHook.onLocation fixA) idle0 = idle0
  /\ exists session : TrackingSession,
       currentItem (exec (LocationTask.task (Some [fixA]) None) world0)
       = Some session
       /\ locations session = [pointA]
       /\ distance session = Some 0%R
       /\ duration session = Some 0%Z
       /\ id session = "session_1000"%string
       /\ startTime session = 1001%Z.
Proof.
  destruct (ingest_without_session_creates_one fixA) as (_ & Htask & Hfg).
  split; [reflexivity |]. split; [exact reliable_world0 |].
  split; [reflexivity |]. split.
  - apply Hfg. reflexivity.
  - destruct (Htask world0 reliable_world0 eq_refl)
      as (session & Hc & Hl & Hd & Hu & Hi & Hs & _).
    exists session.
    split; [exact Hc |]. split; [exact Hl |]. split; [exact Hd |].
    split; [exact Hu |]. split; [exact Hi | exact Hs].
Defined.

(** Started again while "session_1" is tracked, the hook resolves,
    reports no error and holds a new, empty session in the place of the
    first one. *)
Lemma startTracking_active_replaces_first_session :
  let s' := exec (ForegroundHook.startTracking (Replies granted) (Replies 8%nat))
                 active0 in
  currentSession (hook active0) = Some first1
  /\ outcome (ForegroundHook.startTracking (Replies granted) (Replies 8%nat))
             active0 = Resolved tt
  /\ error (hook s') = None
  /\ currentSession (hook s') = Some (emptySession "session_1000" 1001)
  /\ currentSession (hook s') <> Some first1.
Proof.
  intros s'.
  assert (E : ForegroundHook.startTracking (Replies granted) (Replies 8%nat)
                active0
              = (Resolved tt,
                 mkApp (mkHookState true
                          (Some (emptySession "session_1000" 1001)) None
                          (Some 8%nat))
                       (exec Date_now (exec Date_now worldActive)))).
  { rewrite ForegroundHook_startTracking_granted. reflexivity. }
  unfold s', exec, outcome. rewrite E. cbn [fst snd hook currentSession error].
  repeat split. intros H. injection H as H. discriminate H.
Qed.

(** Starting over the session being tracked, background permission
    denied. *)
Lemma startTracking_replaces_current_session_witness :
  let p := mkPermissions (Replies granted) (Replies granted) (Replies denied) in
  getForegroundPermissionsAsync p = Replies granted
  /\ currentSession
       (hook (exec (BackgroundHook.startTracking p (Replies tt) (Replies 8%nat))
                   active0))
     = Some (emptySession (sessionIdOf (nextNow worldActive))
                          (nextNow (exec Date_now worldActive)))
  /\ stored (world (exec (BackgroundHook.startTracking p (Replies tt)
                            (Replies 8%nat)) active0))
     = stored worldActive.
Proof.
  intros p. split; [reflexivity |].
  destruct (startTracking_replaces_current_session active0 (Replies 8%nat) p
              (Replies tt) eq_refl
              (exec (BackgroundHook.startTracking p (Replies tt)
                       (Replies 8%nat)) active0)
              (or_intror eq_refl)) as (H1 & _ & H2 & _).
  split; [exact H1 | exact H2].
Defined.

(** Stopping the session being tracked: "session_1", started at 1 with
    point A, is appended with end time 1000 and duration 1000. *)
Lemma stopTracking_appends_then_clears_witness :
  let s' := exec ForegroundHook.stopTracking active0 in
  let final := finalSession first1 1000 1001 in
  currentSession (hook active0) = Some first1
  /\ reliable worldActive
  /\ writes (world s')
     = [SetItem SESSIONS_KEY [final]; RemoveItem CURRENT_SESSION_KEY]
  /\ currentItem (world s') = None
  /\ completed (world s') = [final]
  /\ id final = "session_1"%string
  /\ startTime final = 1%Z
  /\ locations final = [pointA]
  /\ distance final = Some 0%R
  /\ endTime final = Some 1000%Z
  /\ duration final = Some 1000%Z.
Proof.
  intros s' final.
  destruct (stopTracking_appends_then_clears active0 first1 (Replies tt)
              eq_refl s' (or_introl eq_refl))
    as (He & (Hi & _ & Hs & Hl & Hd & _ & _ & Hu) & H & _).
  destruct (H reliable_worldActive) as (Hw & Hc & Hcs & _).
  split; [reflexivity |]. split; [exact reliable_worldActive |].
  split; [exact Hw |]. split; [exact Hc |]. split; [exact Hcs |].
  split; [exact Hi |]. split; [exact Hs |]. split; [exact Hl |].
  split; [exact Hd |]. split; [exact He | exact Hu].
Defined.

(** Recovering the stored session twice, the permission granted the
    first time and denied the second. *)
Lemma loadActiveSession_twice_same_session_witness :
  let s1 := exec (ForegroundHook.loadActiveSession (Replies granted)
                    (Replies 8%nat)) active0 in
  let s2 := exec (ForegroundHook.loadActiveSession (Replies denied)
                    (Replies 9%nat)) s1 in
  currentItem (world active0) = Some first1
  /\ ioFault (world active0) (ioCount (world active0)) = None
  /\ currentSession (hook s1) = Some first1
  /\ currentSession (hook s2) = Some first1
  /\ stored (world s2) = stored (world active0).
Proof.
  intros s1 s2.
  pose (p := mkPermissions (Replies granted) (Replies granted)
                           (Replies granted)).
  destruct (loadActiveSession_twice_same_session active0 first1
              (Replies granted) (Replies denied) p p (Replies tt) (Replies tt)
              (Replies 8%nat) (Replies 9%nat) eq_refl eq_refl s1 s2
              (or_introl (conj eq_refl eq_refl)))
    as (H1 & H2 & _ & _ & _ & H3).
  split; [reflexivity |]. split; [reflexivity |].
  split; [exact H1 |]. split; [exact H2 | exact H3].
Defined.

(** Stopped with no session, the hook resolves and its error cell stays
    empty: no failure is reported. *)
Lemma stopTracking_idle_reports_no_error :
  currentSession (hook idle0) = None
  /\ outcome ForegroundHook.stopTracking idle0 = Resolved tt
  /\ error (hook (exec ForegroundHook.stopTracking idle0)) = None
  /\ outcome (BackgroundHook.stopTracking (Replies tt)) idle0 = Resolved tt
  /\ error (hook (exec (BackgroundHook.stopTracking (Replies tt)) idle0))
     = None.
Proof.
  unfold outcome, exec.
  rewrite (ForegroundHook_stopTracking_idle idle0 eq_refl).
  rewrite (BackgroundHook_stopTracking_idle (Replies tt) idle0 eq_refl).
  repeat split.
Qed.

(** Stopping the hook as it is mounted changes nothing. *)
Lemma stopTracking_idle_leaves_store_witness :
  currentSession (hook idle0) = None
  /\ ForegroundHook.stopTracking idle0 = (Resolved tt, idle0).
Proof.
  split; [reflexivity |].
  destruct (stopTracking_idle_leaves_store idle0 (Replies tt) eq_refl)
    as (H & _).
  exact H.
Defined.

(** Two fixes at the same place, taken at different times with different
    accuracy, in exact arithmetic. *)
Lemma calculateDistance_nonneg_sym_zero_witness :
  let q := mkLocationPoint 0 0 2000 (Some 5%R) None (Some 1%R) in
  latitude pointA = latitude q
  /\ longitude pointA = longitude q
  /\ GeoMath.calculateDistance pointA q = 0%R.
Proof.
  intros q.
  destruct (calculateDistance_nonneg_sym_zero pointA q) as (_ & _ & H & _).
  split; [reflexivity |]. split; [reflexivity |].
  apply H; reflexivity.
Defined.

(** A reading at rest: zero accuracy, altitude and speed. *)
Lemma toLocationPoint_zero_is_undefined_witness :
  Location.accuracy (Location.coords fixAtRest) = Some 0%R
  /\ Location.altitude (Location.coords fixAtRest) = Some 0%R
  /\ Location.speed (Location.coords fixAtRest) = Some 0%R
  /\ accuracy (toLocationPoint fixAtRest) = None
  /\ altitude (toLocationPoint fixAtRest) = None
  /\ speed (toLocationPoint fixAtRest) = None.
Proof.
  destruct (toLocationPoint_zero_is_undefined fixAtRest)
    as (Ha & Hb & Hc & _).
  repeat split; [apply Ha | apply Hb | apply Hc]; reflexivity.
Defined.

(** Deleting "session_1" from a store with two records of it around
    "session_2". *)
Lemma deleteSession_removes_every_match_witness :
  let w' := exec (storageService.deleteSession "session_1") worldTwo in
  reliable worldTwo
  /\ completed worldTwo = [summarised1; other2; resubmitted1]
  /\ completed w' = [other2]
  /\ currentItem w' = Some first1.
Proof.
  intros w'.
  destruct (deleteSession_removes_every_match worldTwo "session_1")
    as (Hc & H).
  destruct (H reliable_worldTwo) as (_ & Hl & _).
  split; [exact reliable_worldTwo |]. split; [reflexivity |].
  split; [exact Hl | exact Hc].
Defined.

End OnTheScenario.

(* ================================================================== *)
(** * Further properties *)

(* ================================================================== *)
(** ** The storage service: round trips and failures *)

Section StorageRoundTrips.

Import Spec.

Lemma find_app_last (f : TrackingSession -> bool) (l : list TrackingSession)
      (x : TrackingSession) :
  f x = true ->
  find f (l ++ [x])
  = Some (match find f l with Some old => old | None => x end).
Proof.
  intros Hx. induction l as [| y l IH]; cbn.
  - now rewrite Hx.
  - destruct (f y); [reflexivity | exact IH].
Qed.

Lemma find_filter_other (i j : string) (l : list TrackingSession) :
  j <> i ->
  find (fun s => String.eqb (id s) j)
       (filter (fun s => negb (String.eqb (id s) i)) l)
  = find (fun s => String.eqb (id s) j) l.
Proof.
  intros Hji. induction l as [| x l IH]; cbn; [reflexivity |].
  destruct (String.eqb_spec (id x) i) as [E | N]; cbn.
  - destruct (String.eqb_spec (id x) j) as [E' | _]; [congruence | exact IH].
  - destruct (String.eqb (id x) j); [reflexivity | exact IH].
Qed.

Lemma find_filter_same (i : string) (l : list TrackingSession) :
  find (fun s => String.eqb (id s) i)
       (filter (fun s => negb (String.eqb (id s) i)) l) = None.
Proof.
  induction l as [| x l IH]; cbn; [reflexivity |].
  destruct (String.eqb (id x) i) eqn:E; cbn; [exact IH |].
  now rewrite E.
Qed.

Lemma reliable_afterCalls (n : nat) (w : World) :
  reliable w -> reliable (afterCalls n w).
Proof. intros H k. induction n; cbn; [apply H | exact IHn]. Qed.

Lemma reliable_exec_saveSession (session : TrackingSession) (w : World) :
  reliable w -> reliable (exec (storageService.saveSession session) w).
Proof.
  intros H. rewrite exec_saveSession_reliable by assumption.
  intros n. apply H.
Qed.

Lemma reliable_exec_deleteSession (i : string) (w : World) :
  reliable w -> reliable (exec (storageService.deleteSession i) w).
Proof.
  intros H. rewrite exec_deleteSession_reliable by assumption.
  intros n. apply H.
Qed.

Lemma reliable_exec_saveCurrentSession (v : option TrackingSession)
      (w : World) :
  reliable w -> reliable (exec (storageService.saveCurrentSession v) w).
Proof.
  intros H. rewrite exec_saveCurrentSession_reliable by assumption.
  intros n. destruct v; apply H.
Qed.

(** X1. Over a storage that answers, [saveSession] resolves and adds the
    session at the end of the completed sessions without touching the
    current-session record; [getSessions] then returns the old list followed
    by the session, and [getSession] with its id returns it exactly when no
    record had this id before, otherwise the record that was there first. *)
Theorem saveSession_then_getSession (w : World) (session : TrackingSession) :
  reliable w ->
  let w' := exec (storageService.saveSession session) w in
  outcome (storageService.saveSession session) w = Resolved tt
  /\ outcome storageService.getSessions w'
     = Resolved (completed w ++ [session])%list
  /\ outcome (storageService.getSession (id session)) w'
     = Resolved
         (Some (match find (fun s => String.eqb (id s) (id session))
                           (completed w) with
                | Some old => old
                | None => session
                end))
  /\ currentItem w' = currentItem w.
Proof.
  intros Hrel w'.
  assert (Hrel' : reliable w') by now apply reliable_exec_saveSession.
  assert (Hc : completed w' = (completed w ++ [session])%list).
  { unfold w'. now rewrite exec_saveSession_reliable. }
  repeat split.
  - unfold outcome. rewrite saveSession_run, !Hrel. reflexivity.
  - unfold outcome. rewrite getSessions_run, Hrel', Hc. reflexivity.
  - unfold outcome. rewrite getSession_run, Hrel', Hc. cbn [fst].
    rewrite find_app_last; [reflexivity | apply String.eqb_refl].
  - unfold w'. now rewrite exec_saveSession_reliable.
Qed.

(** X2. Over a storage that answers, after [deleteSession] with an id
    [getSession] finds nothing under this id, and finds under every other
    id what it found before. *)
Theorem deleteSession_then_getSession (w : World) (i j : string) :
  reliable w ->
  let w' := exec (storageService.deleteSession i) w in
  outcome (storageService.getSession i) w' = Resolved None
  /\ (j <> i ->
      outcome (storageService.getSession j) w'
      = outcome (storageService.getSession j) w).
Proof.
  intros Hrel w'.
  assert (Hrel' : reliable w') by now apply reliable_exec_deleteSession.
  assert (Hc : completed w'
               = filter (fun s => negb (String.eqb (id s) i)) (completed w)).
  { unfold w'. now rewrite exec_deleteSession_reliable. }
  unfold outcome. rewrite !getSession_run, Hrel', Hrel, Hc. cbn [fst].
  split.
  - now rewrite find_filter_same.
  - intros Hji. now rewrite find_filter_other.
Qed.

Lemma filter_filter_same (i : string) (l : list TrackingSession) :
  filter (fun s => negb (String.eqb (id s) i))
         (filter (fun s => negb (String.eqb (id s) i)) l)
  = filter (fun s => negb (String.eqb (id s) i)) l.
Proof.
  induction l as [| x l IH]; cbn; [reflexivity |].
  destruct (String.eqb (id x) i) eqn:E; cbn; [exact IH |].
  rewrite E. cbn. now rewrite IH.
Qed.

Lemma filter_absent (i : string) (l : list TrackingSession) :
  (forall s, In s l -> id s <> i) ->
  filter (fun s => negb (String.eqb (id s) i)) l = l.
Proof.
  induction l as [| x l IH]; intros H; cbn; [reflexivity |].
  destruct (String.eqb_spec (id x) i) as [E | N].
  - exfalso. apply (H x); [now left | exact E].
  - cbn. rewrite IH; [reflexivity |]. intros s Hs. apply H. now right.
Qed.

(** X3. Over a storage that answers, deleting the same id a second time
    changes nothing more, deleting an id that no record has leaves the
    completed sessions as they are, and a deletion never makes the list
    longer. *)
Theorem deleteSession_idempotent (w : World) (i : string) :
  reliable w ->
  let w1 := exec (storageService.deleteSession i) w in
  let w2 := exec (storageService.deleteSession i) w1 in
  completed w2 = completed w1
  /\ ((forall s, In s (completed w) -> id s <> i) ->
      completed w1 = completed w)
  /\ (List.length (completed w1) <= List.length (completed w))%nat.
Proof.
  intros Hrel w1 w2.
  assert (Hrel1 : reliable w1) by now apply reliable_exec_deleteSession.
  assert (H1 : completed w1
               = filter (fun s => negb (String.eqb (id s) i)) (completed w)).
  { unfold w1. now rewrite exec_deleteSession_reliable. }
  assert (H2 : completed w2
               = filter (fun s => negb (String.eqb (id s) i)) (completed w1)).
  { unfold w2. now rewrite exec_deleteSession_reliable. }
  repeat split.
  - rewrite H2, H1. apply filter_filter_same.
  - intros Habs. rewrite H1. now apply filter_absent.
  - rewrite H1. apply filter_length_le.
Qed.

(** X4. Over a storage that answers, [getCurrentSession] returns what
    [saveCurrentSession] was last given: the session, or nothing after
    [saveCurrentSession(null)]; the completed sessions are not touched. *)
Theorem saveCurrentSession_then_getCurrentSession
        (w : World) (v : option TrackingSession) :
  reliable w ->
  let w' := exec (storageService.saveCurrentSession v) w in
  outcome storageService.getCurrentSession w' = Resolved v
  /\ sessionsItem w' = sessionsItem w.
Proof.
  intros Hrel w'.
  assert (Hrel' : reliable w') by now apply reliable_exec_saveCurrentSession.
  unfold outcome. rewrite getCurrentSession_run, Hrel'. cbn [fst].
  unfold w'. rewrite exec_saveCurrentSession_reliable by assumption.
  destruct v; split; reflexivity.
Qed.

(** X5. When the storage rejects the write, [saveSession] and
    [deleteSession] reject with that same error and [saveCurrentSession]
    resolves as if nothing had happened; in all three cases the store holds
    what it held. The three readers never reject. *)
Theorem storage_failures (w : World) (err : Thrown)
        (session : TrackingSession) (i : string)
        (v : option TrackingSession) :
  (ioFault w (S (ioCount w)) = Some err ->
   outcome (storageService.saveSession session) w = Rejected err
   /\ stored (exec (storageService.saveSession session) w) = stored w
   /\ outcome (storageService.deleteSession i) w = Rejected err
   /\ stored (exec (storageService.deleteSession i) w) = stored w)
  /\ (ioFault w (ioCount w) = Some err ->
      outcome (storageService.saveCurrentSession v) w = Resolved tt
      /\ stored (exec (storageService.saveCurrentSession v) w) = stored w)
  /\ (exists l, outcome storageService.getSessions w = Resolved l)
  /\ (exists r, outcome (storageService.getSession i) w = Resolved r)
  /\ (exists r, outcome storageService.getCurrentSession w = Resolved r).
Proof.
  split; [| split; [| split; [| split]]].
  - intros H. unfold outcome, exec.
    rewrite saveSession_run, deleteSession_run, H. cbv zeta. repeat split.
  - intros H. unfold outcome, exec.
    rewrite saveCurrentSession_run, H. repeat split.
  - unfold outcome. rewrite getSessions_run. eexists. reflexivity.
  - unfold outcome. rewrite getSession_run. eexists. reflexivity.
  - unfold outcome. rewrite getCurrentSession_run. eexists. reflexivity.
Qed.

(** X6. When the storage rejects the read of the completed sessions and
    then accepts the write, [saveSession] leaves the new session as the only
    completed session and [deleteSession] leaves none: [getSessions] turns
    the failed read into an empty list, which is written back. *)
Theorem failed_read_overwrites_sessions (w : World) (err : Thrown)
        (session : TrackingSession) (i : string) :
  ioFault w (ioCount w) = Some err ->
  ioFault w (S (ioCount w)) = None ->
  outcome (storageService.saveSession session) w = Resolved tt
  /\ sessionsItem (exec (storageService.saveSession session) w)
     = Some [session]
  /\ outcome (storageService.deleteSession i) w = Resolved tt
  /\ sessionsItem (exec (storageService.deleteSession i) w) = Some [].
Proof.
  intros Hread Hwrite. unfold outcome, exec.
  rewrite saveSession_run, deleteSession_run, Hread, Hwrite. cbv zeta.
  repeat split.
Qed.

Lemma find_first (f : TrackingSession -> bool) (l : list TrackingSession) :
  match find f l with
  | Some s =>
      f s = true
      /\ exists before after,
           l = (before ++ s :: after)%list
           /\ forall x, In x before -> f x = false
  | None => forall x, In x l -> f x = false
  end.
Proof.
  induction l as [| y l IH]; cbn.
  - intros x [].
  - destruct (f y) eqn:E.
    + split; [exact E |]. exists [], l. split; [reflexivity |]. intros x [].
    + destruct (find f l) as [s |].
      * destruct IH as (Hs & before & after & Hl & Hb).
        split; [exact Hs |]. exists (y :: before), after.
        split; [now rewrite Hl |].
        intros x [<- | Hx]; [exact E | now apply Hb].
      * intros x [<- | Hx]; [exact E | now apply IH].
Qed.

(** X7. When the read is answered, [getSession] never rejects; what it
    returns is the first completed session, in stored order, whose id is the
    one asked for, and it returns nothing exactly when no completed session
    has this id. *)
Theorem getSession_first_match (w : World) (i : string) :
  ioFault w (ioCount w) = None ->
  match outcome (storageService.getSession i) w with
  | Resolved (Some s) =>
      id s = i
      /\ exists before after,
           completed w = (before ++ s :: after)%list
           /\ forall x, In x before -> id x <> i
  | Resolved None => forall x, In x (completed w) -> id x <> i
  | Rejected _ => False
  end.
Proof.
  intros Hok. unfold outcome. rewrite getSession_run, Hok. cbn [fst].
  pose proof (find_first (fun s => String.eqb (id s) i) (completed w)) as H.
  destruct (find (fun s => String.eqb (id s) i) (completed w)) as [s |].
  - destruct H as (Hs & before & after & Hl & Hb).
    split; [now apply String.eqb_eq |].
    exists before, after. split; [exact Hl |].
    intros x Hx. apply String.eqb_neq. now apply Hb.
  - intros x Hx. apply String.eqb_neq. now apply H.
Qed.

End StorageRoundTrips.

(* ================================================================== *)
(** ** The hook: ingest and the store *)

Section IngestAndRecovery.

Import Spec Ingest.

(** One ingest into a current session, in either hook. *)
Lemma onLocation_active_either (loc : Location.LocationObject) (s s' : App)
      (prev : TrackingSession) :
  currentSession (hook s) = Some prev ->
  s' = exec (ForegroundHook.onLocation loc) s
  \/ s' = exec (BackgroundHook.handleLocationUpdate loc) s ->
  let updated :=
    updatedSession prev (toLocationPoint loc) (nextNow (world s)) in
  s' = mkApp (adopt (Some updated) (hook s))
             (exec (storageService.saveCurrentSession (Some updated))
                   (exec Date_now (world s))).
Proof.
  intros H Hs' updated.
  assert (E : s' = exec (ForegroundHook.onLocation loc) s).
  { destruct Hs' as [-> | ->]; [reflexivity |]. unfold exec.
    now rewrite (BackgroundHook_handleLocationUpdate_active loc s prev H). }
  rewrite E. unfold exec at 1.
  now rewrite (ForegroundHook_onLocation_active loc s prev H).
Qed.

(** X8. Ingest writes through: once a reading is ingested into the
    current session over a storage that answers, the current-session record
    of the store is the session the hook holds, with the reading as its last
    location, whatever the record held before; a hook mounted afterwards on
    this store recovers exactly this session. *)
Theorem ingest_is_written_through
        (s : App) (prev : TrackingSession) (loc : Location.LocationObject)
        (remounted : HookState) (permission : Reply PermissionStatus)
        (watch : Reply nat) :
  currentSession (hook s) = Some prev ->
  reliable (world s) ->
  forall s',
    s' = exec (ForegroundHook.onLocation loc) s
    \/ s' = exec (BackgroundHook.handleLocationUpdate loc) s ->
    exists session,
      currentSession (hook s') = Some session
      /\ locations session = (locations prev ++ [toLocationPoint loc])%list
      /\ currentItem (world s') = Some session
      /\ currentSession
           (hook (exec (ForegroundHook.loadActiveSession permission watch)
                       (mkApp remounted (world s'))))
         = Some session.
Proof.
  intros H Hrel s' Hs'.
  pose proof (onLocation_active_either loc s s' prev H Hs') as E.
  cbv zeta in E.
  set (updated := updatedSession prev (toLocationPoint loc)
                                 (nextNow (world s))) in *.
  rewrite exec_saveCurrentSession_reliable in E
    by now apply reliable_Date_now.
  exists updated. rewrite E. cbn [hook world adopt currentSession].
  split; [reflexivity |]. split; [reflexivity |]. split; [reflexivity |].
  destruct (ForegroundHook_loadActiveSession_run permission watch
              (mkApp remounted
                 (withCurrent (Some updated)
                    (AsyncStorage.called (exec Date_now (world s))))))
    as (_ & Hc & _).
  rewrite Hc. unfold readCurrent. cbn [world ioFault ioCount withCurrent
    AsyncStorage.store AsyncStorage.called Date_now exec snd currentItem].
  now rewrite Hrel.
Qed.

(** X9. A write-through that the storage rejects is not reported and
    loses nothing for good: the hook still holds the reading, the store
    keeps its old record, and the next ingest whose write is accepted stores
    the session with both readings. *)
Theorem rejected_write_is_healed_by_next_ingest
        (s : App) (prev : TrackingSession)
        (loc1 loc2 : Location.LocationObject) (err : Thrown) :
  currentSession (hook s) = Some prev ->
  ioFault (world s) (ioCount (world s)) = Some err ->
  ioFault (world s) (S (ioCount (world s))) = None ->
  let s1 := exec (ForegroundHook.onLocation loc1) s in
  let s2 := exec (ForegroundHook.onLocation loc2) s1 in
  outcome (ForegroundHook.onLocation loc1) s = Resolved tt
  /\ error (hook s1) = error (hook s)
  /\ currentItem (world s1) = currentItem (world s)
  /\ exists session,
       currentSession (hook s2) = Some session
       /\ currentItem (world s2) = Some session
       /\ locations session
          = (locations prev ++ [toLocationPoint loc1; toLocationPoint loc2])%list.
Proof.
  intros H Hko Hok s1 s2.
  set (u1 := updatedSession prev (toLocationPoint loc1) (nextNow (world s))).
  assert (E1 : s1 = mkApp (adopt (Some u1) (hook s))
                          (AsyncStorage.called (exec Date_now (world s)))).
  { unfold s1, exec at 1.
    rewrite (ForegroundHook_onLocation_active loc1 s prev H). cbn [snd].
    fold u1. unfold exec at 1. rewrite saveCurrentSession_run.
    cbn [snd Date_now exec ioFault ioCount]. now rewrite Hko. }
  assert (H1 : currentSession (hook s1) = Some u1) by now rewrite E1.
  set (u2 := updatedSession u1 (toLocationPoint loc2) (nextNow (world s1))).
  assert (E2 : s2 = mkApp (adopt (Some u2) (hook s1))
                          (exec (storageService.saveCurrentSession (Some u2))
                                (exec Date_now (world s1)))).
  { unfold s2, exec at 1.
    now rewrite (ForegroundHook_onLocation_active loc2 s1 u1 H1). }
  split.
  { unfold outcome.
    now rewrite (ForegroundHook_onLocation_active loc1 s prev H). }
  split; [now rewrite E1 |]. split; [now rewrite E1 |].
  exists u2. rewrite E2. cbn [hook world adopt currentSession].
  split; [reflexivity |]. split.
  - destruct (exec_saveCurrentSession_items (Some u2)
                (exec Date_now (world s1))) as [_ Hc].
    apply Hc. rewrite E1. exact Hok.
  - unfold u2, u1. cbn [updatedSession locations].
    now rewrite <- app_assoc.
Qed.

(** X15. Ingesting a reading into the current session, in either hook
    and whatever the storage does, changes only three fields of the
    session: one location more, the recomputed distance, and the duration
    since [startTime]. The id, name, start and end time and the summary
    fields stay, and so do the three other cells of the hook and the
    completed sessions. *)
Theorem ingest_changes_only_the_track
        (s : App) (prev : TrackingSession) (loc : Location.LocationObject) :
  currentSession (hook s) = Some prev ->
  forall s',
    s' = exec (ForegroundHook.onLocation loc) s
    \/ s' = exec (BackgroundHook.handleLocationUpdate loc) s ->
    exists session,
      currentSession (hook s') = Some session
      /\ id session = id prev
      /\ name session = name prev
      /\ startTime session = startTime prev
      /\ endTime session = endTime prev
      /\ totalWeightG session = totalWeightG prev
      /\ foundCategories session = foundCategories prev
      /\ List.length (locations session) = S (List.length (locations prev))
      /\ duration session = Some (nextNow (world s) - startTime prev)%Z
      /\ isTracking (hook s') = isTracking (hook s)
      /\ error (hook s') = error (hook s)
      /\ locationSubscriptionRef (hook s')
         = locationSubscriptionRef (hook s)
      /\ sessionsItem (world s') = sessionsItem (world s).
Proof.
  intros H s' Hs'.
  pose proof (onLocation_active_either loc s s' prev H Hs') as E.
  cbv zeta in E. rewrite E. eexists.
  cbn [hook world adopt currentSession isTracking error
       locationSubscriptionRef].
  split; [reflexivity |].
  cbn [updatedSession id name startTime endTime totalWeightG foundCategories
       locations duration].
  repeat split.
  - rewrite length_app. cbn. lia.
  - destruct (exec_saveCurrentSession_items
                (Some (updatedSession prev (toLocationPoint loc)
                                      (nextNow (world s))))
                (exec Date_now (world s))) as [Hs _].
    exact Hs.
Qed.

End IngestAndRecovery.

(* ================================================================== *)
(** ** The hook: permissions *)

Section Permissions.

Import Spec Ingest.

(** X10. Without the foreground permission [startTracking] starts
    nothing, in the foreground hook: it resolves, the current session, the
    tracking flag, the subscription and the runtime stay as they were, and
    the error cell says why, "Location permission not granted" when the
    request was answered and "Failed to request location permission" when
    it threw. *)
Theorem startTracking_without_permission
        (s : App) (permission : Reply PermissionStatus) (watch : Reply nat) :
  permission <> Replies granted ->
  let s' := exec (ForegroundHook.startTracking permission watch) s in
  outcome (ForegroundHook.startTracking permission watch) s = Resolved tt
  /\ world s' = world s
  /\ currentSession (hook s') = currentSession (hook s)
  /\ isTracking (hook s') = isTracking (hook s)
  /\ locationSubscriptionRef (hook s') = locationSubscriptionRef (hook s)
  /\ error (hook s')
     = Some (match permission with
             | Replies _ => "Location permission not granted"
             | Throws _ => "Failed to request location permission"
             end)%string.
Proof.
  intros Hp s'. unfold s'.
  destruct permission as [[| |] | e]; try congruence;
    destruct s as [[t c e0 r] w]; repeat split.
Qed.

(** X14. [requestPermissions] of the hook with background updates never
    rejects and touches neither the session, the tracking flag, the
    subscription nor the runtime. It answers [true] when the foreground
    permission is granted already, or granted on request, and then leaves
    the error as it is; it answers [false] with a message in the error cell
    when the permission is refused or a call throws. What the background
    request answers, or that it throws, changes nothing. *)
Theorem requestPermissions_foreground_decides (p : Permissions) (s : App) :
  let r := outcome (BackgroundHook.requestPermissions p) s in
  let s' := exec (BackgroundHook.requestPermissions p) s in
  world s' = world s
  /\ currentSession (hook s') = currentSession (hook s)
  /\ isTracking (hook s') = isTracking (hook s)
  /\ locationSubscriptionRef (hook s') = locationSubscriptionRef (hook s)
  /\ (r = Resolved true /\ error (hook s') = error (hook s)
      \/ r = Resolved false /\ error (hook s') <> None)
  /\ (getForegroundPermissionsAsync p = Replies granted -> r = Resolved true)
  /\ (forall st,
         getForegroundPermissionsAsync p = Replies st ->
         requestForegroundPermissionsAsync p = Replies granted ->
         r = Resolved true)
  /\ (forall st st',
         getForegroundPermissionsAsync p = Replies st -> st <> granted ->
         requestForegroundPermissionsAsync p = Replies st' -> st' <> granted ->
         r = Resolved false
         /\ error (hook s')
            = Some "Location permission is required to track your workout. Please enable it in Settings."%string)
  /\ (forall e,
         getForegroundPermissionsAsync p = Throws e ->
         r = Resolved false
         /\ error (hook s')
            = Some ("Failed to request location permission: "
                    ++ messageOr e "Unknown error")%string)
  /\ (forall background,
         BackgroundHook.requestPermissions
           (mkPermissions (getForegroundPermissionsAsync p)
                          (requestForegroundPermissionsAsync p) background) s
         = BackgroundHook.requestPermissions p s).
Proof.
  intros r s'. unfold r, s', outcome, exec.
  destruct s as [[t c e0 ref] w].
  destruct p as [[[| |] | e1] [[| |] | e2] [b | e3]];
    cbn [getForegroundPermissionsAsync requestForegroundPermissionsAsync
         requestBackgroundPermissionsAsync];
    (split; [reflexivity |]); (split; [reflexivity |]);
    (split; [reflexivity |]); (split; [reflexivity |]);
    (split; [first [left; split; reflexivity
                   | right; split; [reflexivity | discriminate]] |]);
    (split; [intros; first [reflexivity | discriminate] |]);
    (split; [intros; first [reflexivity | discriminate] |]);
    (split; [intros st st' H1 N1 H2 N2;
             first [discriminate
                   | injection H1 as <-; congruence
                   | injection H2 as <-; congruence
                   | split; reflexivity] |]);
    (split; [intros e H; first [discriminate
                               | injection H as <-; split; reflexivity] |]);
    intros [bg | ebg]; reflexivity.
Qed.

End Permissions.

(* ================================================================== *)
(** ** The hook: from start to stop *)

Section StartToStop.

Import Spec Ingest.





(** X12. When the storage accepts the append of [stopTracking] and then
    rejects the removal of the current-session record, nothing is reported:
    the hook resolves, leaves the error as it is and holds no session, the
    final session is among the completed sessions, and the stored
    current-session record is still there. A hook mounted afterwards adopts
    this record and says it is tracking. *)
Theorem stopTracking_rejected_removal_leaves_record
        (s : App) (cur stored_ : TrackingSession) (err : Thrown)
        (remounted : HookState) (permission : Reply PermissionStatus)
        (watch : Reply nat) :
  currentSession (hook s) = Some cur ->
  currentItem (world s) = Some stored_ ->
  let w := world s in
  ioFault w (ioCount w) = None ->
  ioFault w (S (ioCount w)) = None ->
  ioFault w (S (S (ioCount w))) = Some err ->
  ioFault w (S (S (S (ioCount w)))) = None ->
  let final := finalSession cur (nextNow w) (nextNow (exec Date_now w)) in
  let s' := exec ForegroundHook.stopTracking s in
  let s'' := exec (ForegroundHook.loadActiveSession permission watch)
                  (mkApp remounted (world s')) in
  outcome ForegroundHook.stopTracking s = Resolved tt
  /\ error (hook s') = error (hook s)
  /\ currentSession (hook s') = None
  /\ completed (world s') = (completed w ++ [final])%list
  /\ currentItem (world s') = Some stored_
  /\ currentSession (hook s'') = Some stored_
  /\ isTracking (hook s'') = true.
Proof.
  intros Hcur Hst w H0 H1 H2 H3 final s' s''.
  assert (E : ForegroundHook.stopTracking s
              = (Resolved tt,
                 mkApp (mkHookState false None (error (hook s)) None)
                       (AsyncStorage.called
                          (withSessions (completed w ++ [final])
                             (afterCalls 2
                                (exec Date_now (exec Date_now w))))))).
  { rewrite (ForegroundHook_stopTracking_saved s cur Hcur H1).
    fold w. fold final. f_equal. f_equal.
    unfold exec at 2. rewrite saveSession_run.
    cbn [Date_now exec snd ioFault ioCount]. rewrite H0, H1. cbv zeta.
    cbn [snd]. unfold exec at 1. rewrite saveCurrentSession_run.
    cbn [snd withSessions afterCalls AsyncStorage.store AsyncStorage.called
         ioFault ioCount Date_now exec].
    now rewrite H2. }
  assert (Es' : s' = mkApp (mkHookState false None (error (hook s)) None)
                       (AsyncStorage.called
                          (withSessions (completed w ++ [final])
                             (afterCalls 2
                                (exec Date_now (exec Date_now w)))))).
  { unfold s', exec. now rewrite E. }
  split; [unfold outcome; now rewrite E |].
  rewrite Es'. cbn [hook world error currentSession].
  split; [reflexivity |]. split; [reflexivity |].
  split; [reflexivity |]. split; [exact Hst |].
  destruct (ForegroundHook_loadActiveSession_run permission watch
              (mkApp remounted (world s'))) as (_ & Hc & Ht).
  fold s'' in Hc, Ht. rewrite Hc, Ht. rewrite Es'.
  unfold readCurrent.
  cbn [world withSessions afterCalls AsyncStorage.store AsyncStorage.called
       ioFault ioCount currentItem Date_now exec snd].
  fold w. rewrite H3. fold w in Hst. rewrite Hst. split; reflexivity.
Qed.

End StartToStop.

(* ================================================================== *)
(** ** The hook: tracking implies a session *)

Section TrackingHasSession.

Import Spec Ingest.

Lemma ForegroundHook_stopTracking_invariant (s : App) :
  trackingHasSession (hook s) ->
  trackingHasSession (hook (exec ForegroundHook.stopTracking s)).
Proof.
  intros Inv. unfold exec.
  destruct (currentSession (hook s)) as [cur |] eqn:Hcur.
  - destruct (ioFault (world s) (S (ioCount (world s)))) as [err |] eqn:Hf.
    + rewrite (ForegroundHook_stopTracking_rejected s cur err Hcur Hf).
      intros _. discriminate.
    + rewrite (ForegroundHook_stopTracking_saved s cur Hcur Hf).
      intros H. discriminate H.
  - rewrite (ForegroundHook_stopTracking_idle s Hcur).
    intros H. discriminate H.
Qed.

Lemma loadActiveSession_invariant (s s' : App) :
  trackingHasSession (hook s) ->
  currentSession (hook s')
  = match readCurrent (world s) with
    | Some a => Some a
    | None => currentSession (hook s)
    end ->
  isTracking (hook s')
  = match readCurrent (world s) with
    | Some _ => true
    | None => isTracking (hook s)
    end ->
  trackingHasSession (hook s').
Proof.
  intros Inv Hc Ht H. rewrite Hc. rewrite Ht in H.
  destruct (readCurrent (world s)); [discriminate | now apply Inv].
Qed.

(** X13. From mount on, a hook that says it is tracking holds a session.
    The mounted hook does not track, and every operation of either hook
    keeps the property, whatever the platform answers and whatever the
    storage does: [startTracking], [stopTracking], the recovery on mount
    and the ingest of a reading. *)
Theorem tracking_has_session_is_kept
        (s : App) (permission : Reply PermissionStatus) (p : Permissions)
        (background : Reply unit) (watch : Reply nat)
        (loc : Location.LocationObject) :
  trackingHasSession mounted
  /\ (trackingHasSession (hook s) ->
      trackingHasSession
        (hook (exec (ForegroundHook.startTracking permission watch) s))
      /\ trackingHasSession (hook (exec ForegroundHook.stopTracking s))
      /\ trackingHasSession
           (hook (exec (ForegroundHook.loadActiveSession permission watch) s))
      /\ trackingHasSession (hook (exec (ForegroundHook.onLocation loc) s))
      /\ trackingHasSession
           (hook (exec (BackgroundHook.startTracking p background watch) s))
      /\ trackingHasSession
           (hook (exec (BackgroundHook.stopTracking background) s))
      /\ trackingHasSession
           (hook (exec (BackgroundHook.loadActiveSession p background watch)
                       s))
      /\ trackingHasSession
           (hook (exec (BackgroundHook.handleLocationUpdate loc) s))).
Proof.
  split; [intros H; discriminate H |].
  intros Inv.
  split; [| split; [| split; [| split; [| split; [| split; [| split]]]]]].
  - destruct permission as [[| |] | e]; destruct watch as [sub | e'];
      destruct s as [[t c e0 r] w];
      first [exact Inv | intros H; discriminate].
  - now apply ForegroundHook_stopTracking_invariant.
  - destruct (ForegroundHook_loadActiveSession_run permission watch s)
      as (_ & Hc & Ht).
    exact (loadActiveSession_invariant s _ Inv Hc Ht).
  - destruct (currentSession (hook s)) as [prev |] eqn:Hcur.
    + unfold exec.
      rewrite (ForegroundHook_onLocation_active loc s prev Hcur).
      intros _. discriminate.
    + unfold exec. now rewrite (ForegroundHook_onLocation_idle loc s Hcur).
  - destruct s as [[t c e0 r] w].
    destruct p as [[[| |] | e1] [[| |] | e2] [b | e3]];
      destruct background as [[] | e4]; destruct watch as [sub | e'];
      first [exact Inv | intros H; discriminate].
  - unfold exec. rewrite BackgroundHook_stopTracking_as_foreground.
    now apply ForegroundHook_stopTracking_invariant.
  - destruct (BackgroundHook_loadActiveSession_run p background watch s)
      as (_ & Hc & Ht).
    exact (loadActiveSession_invariant s _ Inv Hc Ht).
  - destruct (currentSession (hook s)) as [prev |] eqn:Hcur.
    + unfold exec.
      rewrite (BackgroundHook_handleLocationUpdate_active loc s prev Hcur).
      rewrite (ForegroundHook_onLocation_active loc s prev Hcur).
      intros _. discriminate.
    + unfold exec.
      rewrite (BackgroundHook_handleLocationUpdate_idle loc s Hcur).
      intros _. discriminate.
Qed.

End TrackingHasSession.

(* ================================================================== *)
(** ** The background task *)

Section TaskFacts.

Import Spec Ingest.

(** Called with an error, whatever data comes along, or without data, or
    with an empty batch, the task makes no call to the storage and reads no
    clock: it resolves and the runtime is the one it started from. *)
Lemma task_without_work
        (w : World) (err : Thrown)
        (data : option (list Location.LocationObject)) :
  LocationTask.task data (Some err) w = (Resolved tt, w)
  /\ LocationTask.task None None w = (Resolved tt, w)
  /\ LocationTask.task (Some []) None w = (Resolved tt, w).
Proof. repeat split. Qed.



End TaskFacts.

(* ================================================================== *)
(** ** The summary screen *)

Section SummaryScreenFacts.

Import Spec SummaryScreen.

Lemma Category_eqb_spec (a b : Category) :
  reflect (a = b) (Category_eqb a b).
Proof. destruct a, b; cbn; constructor; congruence. Qed.

Lemma includes_In (l : list Category) (c : Category) :
  includes l c = true <-> In c l.
Proof.
  unfold includes. rewrite existsb_exists. split.
  - intros (x & Hx & E). destruct (Category_eqb_spec c x); [now subst | easy].
  - intros H. exists c. split; [exact H |].
    now destruct (Category_eqb_spec c c).
Qed.

Lemma In_without (l : list Category) (c x : Category) :
  In x (filter (fun d => negb (Category_eqb d c)) l) <-> In x l /\ x <> c.
Proof.
  rewrite filter_In. split; intros [H1 H2]; split; try exact H1.
  - destruct (Category_eqb_spec x c); [discriminate | assumption].
  - destruct (Category_eqb_spec x c); [contradiction | reflexivity].
Qed.

(** X17. [toggleCategory] flips the membership of the category and of
    no other: afterwards the category is selected exactly when it was not,
    every other category is selected exactly as before and in the same
    order, and a selection without repetition stays without repetition.
    Toggling a category that was not selected twice gives back the
    selection. *)
Theorem toggleCategory_flips_one
        (category : Category) (currentCategories : list Category) :
  let toggled := toggleCategory category currentCategories in
  (In category toggled <-> ~ In category currentCategories)
  /\ (forall c, c <> category ->
                (In c toggled <-> In c currentCategories))
  /\ filter (fun d => negb (Category_eqb d category)) toggled
     = filter (fun d => negb (Category_eqb d category)) currentCategories
  /\ (NoDup currentCategories -> NoDup toggled)
  /\ (~ In category currentCategories ->
      toggleCategory category toggled = currentCategories).
Proof.
  intros toggled. unfold toggled, toggleCategory.
  destruct (includes currentCategories category) eqn:E.
  - apply includes_In in E.
    split; [| split; [| split; [| split]]].
    + rewrite In_without. intuition.
    + intros c Hc. rewrite In_without. intuition.
    + clear E. induction currentCategories as [| x l IH];
        cbn; [reflexivity |].
      destruct (Category_eqb x category) eqn:Ex; cbn; [exact IH |].
      rewrite Ex. cbn. now rewrite IH.
    + intros Hnd. now apply NoDup_filter.
    + intros Hout. contradiction.
  - assert (Hout : ~ In category currentCategories).
    { intros H. apply includes_In in H. congruence. }
    split; [| split; [| split; [| split]]].
    + rewrite in_app_iff. cbn. intuition.
    + intros c Hc. rewrite in_app_iff. cbn. intuition congruence.
    + rewrite filter_app. cbn.
      destruct (Category_eqb_spec category category); [| contradiction].
      cbn. now rewrite app_nil_r.
    + intros Hnd. apply NoDup_app; [exact Hnd | |].
      * constructor; [intros [] | constructor].
      * intros x Hx [<- | []]. contradiction.
    + intros _.
      assert (Hin : includes (currentCategories ++ [category]) category = true).
      { apply includes_In. rewrite in_app_iff. right. now left. }
      rewrite Hin. rewrite filter_app. cbn.
      destruct (Category_eqb_spec category category); [| contradiction].
      cbn. rewrite app_nil_r.
      clear E Hin. induction currentCategories as [| x l IH];
        cbn; [reflexivity |].
      destruct (Category_eqb_spec x category) as [-> | N].
      * exfalso. apply Hout. now left.
      * cbn. f_equal. apply IH. intros H. apply Hout. now right.
Qed.

(** What [onSubmit] and "Save Without Summary" leave in a store that
    answers: the record appended, and what becomes of the current-session
    record. *)
Lemma onSubmit_reliable (w : World) (session : TrackingSession)
      (data : SessionSummary.Form.SessionSummaryFormData) :
  reliable w ->
  let w' := exec (SessionSummary.onSubmit (Some session) data) w in
  exists e,
    outcome (SessionSummary.endTimeOrNow session) w = Resolved e
    /\ completed w'
       = (completed w
          ++ [SessionSummary.withSummary session e
                (SessionSummary.Math_round
                   (SessionSummary.Form.totalWeightKg data * 1000)%R)
                data])%list
    /\ currentItem w'
       = match currentItem w with
         | Some c => if String.eqb (id c) (id session) then None else Some c
         | None => None
         end
    /\ reliable w'.
Proof.
  intros Hrel w'.
  assert (Hstep : forall (w1 : World) (e : Z),
             reliable w1 -> completed w1 = completed w ->
             currentItem w1 = currentItem w ->
             SessionSummary.endTimeOrNow session w = (Resolved e, w1) ->
             completed w'
             = (completed w
                ++ [SessionSummary.withSummary session e
                      (SessionSummary.Math_round
                         (SessionSummary.Form.totalWeightKg data * 1000)%R)
                      data])%list
             /\ currentItem w'
                = match currentItem w with
                  | Some c =>
                      if String.eqb (id c) (id session) then None else Some c
                  | None => None
                  end
             /\ reliable w').
  { intros w1 e Hrel1 Hc1 Hcur1 He.
    match goal with
    | |- ?G => pattern w' in |- *
    end.
    match goal with
    | |- ?P w' => set (Q := P)
    end.
    unfold w', exec, SessionSummary.onSubmit, tryCatch.
    erewrite bind_run by exact He.
    unfold bind at 1.
    rewrite saveSession_run, !Hrel1. cbv zeta.
    unfold bind at 1. rewrite getCurrentSession_run.
    cbn [ioFault ioCount afterCalls withSessions AsyncStorage.called
         AsyncStorage.store currentItem].
    rewrite Hrel1, Hcur1.
    destruct (currentItem w) as [c |];
      [destruct (String.eqb (id c) (id session)) |].
    - unfold bind. rewrite saveCurrentSession_run.
      cbn [ioFault ioCount AsyncStorage.called]. rewrite Hrel1.
      subst Q. cbn. rewrite Hc1. repeat split. exact Hrel1.
    - subst Q. cbn. rewrite Hc1. repeat split. exact Hrel1.
    - subst Q. cbn. rewrite Hc1. repeat split. exact Hrel1. }
  unfold outcome, SessionSummary.endTimeOrNow in *.
  destruct (endTime session) as [e |].
  - destruct (e =? 0)%Z.
    + exists (nextNow w). split; [reflexivity |].
      apply (Hstep (exec Date_now w)); auto with storage.
    + exists e. split; [reflexivity |]. apply (Hstep w); auto.
  - exists (nextNow w). split; [reflexivity |].
    apply (Hstep (exec Date_now w)); auto with storage.
Qed.

Lemma onSaveWithoutSummary_reliable (w : World) (session : TrackingSession) :
  reliable w ->
  let w' := exec (onSaveWithoutSummary session) w in
  exists e,
    outcome (SessionSummary.endTimeOrNow session) w = Resolved e
    /\ completed w' = (completed w ++ [withEndTime session e])%list
    /\ currentItem w' = None.
Proof.
  intros Hrel w'.
  assert (Hstep : forall (w1 : World) (e : Z),
             reliable w1 -> completed w1 = completed w ->
             SessionSummary.endTimeOrNow session w = (Resolved e, w1) ->
             completed w' = (completed w ++ [withEndTime session e])%list
             /\ currentItem w' = None).
  { intros w1 e Hrel1 Hc1 He.
    match goal with
    | |- ?G => pattern w' in |- *
    end.
    match goal with
    | |- ?P w' => set (Q := P)
    end.
    unfold w', exec, onSaveWithoutSummary, tryCatch.
    erewrite bind_run by exact He.
    unfold bind at 1.
    rewrite saveSession_run, !Hrel1. cbv zeta.
    unfold bind at 1. rewrite saveCurrentSession_run.
    cbn [ioFault ioCount afterCalls withSessions AsyncStorage.called
         AsyncStorage.store].
    rewrite Hrel1. subst Q. cbn. rewrite Hc1. split; reflexivity. }
  unfold outcome, SessionSummary.endTimeOrNow in *.
  destruct (endTime session) as [e |].
  - destruct (e =? 0)%Z.
    + exists (nextNow w). split; [reflexivity |].
      apply (Hstep (exec Date_now w)); auto with storage.
    + exists e. split; [reflexivity |]. apply (Hstep w); auto.
  - exists (nextNow w). split; [reflexivity |].
    apply (Hstep (exec Date_now w)); auto with storage.
Qed.

Lemma find_absent (i : string) (l : list TrackingSession) :
  (forall s, In s l -> id s <> i) ->
  find (fun s => String.eqb (id s) i) l = None.
Proof.
  induction l as [| x l IH]; intros H; cbn; [reflexivity |].
  destruct (String.eqb_spec (id x) i) as [E | N].
  - exfalso. apply (H x); [now left | exact E].
  - apply IH. intros s Hs. apply H. now right.
Qed.

(** X18. The first summary of a session that is stored only as the
    current-session record, over a storage that answers: the screen finds
    the session through the current-session record; [onSubmit] appends it
    to the completed sessions with the weight of the form in grams and the
    categories of the form, keeps its track, sets its end time, and removes
    the current-session record; [getSession] then returns the saved
    record. *)
Theorem first_summary_completes_the_session
        (w : World) (session : TrackingSession)
        (data : SessionSummary.Form.SessionSummaryFormData) :
  reliable w ->
  currentItem w = Some session ->
  id session <> ""%string ->
  (forall s, In s (completed w) -> id s <> id session) ->
  let w' := exec (SessionSummary.onSubmit (Some session) data) w in
  outcome (SessionSummary.loadSession (Some (id session))) w
  = Resolved (Some session)
  /\ exists saved,
       completed w' = (completed w ++ [saved])%list
       /\ currentItem w' = None
       /\ outcome (storageService.getSession (id session)) w'
          = Resolved (Some saved)
       /\ totalWeightG saved
          = Some (SessionSummary.Math_round
                    (SessionSummary.Form.totalWeightKg data * 1000)%R)
       /\ foundCategories saved
          = Some (SessionSummary.Form.foundCategories data)
       /\ locations saved = locations session
       /\ distance saved = distance session
       /\ startTime saved = startTime session
       /\ exists e, endTime saved = Some e.
Proof.
  intros Hrel Hcur Hid Habs w'.
  split.
  - unfold outcome, SessionSummary.loadSession.
    destruct (String.eqb_spec (id session) "") as [E | _]; [contradiction |].
    unfold bind. rewrite getSession_run, Hrel, (find_absent _ _ Habs).
    rewrite getCurrentSession_run. cbn [ioFault ioCount AsyncStorage.called
      currentItem]. rewrite Hrel, Hcur, String.eqb_refl. reflexivity.
  - destruct (onSubmit_reliable w session data Hrel)
      as (e & _ & Hc & Hcur' & Hrel').
    fold w' in Hc, Hcur', Hrel'.
    eexists. split; [exact Hc |]. split.
    { rewrite Hcur', Hcur, String.eqb_refl. reflexivity. }
    split.
    { unfold outcome. rewrite getSession_run, Hrel', Hc. cbn [fst].
      rewrite find_app_last by apply String.eqb_refl.
      now rewrite (find_absent _ _ Habs). }
    cbn. repeat split. eexists. reflexivity.
Qed.

(** X21. What [onSubmit] does not do. Without a session on the screen
    it does nothing at all. When the storage rejects the append, it ends in
    the alert and the store holds what it held, the current-session record
    included. And over a storage that answers it leaves the current-session
    record of another session where it is. *)
Theorem onSubmit_leaves_alone
        (w : World) (session other_ : TrackingSession)
        (data : SessionSummary.Form.SessionSummaryFormData) (err : Thrown) :
  SessionSummary.onSubmit None data w = (Resolved SessionSummary.NoSession, w)
  /\ (ioFault w (S (ioCount w)) = Some err ->
      outcome (SessionSummary.onSubmit (Some session) data) w
      = Resolved SessionSummary.AlertFailed
      /\ stored (exec (SessionSummary.onSubmit (Some session) data) w)
         = stored w)
  /\ (reliable w -> currentItem w = Some other_ ->
      id other_ <> id session ->
      currentItem (exec (SessionSummary.onSubmit (Some session) data) w)
      = Some other_).
Proof.
  split; [reflexivity |]. split.
  - intros Hko.
    assert (E : exists w1,
               SessionSummary.onSubmit (Some session) data w
               = (Resolved SessionSummary.AlertFailed, w1)
               /\ stored w1 = stored w).
    { assert (Hstep : forall (w0 : World) (e : Z),
                 stored w0 = stored w ->
                 ioFault w0 (S (ioCount w0)) = Some err ->
                 SessionSummary.endTimeOrNow session w = (Resolved e, w0) ->
                 SessionSummary.onSubmit (Some session) data w
                 = (Resolved SessionSummary.AlertFailed, afterCalls 2 w0)).
      { intros w0 e _ Hko0 He. unfold SessionSummary.onSubmit.
        erewrite tryCatch_rejected; cycle 1.
        { erewrite bind_run by exact He.
          erewrite bind_rejected; [reflexivity |].
          rewrite saveSession_run, Hko0. reflexivity. }
        reflexivity. }
      unfold SessionSummary.endTimeOrNow in Hstep.
      destruct (endTime session) as [e |]; [destruct (e =? 0)%Z |].
      - exists (afterCalls 2 (exec Date_now w)).
        split; [| reflexivity]. now apply (Hstep _ (nextNow w)).
      - exists (afterCalls 2 w).
        split; [| reflexivity]. now apply (Hstep _ e).
      - exists (afterCalls 2 (exec Date_now w)).
        split; [| reflexivity]. now apply (Hstep _ (nextNow w)). }
    destruct E as (w1 & E & Hs). unfold outcome, exec. rewrite E.
    split; [reflexivity | exact Hs].
  - intros Hrel Hcur Hne.
    destruct (onSubmit_reliable w session data Hrel) as (e & _ & _ & Hc & _).
    rewrite Hc, Hcur.
    destruct (String.eqb_spec (id other_) (id session));
      [contradiction | reflexivity].
Qed.

(** X22. "Save Without Summary", over a storage that answers, appends
    the session with its end time set and its summary fields as they were,
    and removes the current-session record without looking at its id: the
    record of another session that is being tracked is removed as well. *)
Theorem onSaveWithoutSummary_clears_any_current
        (w : World) (session : TrackingSession) :
  reliable w ->
  let w' := exec (onSaveWithoutSummary session) w in
  exists saved,
    completed w' = (completed w ++ [saved])%list
    /\ id saved = id session
    /\ totalWeightG saved = totalWeightG session
    /\ foundCategories saved = foundCategories session
    /\ locations saved = locations session
    /\ (exists e, endTime saved = Some e)
    /\ (forall e, endTime session = Some e -> e <> 0%Z ->
                  endTime saved = Some e)
    /\ currentItem w' = None.
Proof.
  intros Hrel w'.
  destruct (onSaveWithoutSummary_reliable w session Hrel) as (e & He & Hc & Hn).
  fold w' in Hc, Hn.
  exists (withEndTime session e). split; [exact Hc |].
  cbn. repeat split; try exact Hn; [eexists; reflexivity |].
  intros e0 He0 Hnz. unfold outcome, SessionSummary.endTimeOrNow in He.
  rewrite He0 in He. destruct (Z.eqb_spec e0 0); [contradiction |].
  cbn in He. congruence.
Qed.

(** X20. The form opened on a session shows what is stored: the weight
    of its defaults, converted as [onSubmit] converts it, is the stored
    number of grams (0 when there is none) and its categories are the stored
    ones (none when there are none). Submitting these defaults for a
    session that has a summary and a non-zero end time, over a storage that
    answers, therefore appends a record equal to the session. *)
Theorem formDefaults_round_trip (session : TrackingSession) (w : World) :
  let defaults := formDefaults session in
  SessionSummary.Math_round
    (SessionSummary.Form.totalWeightKg defaults * 1000)%R
  = match totalWeightG session with Some g => g | None => 0%Z end
  /\ SessionSummary.Form.foundCategories defaults
     = match foundCategories session with Some c => c | None => [] end
  /\ (forall g c e,
         reliable w ->
         totalWeightG session = Some g ->
         foundCategories session = Some c ->
         endTime session = Some e -> e <> 0%Z ->
         completed (exec (SessionSummary.onSubmit (Some session) defaults) w)
         = (completed w ++ [session])%list).
Proof.
  intros defaults.
  assert (Hw : SessionSummary.Math_round
                 (SessionSummary.Form.totalWeightKg defaults * 1000)%R
               = match totalWeightG session with Some g => g | None => 0%Z end).
  { unfold defaults, formDefaults. cbn [SessionSummary.Form.totalWeightKg].
    destruct (totalWeightG session) as [g |].
    - destruct (Z.eqb_spec g 0) as [-> | N].
      + replace (0 * 1000)%R with (IZR 0) by (simpl; lra).
        apply Math_round_IZR.
      + replace (IZR g / 1000 * 1000)%R with (IZR g) by field.
        apply Math_round_IZR.
    - replace (0 * 1000)%R with (IZR 0) by (simpl; lra).
      apply Math_round_IZR. }
  split; [exact Hw |]. split; [reflexivity |].
  intros g c e Hrel Hg Hc He Hnz.
  destruct (onSubmit_reliable w session defaults Hrel)
    as (e' & He' & Hcomp & _).
  rewrite Hcomp, Hw. f_equal. f_equal.
  unfold outcome, SessionSummary.endTimeOrNow in He'. rewrite He in He'.
  destruct (Z.eqb_spec e 0); [contradiction |]. cbn in He'.
  injection He' as <-.
  destruct session as [i nm st en locs d du tw fc]. cbn in *.
  subst. reflexivity.
Qed.

(** X19. [loadSession] never rejects and never writes. It returns only
    a session whose id is the one asked for; without an id, or with the
    empty id, it returns nothing and calls nothing. When the reads are
    answered, a completed session with this id wins over the
    current-session record, and the current-session record is returned
    only if no completed session has the id and its own id is the one
    asked for. *)
Theorem loadSession_returns_the_id_asked (w : World) (sessionId : string) :
  SessionSummary.loadSession None w = (Resolved None, w)
  /\ SessionSummary.loadSession (Some ""%string) w = (Resolved None, w)
  /\ stored (exec (SessionSummary.loadSession (Some sessionId)) w) = stored w
  /\ (exists r,
        outcome (SessionSummary.loadSession (Some sessionId)) w = Resolved r
        /\ (forall s, r = Some s -> id s = sessionId)
        /\ (reliable w -> sessionId <> ""%string ->
            forall s,
              find (fun x => String.eqb (id x) sessionId) (completed w)
              = Some s ->
              r = Some s)
        /\ (reliable w -> sessionId <> ""%string ->
            (forall x, In x (completed w) -> id x <> sessionId) ->
            r = match currentItem w with
                | Some c =>
                    if String.eqb (id c) sessionId then Some c else None
                | None => None
                end)).
Proof.
  split; [reflexivity |]. split; [reflexivity |].
  unfold outcome, exec, SessionSummary.loadSession.
  destruct (String.eqb_spec sessionId "") as [E | N].
  { split; [reflexivity |]. exists None. cbn.
    split; [reflexivity |]. split; [discriminate |].
    split; intros; contradiction. }
  unfold bind. rewrite getSession_run.
  set (found := find (fun s => String.eqb (id s) sessionId)
                     match ioFault w (ioCount w) with
                     | Some _ => []
                     | None => completed w
                     end).
  assert (Hfound : forall s, found = Some s -> id s = sessionId).
  { intros s Hs. apply find_some in Hs. now apply String.eqb_eq. }
  destruct found as [s |] eqn:Ef.
  - split; [reflexivity |]. exists (Some s). cbn.
    split; [reflexivity |]. split; [intros s0 [= <-]; now apply Hfound |].
    split.
    + intros Hrel _ s0 Hs0. unfold found in Ef. rewrite Hrel in Ef. congruence.
    + intros Hrel _ Habs. unfold found in Ef. rewrite Hrel in Ef.
      rewrite (find_absent _ _ Habs) in Ef. discriminate.
  - rewrite getCurrentSession_run.
    cbn [ioFault ioCount AsyncStorage.called currentItem].
    set (cur := match ioFault w (S (ioCount w)) with
                | Some _ => None
                | None => currentItem w
                end).
    assert (Hr : exists r,
               (match cur with
                | Some currentSession0 =>
                    if String.eqb (id currentSession0) sessionId
                    then ret (Some currentSession0)
                    else ret None
                | None => ret None
                end) (AsyncStorage.called (AsyncStorage.called w))
               = (Resolved r, AsyncStorage.called (AsyncStorage.called w))
               /\ (forall s, r = Some s -> id s = sessionId)
               /\ r = match cur with
                      | Some c =>
                          if String.eqb (id c) sessionId then Some c else None
                      | None => None
                      end).
    { destruct cur as [c |]; [| exists None; repeat split; discriminate].
      destruct (String.eqb_spec (id c) sessionId) as [Ec | Nc].
      - exists (Some c). repeat split. intros s [= <-]. exact Ec.
      - exists None. repeat split. discriminate. }
    destruct Hr as (r & Er & Hid & Hcur). rewrite Er. cbn [fst snd].
    split; [reflexivity |]. exists r.
    split; [reflexivity |]. split; [exact Hid |]. split.
    + intros Hrel _ s Hs. unfold found in Ef. rewrite Hrel in Ef. congruence.
    + intros Hrel _ _. rewrite Hcur. unfold cur. now rewrite Hrel.
Qed.

End SummaryScreenFacts.

(* ================================================================== *)
(** ** Formatting *)

Section FormatFacts.

Import Format.

Lemma capitalize_value_is_label (c : Category) :
  capitalize (categoryValue c) = categoryLabel c.
Proof. destruct c; reflexivity. Qed.

(** X23. The list of sessions names the categories as the form does:
    for the categories of a session, [formatCategories] gives the labels of
    the table [CATEGORIES], in the order of the list and separated by ", ";
    without categories, or with an empty list, it gives "No categories". *)
Theorem formatCategories_gives_the_labels (categories : list Category) :
  formatCategories None = "No categories"%string
  /\ formatCategories (Some []) = "No categories"%string
  /\ (categories <> [] ->
      formatCategories (Some (map categoryValue categories))
      = join ", " (map categoryLabel categories)).
Proof.
  split; [reflexivity |]. split; [reflexivity |].
  intros Hne. destruct categories as [| c rest]; [congruence |].
  change (formatCategories (Some (map categoryValue (c :: rest))))
    with (join ", " (map capitalize (map categoryValue (c :: rest)))).
  rewrite map_map. f_equal. apply map_ext.
  apply capitalize_value_is_label.
Qed.

Lemma two_digits (n : Z) :
  (0 <= n < 60)%Z ->
  String.length (padStart 2 "0"%char (toString n)) = 2%nat
  /\ padStart 2 "0"%char (toString n)
     = (if (n <? 10)%Z then String "0"%char (toString n) else toString n).
Proof.
  intros H.
  assert (Hall : forall k, (k < 60)%nat ->
             String.length (padStart 2 "0"%char (toString (Z.of_nat k)))
             = 2%nat
             /\ padStart 2 "0"%char (toString (Z.of_nat k))
                = (if (Z.of_nat k <? 10)%Z
                   then String "0"%char (toString (Z.of_nat k))
                   else toString (Z.of_nat k))).
  { intros k Hk.
    do 60 (destruct k as [| k]; [split; reflexivity |]).
    lia. }
  replace n with (Z.of_nat (Z.to_nat n)) by lia.
  apply Hall. lia.
Qed.

(** X24. For a duration that is not negative, [formatDuration] writes
    the whole seconds as hours, minutes and seconds: the three numbers add
    up to the seconds of the duration, minutes and seconds are below 60 and
    are written with exactly two digits, a leading 0 when below 10; under
    one hour the text is the minutes, a colon and the seconds, from one
    hour on the hours come first. *)
Theorem formatDuration_fields (milliseconds : Z) :
  (0 <= milliseconds)%Z ->
  exists hours minutes seconds : Z,
    (0 <= hours)%Z /\ (0 <= minutes < 60)%Z /\ (0 <= seconds < 60)%Z
    /\ (hours * 3600 + minutes * 60 + seconds = milliseconds / 1000)%Z
    /\ (hours = 0 <-> milliseconds < 3600000)%Z
    /\ String.length (padStart 2 "0"%char (toString minutes)) = 2%nat
    /\ String.length (padStart 2 "0"%char (toString seconds)) = 2%nat
    /\ padStart 2 "0"%char (toString seconds)
       = (if (seconds <? 10)%Z then String "0"%char (toString seconds)
          else toString seconds)
    /\ formatDuration milliseconds
       = (if (0 <? hours)%Z
          then toString hours ++ ":" ++ padStart 2 "0"%char (toString minutes)
               ++ ":" ++ padStart 2 "0"%char (toString seconds)
          else toString minutes ++ ":"
               ++ padStart 2 "0"%char (toString seconds))%string.
Proof.
  intros Hms.
  set (ts := (milliseconds / 1000)%Z).
  assert (Hts : (0 <= ts)%Z) by (apply Z.div_pos; lia).
  exists (ts / 3600)%Z, (Z.rem ts 3600 / 60)%Z, (Z.rem ts 60).
  rewrite !Z.rem_mod_nonneg by lia.
  pose proof (Z.mod_pos_bound ts 3600 ltac:(lia)) as H1.
  pose proof (Z.mod_pos_bound ts 60 ltac:(lia)) as H2.
  assert (Hm : (0 <= ts mod 3600 / 60 < 60)%Z).
  { split; [apply Z.div_pos; lia |].
    apply Z.div_lt_upper_bound; lia. }
  assert (Hsum : (ts / 3600 * 3600 + ts mod 3600 / 60 * 60 + ts mod 60
                  = ts)%Z).
  { pose proof (Z.div_mod ts 3600 ltac:(lia)) as D1.
    pose proof (Z.div_mod (ts mod 3600) 60 ltac:(lia)) as D2.
    assert (D3 : ((ts mod 3600) mod 60 = ts mod 60)%Z).
    { symmetry. rewrite D1 at 1.
      replace (3600 * (ts / 3600) + ts mod 3600)%Z
        with (ts mod 3600 + (60 * (ts / 3600)) * 60)%Z by lia.
      apply Z.mod_add. lia. }
    lia. }
  split; [apply Z.div_pos; lia |].
  split; [exact Hm |]. split; [exact H2 |]. split; [exact Hsum |].
  split.
  { unfold ts. split; intros H.
    - assert (milliseconds / 1000 < 3600)%Z.
      { apply Z.nle_gt. intros Hge.
        pose proof (Z.div_le_mono 3600 (milliseconds / 1000) 3600
                      ltac:(lia) Hge) as Hd.
        change (3600 / 3600)%Z with 1%Z in Hd. lia. }
      pose proof (Z.div_mod milliseconds 1000 ltac:(lia)).
      pose proof (Z.mod_pos_bound milliseconds 1000 ltac:(lia)). lia.
    - apply Z.div_small. split; [exact Hts |].
      apply Z.div_lt_upper_bound; lia. }
  split; [apply two_digits, Hm |].
  split; [apply two_digits, H2 |].
  split; [apply two_digits, H2 |].
  unfold formatDuration. fold ts.
  rewrite !Z.rem_mod_nonneg by lia. reflexivity.
Qed.

End FormatFacts.

(* ================================================================== *)
(** ** The list of sessions *)

Section SessionsFacts.

Import Spec Sessions.

Lemma insert_Permutation (x : TrackingSession) (l : list TrackingSession) :
  Permutation (insert newestFirst x l) (x :: l).
Proof.
  induction l as [| y l IH]; cbn; [reflexivity |].
  destruct (newestFirst x y <=? 0)%Z; [reflexivity |].
  rewrite IH. apply perm_swap.
Qed.

Lemma Array_sort_Permutation (l : list TrackingSession) :
  Permutation (Array_sort newestFirst l) l.
Proof.
  induction l as [| x l IH]; cbn; [constructor |].
  rewrite insert_Permutation. now constructor.
Qed.

Lemma insert_sorted (x : TrackingSession) (l : list TrackingSession) :
  StronglySorted newerOrSame l ->
  StronglySorted newerOrSame (insert newestFirst x l).
Proof.
  induction l as [| y l IH]; intros Hs; cbn.
  - constructor; constructor.
  - inversion Hs as [| y' l' Hl Hy]; subst.
    destruct (Z.leb_spec (newestFirst x y) 0) as [Hle | Hgt].
    + constructor; [exact Hs |].
      unfold newestFirst in Hle.
      constructor; [unfold newerOrSame; lia |].
      eapply Forall_impl; [| exact Hy].
      unfold newerOrSame. intros a Ha. lia.
    + constructor; [now apply IH |].
      assert (HP : Permutation (insert newestFirst x l) (x :: l))
        by apply insert_Permutation.
      apply Forall_forall. intros a Ha.
      apply (Permutation_in _ HP) in Ha. destruct Ha as [<- | Ha].
      * unfold newerOrSame, newestFirst in *. lia.
      * rewrite Forall_forall in Hy. now apply Hy.
Qed.

Lemma Array_sort_sorted (l : list TrackingSession) :
  StronglySorted newerOrSame (Array_sort newestFirst l).
Proof.
  induction l as [| x l IH]; cbn; [constructor | now apply insert_sorted].
Qed.

Lemma insert_startedAt (t : Z) (x : TrackingSession)
      (l : list TrackingSession) :
  startedAt t (insert newestFirst x l) = startedAt t (x :: l).
Proof.
  unfold startedAt. induction l as [| y l IH]; cbn; [reflexivity |].
  destruct (Z.leb_spec (newestFirst x y) 0) as [Hle | Hgt]; [reflexivity |].
  cbn. rewrite IH. cbn.
  destruct (Z.eqb_spec (startTime x) t) as [Ex | Nx]; [| reflexivity].
  destruct (Z.eqb_spec (startTime y) t) as [Ey | Ny]; [| reflexivity].
  unfold newestFirst in Hgt. lia.
Qed.

Lemma Array_sort_stable (t : Z) (l : list TrackingSession) :
  startedAt t (Array_sort newestFirst l) = startedAt t l.
Proof.
  induction l as [| x l IH]; cbn [Array_sort]; [reflexivity |].
  rewrite insert_startedAt. unfold startedAt in *. cbn. now rewrite IH.
Qed.

(** X25. [loadSessions] never rejects and never writes. When the read is
    answered, the list it shows holds the completed sessions of the store,
    each as often as it is stored, newest start first, and sessions that
    started at the same time keep their stored order. When the read is
    rejected the list shown is empty. *)
Theorem loadSessions_newest_first (w : World) :
  stored (exec loadSessions w) = stored w
  /\ exists shown,
       outcome loadSessions w = Resolved (Some shown)
       /\ (ioFault w (ioCount w) = None ->
           Permutation shown (completed w)
           /\ StronglySorted newerOrSame shown
           /\ forall t, startedAt t shown = startedAt t (completed w))
       /\ (ioFault w (ioCount w) <> None -> shown = []).
Proof.
  unfold outcome, exec, loadSessions, tryCatch, bind.
  rewrite getSessions_run. cbn [fst snd ret].
  split; [reflexivity |]. eexists. split; [reflexivity |].
  destruct (ioFault w (ioCount w)) as [e |]; split.
  - discriminate.
  - reflexivity.
  - intros _. split; [apply Array_sort_Permutation |].
    split; [apply Array_sort_sorted | intros t; apply Array_sort_stable].
  - congruence.
Qed.

(** X26. The "Delete" of the list, over a storage that answers, shows
    afterwards the completed sessions without any entry of the deleted id,
    newest first; the current-session record is not touched. When the
    storage rejects the write, the handler rejects with that error and the
    store holds what it held. *)
Theorem onDelete_shows_the_rest (w : World) (session : TrackingSession)
        (err : Thrown) :
  (reliable w ->
   exists shown,
     outcome (onDelete session) w = Resolved (Some shown)
     /\ Permutation shown
          (filter (fun s => negb (String.eqb (id s) (id session)))
                  (completed w))
     /\ StronglySorted newerOrSame shown
     /\ (forall s, In s shown -> id s <> id session)
     /\ completed (exec (onDelete session) w)
        = filter (fun s => negb (String.eqb (id s) (id session)))
                 (completed w)
     /\ currentItem (exec (onDelete session) w) = currentItem w)
  /\ (ioFault w (S (ioCount w)) = Some err ->
      outcome (onDelete session) w = Rejected err
      /\ stored (exec (onDelete session) w) = stored w).
Proof.
  split.
  - intros Hrel.
    assert (E : onDelete session w
                = (Resolved
                     (Some (Array_sort newestFirst
                              (filter (fun s => negb (String.eqb (id s)
                                                        (id session)))
                                      (completed w)))),
                   AsyncStorage.called
                     (exec (storageService.deleteSession (id session)) w))).
    { unfold onDelete.
      erewrite bind_run; cycle 1.
      { rewrite deleteSession_run, !Hrel. cbv zeta. reflexivity. }
      unfold loadSessions, tryCatch, bind. rewrite getSessions_run.
      cbn [ioFault ioCount withSessions afterCalls AsyncStorage.store
           AsyncStorage.called]. rewrite Hrel.
      rewrite exec_deleteSession_reliable by assumption. reflexivity. }
    unfold outcome, exec. rewrite E. cbn [fst snd].
    eexists. split; [reflexivity |].
    split; [apply Array_sort_Permutation |].
    split; [apply Array_sort_sorted |].
    split.
    { intros s Hs.
      apply (Permutation_in _ (Array_sort_Permutation _)) in Hs.
      now apply filter_no_match in Hs. }
    rewrite exec_deleteSession_reliable by assumption.
    split; reflexivity.
  - intros Hko. unfold outcome, exec, onDelete.
    erewrite bind_rejected; cycle 1.
    { rewrite deleteSession_run, Hko. cbv zeta. reflexivity. }
    split; reflexivity.
Qed.

End SessionsFacts.

(* ================================================================== *)
(** ** The further properties on concrete runs *)

Section FurtherOnTheScenario.

Import Spec Ingest Scenario Examples.

Lemma reliable_worldTracking : reliable worldTracking.
Proof. intros n. reflexivity. Defined.

(** Saving "session_2" again in the store that holds it. *)
Lemma saveSession_then_getSession_witness :
  reliable worldTwo
  /\ outcome (storageService.getSession "session_2")
             (exec (storageService.saveSession other2) worldTwo)
     = Resolved (Some other2).
Proof.
  split; [exact reliable_worldTwo |].
  destruct (saveSession_then_getSession worldTwo other2 reliable_worldTwo)
    as (_ & _ & H & _).
  exact H.
Defined.

(** Deleting "session_1" and asking for both ids. *)
Lemma deleteSession_then_getSession_witness :
  reliable worldTwo
  /\ "session_2"%string <> "session_1"%string
  /\ outcome (storageService.getSession "session_1")
             (exec (storageService.deleteSession "session_1") worldTwo)
     = Resolved None
  /\ outcome (storageService.getSession "session_2")
             (exec (storageService.deleteSession "session_1") worldTwo)
     = Resolved (Some other2).
Proof.
  assert (Hne : "session_2"%string <> "session_1"%string) by discriminate.
  destruct (deleteSession_then_getSession worldTwo "session_1" "session_2"
              reliable_worldTwo) as (H1 & H2).
  split; [exact reliable_worldTwo |]. split; [exact Hne |].
  split; [exact H1 |]. rewrite (H2 Hne). reflexivity.
Defined.

(** Deleting "session_3", which no record has. *)
Lemma deleteSession_idempotent_witness :
  reliable worldTwo
  /\ (forall s, In s (completed worldTwo) -> id s <> "session_3"%string)
  /\ completed (exec (storageService.deleteSession "session_3") worldTwo)
     = completed worldTwo.
Proof.
  assert (Habs : forall s, In s (completed worldTwo) ->
                           id s <> "session_3"%string).
  { intros s [<- | [<- | [<- | []]]]; discriminate. }
  destruct (deleteSession_idempotent worldTwo "session_3" reliable_worldTwo)
    as (_ & H & _).
  split; [exact reliable_worldTwo |]. split; [exact Habs |].
  exact (H Habs).
Defined.

Lemma saveCurrentSession_then_getCurrentSession_witness :
  reliable world0
  /\ outcome storageService.getCurrentSession
             (exec (storageService.saveCurrentSession (Some first1)) world0)
     = Resolved (Some first1).
Proof.
  split; [exact reliable_world0 |].
  destruct (saveCurrentSession_then_getCurrentSession world0 (Some first1)
              reliable_world0) as (H & _).
  exact H.
Defined.

(** The second call, the write, is rejected; or the first. *)
Lemma storage_failures_witness :
  ioFault (worldTwoFailingAt 1) (S (ioCount (worldTwoFailingAt 1)))
  = Some diskFull
  /\ outcome (storageService.saveSession other2) (worldTwoFailingAt 1)
     = Rejected diskFull
  /\ ioFault (worldTwoFailingAt 0) (ioCount (worldTwoFailingAt 0))
     = Some diskFull
  /\ outcome (storageService.saveCurrentSession None) (worldTwoFailingAt 0)
     = Resolved tt
  /\ stored (exec (storageService.saveCurrentSession None)
                  (worldTwoFailingAt 0))
     = stored (worldTwoFailingAt 0).
Proof.
  destruct (storage_failures (worldTwoFailingAt 1) diskFull other2
              "session_1" None) as (H1 & _).
  destruct (storage_failures (worldTwoFailingAt 0) diskFull other2
              "session_1" None) as (_ & H2 & _).
  destruct (H1 eq_refl) as (Ha & _).
  destruct (H2 eq_refl) as (Hb & Hc).
  split; [reflexivity |]. split; [exact Ha |]. split; [reflexivity |].
  split; [exact Hb | exact Hc].
Defined.

(** The read is rejected and the write accepted: two of three records
    are lost. *)
Lemma failed_read_overwrites_sessions_witness :
  ioFault (worldTwoFailingAt 0) (ioCount (worldTwoFailingAt 0))
  = Some diskFull
  /\ ioFault (worldTwoFailingAt 0) (S (ioCount (worldTwoFailingAt 0))) = None
  /\ completed (worldTwoFailingAt 0) = [summarised1; other2; resubmitted1]
  /\ sessionsItem (exec (storageService.saveSession other2)
                        (worldTwoFailingAt 0))
     = Some [other2].
Proof.
  destruct (failed_read_overwrites_sessions (worldTwoFailingAt 0) diskFull
              other2 "session_1" eq_refl eq_refl) as (_ & H & _).
  split; [reflexivity |]. split; [reflexivity |]. split; [reflexivity |].
  exact H.
Defined.

(** Of the two records of "session_1" the first is returned. *)
Lemma getSession_first_match_witness :
  ioFault worldTwo (ioCount worldTwo) = None
  /\ outcome (storageService.getSession "session_1") worldTwo
     = Resolved (Some summarised1)
  /\ exists before after,
       completed worldTwo = (before ++ summarised1 :: after)%list
       /\ forall x, In x before -> id x <> "session_1"%string.
Proof.
  split; [reflexivity |]. split; [reflexivity |].
  pose proof (getSession_first_match worldTwo "session_1" eq_refl) as H.
  change (outcome (storageService.getSession "session_1") worldTwo)
    with (Resolved (Some summarised1)) in H.
  exact (proj2 H).
Defined.

(** Fix B ingested into "session_1", then a hook mounted again. *)
Lemma ingest_is_written_through_witness :
  currentSession (hook active0) = Some first1
  /\ reliable (world active0)
  /\ exists session,
       currentItem (world (exec (BackgroundHook.handleLocationUpdate fixB)
                                active0))
       = Some session
       /\ locations session = [pointA; toLocationPoint fixB]
       /\ currentSession
            (hook (exec (ForegroundHook.loadActiveSession (Replies denied)
                           (Replies 9%nat))
                        (mkApp mounted
                           (world (exec (BackgroundHook.handleLocationUpdate
                                           fixB) active0)))))
          = Some session.
Proof.
  split; [reflexivity |]. split; [exact reliable_worldActive |].
  destruct (ingest_is_written_through active0 first1 fixB mounted
              (Replies denied) (Replies 9%nat) eq_refl reliable_worldActive
              (exec (BackgroundHook.handleLocationUpdate fixB) active0)
              (or_intror eq_refl))
    as (session & _ & Hl & Hc & Hr).
  exists session. split; [exact Hc |]. split; [exact Hl | exact Hr].
Defined.

(** The write of fix A is rejected, the write of fix B accepted. *)
Lemma rejected_write_is_healed_by_next_ingest_witness :
  currentSession (hook (activeFailingAt 0)) = Some first1
  /\ ioFault (world (activeFailingAt 0)) 0 = Some diskFull
  /\ ioFault (world (activeFailingAt 0)) 1 = None
  /\ exists session,
       currentItem
         (world (exec (ForegroundHook.onLocation fixB)
                      (exec (ForegroundHook.onLocation fixA)
                            (activeFailingAt 0))))
       = Some session
       /\ locations session
          = [pointA; toLocationPoint fixA; toLocationPoint fixB].
Proof.
  split; [reflexivity |]. split; [reflexivity |]. split; [reflexivity |].
  destruct (rejected_write_is_healed_by_next_ingest (activeFailingAt 0)
              first1 fixA fixB diskFull eq_refl eq_refl eq_refl)
    as (_ & _ & _ & session & _ & Hc & Hl).
  exists session. split; [exact Hc | exact Hl].
Defined.

Lemma ingest_changes_only_the_track_witness :
  currentSession (hook active0) = Some first1
  /\ exists session,
       currentSession (hook (exec (ForegroundHook.onLocation fixB) active0))
       = Some session
       /\ id session = "session_1"%string
       /\ List.length (locations session) = 2%nat
       /\ duration session = Some 999%Z.
Proof.
  split; [reflexivity |].
  destruct (ingest_changes_only_the_track active0 first1 fixB eq_refl
              (exec (ForegroundHook.onLocation fixB) active0)
              (or_introl eq_refl))
    as (session & Hs & Hi & _ & _ & _ & _ & _ & Hl & Hd & _).
  exists session. split; [exact Hs |]. split; [exact Hi |].
  split; [exact Hl | exact Hd].
Defined.

(** The permission is denied while "session_1" is tracked. *)
Lemma startTracking_without_permission_witness :
  Replies denied <> Replies granted
  /\ currentSession
       (hook (exec (ForegroundHook.startTracking (Replies denied)
                                                 (Replies 8%nat)) active0))
     = Some first1
  /\ error (hook (exec (ForegroundHook.startTracking (Replies denied)
                                                     (Replies 8%nat)) active0))
     = Some "Location permission not granted"%string.
Proof.
  assert (Hne : Replies denied <> Replies granted) by discriminate.
  destruct (startTracking_without_permission active0 (Replies denied)
              (Replies 8%nat) Hne) as (_ & _ & Hc & _ & _ & He).
  split; [exact Hne |]. split; [exact Hc | exact He].
Defined.

(** Undetermined, then granted on request; the background request
    throws. *)
Lemma requestPermissions_foreground_decides_witness :
  let p := mkPermissions (Replies undetermined) (Replies granted)
                         (Throws diskFull) in
  getForegroundPermissionsAsync p = Replies undetermined
  /\ requestForegroundPermissionsAsync p = Replies granted
  /\ outcome (BackgroundHook.requestPermissions p) idle0 = Resolved true.
Proof.
  intros p.
  destruct (requestPermissions_foreground_decides p idle0)
    as (_ & _ & _ & _ & _ & _ & H & _).
  split; [reflexivity |]. split; [reflexivity |].
  exact (H undetermined eq_refl eq_refl).
Defined.


(** The third call of the stop, the removal, is rejected. *)
Lemma stopTracking_rejected_removal_leaves_record_witness :
  let s' := exec ForegroundHook.stopTracking (activeFailingAt 2) in
  currentSession (hook (activeFailingAt 2)) = Some first1
  /\ currentItem (world (activeFailingAt 2)) = Some first1
  /\ ioFault (world (activeFailingAt 2)) 2 = Some diskFull
  /\ error (hook s') = None
  /\ currentSession (hook s') = None
  /\ currentItem (world s') = Some first1
  /\ currentSession
       (hook (exec (ForegroundHook.loadActiveSession (Replies granted)
                                                     (Replies 9%nat))
                   (mkApp mounted (world s'))))
     = Some first1.
Proof.
  intros s'.
  destruct (stopTracking_rejected_removal_leaves_record (activeFailingAt 2)
              first1 first1 diskFull mounted (Replies granted) (Replies 9%nat)
              eq_refl eq_refl eq_refl eq_refl eq_refl eq_refl)
    as (_ & He & Hc & _ & Hi & Hr & _).
  split; [reflexivity |]. split; [reflexivity |]. split; [reflexivity |].
  split; [exact He |]. split; [exact Hc |]. split; [exact Hi | exact Hr].
Defined.

(** The watcher cannot be started on the hook that tracks. *)
Lemma tracking_has_session_is_kept_witness :
  trackingHasSession (hook active0)
  /\ trackingHasSession
       (hook (exec (ForegroundHook.startTracking (Replies granted)
                                                 (Throws diskFull)) active0)).
Proof.
  assert (H0 : trackingHasSession (hook active0)).
  { intros _. discriminate. }
  destruct (tracking_has_session_is_kept active0 (Replies granted)
              (mkPermissions (Replies granted) (Replies granted)
                             (Replies granted))
              (Replies tt) (Throws diskFull) fixA) as (_ & H).
  destruct (H H0) as (H1 & _).
  split; [exact H0 | exact H1].
Defined.


End FurtherOnTheScenario.

Section FurtherOnTheScreens.

Import Spec Scenario Examples SummaryScreen Format Sessions.

(** Glass is taken out of plastic, glass, metal; paper is put in. *)
Lemma toggleCategory_flips_one_witness :
  NoDup [plastic; glass; metal]
  /\ ~ In paper [plastic; glass; metal]
  /\ toggleCategory glass [plastic; glass; metal] = [plastic; metal]
  /\ NoDup (toggleCategory glass [plastic; glass; metal])
  /\ toggleCategory paper (toggleCategory paper [plastic; glass; metal])
     = [plastic; glass; metal].
Proof.
  assert (Hnd : NoDup [plastic; glass; metal]).
  { repeat constructor; cbn; intuition discriminate. }
  assert (Hout : ~ In paper [plastic; glass; metal]).
  { cbn. intuition discriminate. }
  destruct (toggleCategory_flips_one glass [plastic; glass; metal])
    as (_ & _ & _ & H1 & _).
  destruct (toggleCategory_flips_one paper [plastic; glass; metal])
    as (_ & _ & _ & _ & H2).
  split; [exact Hnd |]. split; [exact Hout |]. split; [reflexivity |].
  split; [exact (H1 Hnd) | exact (H2 Hout)].
Defined.

(** The first summary of "session_1" while it is the current record. *)
Lemma first_summary_completes_the_session_witness :
  let w' := exec (SessionSummary.onSubmit (Some first1) firstForm)
                 worldTracking in
  reliable worldTracking
  /\ currentItem worldTracking = Some first1
  /\ id first1 <> ""%string
  /\ (forall s, In s (completed worldTracking) -> id s <> id first1)
  /\ currentItem w' = None
  /\ exists saved,
       completed w' = [other2; saved]
       /\ foundCategories saved = Some [plastic; glass]
       /\ locations saved = [pointA].
Proof.
  intros w'.
  assert (Hid : id first1 <> ""%string) by discriminate.
  assert (Habs : forall s, In s (completed worldTracking) ->
                           id s <> id first1).
  { intros s [<- | []]. discriminate. }
  destruct (first_summary_completes_the_session worldTracking first1
              firstForm reliable_worldTracking eq_refl Hid Habs)
    as (_ & saved & Hc & Hn & _ & _ & Hf & Hl & _).
  split; [exact reliable_worldTracking |]. split; [reflexivity |].
  split; [exact Hid |]. split; [exact Habs |]. split; [exact Hn |].
  exists saved. split; [exact Hc |]. split; [exact Hf | exact Hl].
Defined.

(** "session_1" is both completed, twice, and the current record. *)
Lemma loadSession_returns_the_id_asked_witness :
  reliable worldTwo
  /\ "session_1"%string <> ""%string
  /\ find (fun x => String.eqb (id x) "session_1") (completed worldTwo)
     = Some summarised1
  /\ outcome (SessionSummary.loadSession (Some "session_1"%string)) worldTwo
     = Resolved (Some summarised1).
Proof.
  assert (Hne : "session_1"%string <> ""%string) by discriminate.
  destruct (loadSession_returns_the_id_asked worldTwo "session_1")
    as (_ & _ & _ & r & Hr & _ & Hfirst & _).
  split; [exact reliable_worldTwo |]. split; [exact Hne |].
  split; [reflexivity |].
  rewrite Hr. f_equal.
  exact (Hfirst reliable_worldTwo Hne summarised1 eq_refl).
Defined.

(** The form of "session_1" submitted as it opens. *)
Lemma formDefaults_round_trip_witness :
  reliable worldCompleted
  /\ totalWeightG summarised1 = Some 2500%Z
  /\ endTime summarised1 = Some 2000%Z
  /\ SessionSummary.Math_round
       (SessionSummary.Form.totalWeightKg (formDefaults summarised1) * 1000)%R
     = 2500%Z
  /\ completed (exec (SessionSummary.onSubmit (Some summarised1)
                        (formDefaults summarised1)) worldCompleted)
     = [summarised1; summarised1].
Proof.
  assert (Hrel : reliable worldCompleted) by (intros n; reflexivity).
  destruct (formDefaults_round_trip summarised1 worldCompleted)
    as (H1 & _ & H2).
  split; [exact Hrel |]. split; [reflexivity |]. split; [reflexivity |].
  split; [exact H1 |].
  apply (H2 2500%Z [plastic; glass] 2000%Z Hrel eq_refl eq_refl eq_refl).
  discriminate.
Defined.

(** The summary of "session_2" is saved while "session_1" is tracked;
    or the append is rejected. *)
Lemma onSubmit_leaves_alone_witness :
  reliable worldTracking
  /\ currentItem worldTracking = Some first1
  /\ id first1 <> id other2
  /\ currentItem (exec (SessionSummary.onSubmit (Some other2) firstForm)
                       worldTracking)
     = Some first1
  /\ ioFault (worldTwoFailingAt 1) (S (ioCount (worldTwoFailingAt 1)))
     = Some diskFull
  /\ outcome (SessionSummary.onSubmit (Some other2) firstForm)
             (worldTwoFailingAt 1)
     = Resolved SessionSummary.AlertFailed.
Proof.
  assert (Hne : id first1 <> id other2) by discriminate.
  destruct (onSubmit_leaves_alone worldTracking other2 first1 firstForm
              diskFull) as (_ & _ & H1).
  destruct (onSubmit_leaves_alone (worldTwoFailingAt 1) other2 first1
              firstForm diskFull) as (_ & H2 & _).
  split; [exact reliable_worldTracking |]. split; [reflexivity |].
  split; [exact Hne |].
  split; [exact (H1 reliable_worldTracking eq_refl Hne) |].
  split; [reflexivity |]. exact (proj1 (H2 eq_refl)).
Defined.

(** "Save Without Summary" on "session_2" while "session_1" is
    tracked. *)
Lemma onSaveWithoutSummary_clears_any_current_witness :
  reliable worldTracking
  /\ currentItem worldTracking = Some first1
  /\ currentItem (exec (onSaveWithoutSummary other2) worldTracking) = None
  /\ exists saved,
       completed (exec (onSaveWithoutSummary other2) worldTracking)
       = [other2; saved]
       /\ id saved = "session_2"%string.
Proof.
  destruct (onSaveWithoutSummary_clears_any_current worldTracking other2
              reliable_worldTracking)
    as (saved & Hc & Hi & _ & _ & _ & _ & _ & Hn).
  split; [exact reliable_worldTracking |]. split; [reflexivity |].
  split; [exact Hn |]. exists saved. split; [exact Hc | exact Hi].
Defined.

Lemma formatCategories_gives_the_labels_witness :
  [plastic; glass] <> []
  /\ formatCategories (Some (map categoryValue [plastic; glass]))
     = "Plastic, Glass"%string.
Proof.
  assert (Hne : [plastic; glass] <> []) by discriminate.
  destruct (formatCategories_gives_the_labels [plastic; glass])
    as (_ & _ & H).
  split; [exact Hne |]. rewrite (H Hne). reflexivity.
Defined.

(** One hour, one minute and five seconds, and a bit. *)
Lemma formatDuration_fields_witness :
  (0 <= 3665400)%Z
  /\ formatDuration 3665400 = "1:01:05"%string
  /\ exists hours minutes seconds : Z,
       (hours * 3600 + minutes * 60 + seconds = 3665400 / 1000)%Z
       /\ (0 <= seconds < 60)%Z.
Proof.
  assert (H0 : (0 <= 3665400)%Z) by lia.
  destruct (formatDuration_fields 3665400 H0)
    as (h & m & sec & _ & _ & Hs & Hsum & _).
  split; [exact H0 |]. split; [reflexivity |].
  exists h, m, sec. split; [exact Hsum | exact Hs].
Defined.

(** The three records of [worldTwo]: "session_2" started last. *)
Lemma loadSessions_newest_first_witness :
  ioFault worldTwo (ioCount worldTwo) = None
  /\ outcome loadSessions worldTwo
     = Resolved (Some [other2; summarised1; resubmitted1])
  /\ exists shown,
       outcome loadSessions worldTwo = Resolved (Some shown)
       /\ Permutation shown (completed worldTwo)
       /\ StronglySorted newerOrSame shown.
Proof.
  split; [reflexivity |]. split; [reflexivity |].
  destruct (loadSessions_newest_first worldTwo) as (_ & shown & Hs & H & _).
  destruct (H eq_refl) as (Hp & Hsorted & _).
  exists shown. split; [exact Hs |]. split; [exact Hp | exact Hsorted].
Defined.

(** "Delete" on "session_1", accepted and rejected. *)
Lemma onDelete_shows_the_rest_witness :
  reliable worldTwo
  /\ completed (exec (onDelete summarised1) worldTwo) = [other2]
  /\ ioFault (worldTwoFailingAt 1) (S (ioCount (worldTwoFailingAt 1)))
     = Some diskFull
  /\ outcome (onDelete summarised1) (worldTwoFailingAt 1) = Rejected diskFull.
Proof.
  destruct (onDelete_shows_the_rest worldTwo summarised1 diskFull)
    as (H1 & _).
  destruct (onDelete_shows_the_rest (worldTwoFailingAt 1) summarised1
              diskFull) as (_ & H2).
  destruct (H1 reliable_worldTwo) as (shown & _ & _ & _ & _ & Hc & _).
  split; [exact reliable_worldTwo |]. split; [exact Hc |].
  split; [reflexivity |]. exact (proj1 (H2 eq_refl)).
Defined.

End FurtherOnTheScreens.
